(** * cc-api: experiments on Curious Containers and their SSH transfer servers

    A shallow embedding of [src/cc-api/cc-api.js]: the classes [SSHServer]
    (port pool, docker start/stop with retries) and [CCExperiment]
    (job description, submission, polling, cancellation), followed by the
    properties of the design document checked against them.

    Conventions of the embedding.
    - JavaScript values are the type [value]; a number is a double, and the
      model holds the integer-valued ones as [Z].  The loop counter of
      [setPortRange] is incremented as a double is ([increment]); a string
      is converted to a number as StringToNumber does ([stringToNumber]).
      The retry counters and the delay of the watchdog are computed exactly.
    - Strings are ASCII.
    - A promise is modelled by the state it settles in ([outcome]); the code
      between two [await]s runs without interleaving, and a call whose promise
      nobody awaits is run to completion where it is made.
    - Everything the process does to the outside (commands, requests, timers)
      is appended to [trace]; what the outside answers is given by the
      [Platform] the program runs on. *)

From Stdlib Require Import ZArith List String Ascii Bool Lia QArith DecimalString.
Import ListNotations.
Open Scope string_scope.
Open Scope Z_scope.
Set Warnings "-register-all".

(* ================================================================= *)
(** ** JavaScript values *)

Module JS.

Inductive value : Type :=
| VUndefined
| VNull
| VBool (b : bool)
| VNum (n : Z)
| VStr (s : string)
| VArr (l : list value)
| VObj (o : list (string * value)).

(** What a promise is rejected with, or what a [throw] carries. *)
Inductive exn : Type :=
| Error (message : string)        (* new Error(message) *)
| TypeError (message : string)    (* raised by the engine *)
| SyntaxError (message : string)  (* raised by JSON.parse *)
| RangeError (message : string)   (* raised by the engine *)
| NoReason.                       (* reject() without argument *)

(** Faults for which the engine raises a TypeError; the wording of the
    message is the engine's. *)
Inductive type_fault : Type :=
| PropertyOfNullish (key : string)
| NotIterable
| NotAFunction (name : string)
| InvalidURL.

Definition string_of_Z (n : Z) : string := NilZero.string_of_int (Z.to_int n).

(** ToString; an array is joined with commas, null and undefined elements
    giving the empty string. *)
Fixpoint toString (v : value) : string :=
  match v with
  | VUndefined => "undefined"
  | VNull => "null"
  | VBool true => "true"
  | VBool false => "false"
  | VNum n => string_of_Z n
  | VStr s => s
  | VArr l =>
      (fix join (l : list value) : string :=
         match l with
         | [] => EmptyString
         | x :: rest =>
             let sx := match x with
                       | VUndefined | VNull => EmptyString
                       | _ => toString x
                       end in
             match rest with
             | [] => sx
             | _ :: _ => sx ++ "," ++ join rest
             end
         end) l
  | VObj _ => "[object Object]"
  end.

(** ToBoolean. *)
Definition truthy (v : value) : bool :=
  match v with
  | VUndefined | VNull => false
  | VBool b => b
  | VNum n => negb (n =? 0)
  | VStr s => negb (s =? EmptyString)%string
  | VArr _ | VObj _ => true
  end.

Definition is_space (c : ascii) : bool :=
  let n := nat_of_ascii c in
  (Nat.eqb n 32 || (Nat.leb 9 n && Nat.leb n 13))%bool.

Fixpoint trimStart (s : string) : string :=
  match s with
  | String c s' => if is_space c then trimStart s' else s
  | EmptyString => EmptyString
  end.

Fixpoint trimEnd (s : string) : string :=
  match s with
  | String c s' =>
      match trimEnd s' with
      | EmptyString => if is_space c then EmptyString else String c EmptyString
      | t => String c t
      end
  | EmptyString => EmptyString
  end.

(** String.prototype.trim, on the ASCII white space and line terminators. *)
Definition trim (s : string) : string := trimEnd (trimStart s).

Definition digit_of (c : ascii) : option Z :=
  let n := nat_of_ascii c in
  if (Nat.leb 48 n && Nat.leb n 57)%bool then Some (Z.of_nat n - 48) else None.

Fixpoint digits (acc : Z) (s : string) : option Z :=
  match s with
  | EmptyString => Some acc
  | String c s' =>
      match digit_of c with
      | Some d => digits (10 * acc + d) s'
      | None => None
      end
  end.

(** *** Numbers as doubles *)

(** [n / d] rounded to the nearest integer, a tie going to the even one
    ([d] positive). *)
Definition round_half_even (n d : Z) : Z :=
  let q := n / d in
  let r := n mod d in
  if 2 * r <? d then q
  else if d <? 2 * r then q + 1
  else if Z.even q then q else q + 1.

(** The double nearest to the integer [x], a tie going to the even
    significand: [x] itself up to 2^53 in magnitude, a multiple of the
    spacing of the doubles around [x] beyond. *)
Definition to_double (x : Z) : Z :=
  let e := Z.log2 (Z.abs x) - 52 in
  if e <=? 0 then x else round_half_even x (2 ^ e) * 2 ^ e.

(** [i++] and [i + 1] on a double. *)
Definition increment (i : Z) : Z := to_double (i + 1).

(** The double the rational [a / b] rounds to ([a] not negative, [b]
    positive), when that double is an integer; [None] when it is a fraction
    or Infinity.  The significand has 53 bits, the exponent is at least
    -1074, and 2^1024 is out of range. *)
Definition integral_double (a b : Z) : option Z :=
  if a =? 0 then Some 0
  else
    let t := Z.log2 a - Z.log2 b in
    let l := if (if 0 <=? t then b * 2 ^ t <=? a else b <=? a * 2 ^ (- t))
             then t else t - 1 in
    let e := Z.max (l - 52) (-1074) in
    if 0 <=? e then
      let v := round_half_even a (b * 2 ^ e) * 2 ^ e in
      if v <? 2 ^ 1024 then Some v else None
    else
      let m := round_half_even (a * 2 ^ (- e)) b in
      if m mod 2 ^ (- e) =? 0 then Some (m / 2 ^ (- e)) else None.

(** [m] times the [x]-th power of ten as a double, when an integer.  Beyond
    10^400 the double is Infinity, and below 10^-399 it is 0. *)
Definition scaled (m x : Z) : option Z :=
  if m =? 0 then Some 0
  else if 400 <? x then None
  else if x <? - 400 - Z.log2 m then Some 0
  else if 0 <=? x then integral_double (m * 10 ^ x) 1
  else integral_double m (10 ^ (- x)).

(** The value of a digit in a radix up to 16, and of a run of such digits. *)
Definition digit_in (base : Z) (c : ascii) : option Z :=
  let n := Z.of_nat (nat_of_ascii c) in
  let d := if ((48 <=? n) && (n <=? 57))%bool then n - 48
           else if ((97 <=? n) && (n <=? 102))%bool then n - 87
           else if ((65 <=? n) && (n <=? 70))%bool then n - 55
           else 16 in
  if d <? base then Some d else None.

Fixpoint digits_in (base acc : Z) (s : string) : option Z :=
  match s with
  | EmptyString => Some acc
  | String c s' =>
      match digit_in base c with
      | Some d => digits_in base (base * acc + d) s'
      | None => None
      end
  end.

(** The decimal digits [s] starts with, and what follows them. *)
Fixpoint span_digits (s : string) : string * string :=
  match s with
  | String c s' =>
      match digit_of c with
      | Some _ => let (d, r) := span_digits s' in (String c d, r)
      | None => (EmptyString, s)
      end
  | EmptyString => (EmptyString, EmptyString)
  end.

(** ExponentPart, if any: [e] or [E], an optional sign, and digits. *)
Definition exponentPart (s : string) : option Z :=
  match s with
  | EmptyString => Some 0
  | String c r =>
      if (Ascii.eqb c "e" || Ascii.eqb c "E")%bool then
        match r with
        | String "-" (String d r') => option_map Z.opp (digits 0 (String d r'))
        | String "+" (String d r') => digits 0 (String d r')
        | String d r' => digits 0 (String d r')
        | EmptyString => None
        end
      else None
  end.

(** StrUnsignedDecimalLiteral: digits with an optional fraction and exponent,
    or a fraction led by the point; "Infinity", which equals no integer, and
    anything else give [None]. *)
Definition unsignedDecimal (s : string) : option Z :=
  let (whole, r1) := span_digits s in
  let (fraction, r2) :=
    match r1 with
    | String "." r => span_digits r
    | _ => (EmptyString, r1)
    end in
  match whole ++ fraction with
  | EmptyString => None
  | mantissa =>
      match digits 0 mantissa, exponentPart r2 with
      | Some m, Some x => scaled m (x - Z.of_nat (String.length fraction))
      | _, _ => None
      end
  end.

(** A literal in radix [base] after its prefix: at least one digit. *)
Definition nonDecimal (base : Z) (s : string) : option Z :=
  match s with
  | EmptyString => None
  | _ =>
      match digits_in base 0 s with
      | Some n => integral_double n 1
      | None => None
      end
  end.

(** StringToNumber, as far as the integers go: white space is trimmed, the
    empty string is 0, and a decimal literal (with sign, fraction and
    exponent) or a binary, octal or hexadecimal literal is the double its
    value rounds to.  [Some n] when that double is the integer [n]; [None]
    when the string converts to NaN, to an infinity or to a fraction, none of
    which equals an integer. *)
Definition stringToNumber (s : string) : option Z :=
  match trim s with
  | EmptyString => Some 0
  | String "0" (String "x" r) | String "0" (String "X" r) => nonDecimal 16 r
  | String "0" (String "o" r) | String "0" (String "O" r) => nonDecimal 8 r
  | String "0" (String "b" r) | String "0" (String "B" r) => nonDecimal 2 r
  | String "-" r => option_map Z.opp (unsignedDecimal r)
  | String "+" r => unsignedDecimal r
  | t => unsignedDecimal t
  end.

Definition toPrimitive (v : value) : value :=
  match v with
  | VArr _ | VObj _ => VStr (toString v)
  | _ => v
  end.

(** ToNumber of a primitive, when an integer; [None] is NaN (or, for a
    string, any number that is no integer). *)
Definition toNumber (v : value) : option Z :=
  match v with
  | VUndefined => None
  | VNull => Some 0
  | VBool b => Some (if b then 1 else 0)
  | VNum n => Some n
  | VStr s => stringToNumber s
  | VArr _ | VObj _ => None
  end.

(** The operator [==].  Two objects are equal only when they are the same
    object; the operands compared in this program never are (one of them is
    fresh from JSON.parse). *)
Definition loose_eq (a b : value) : bool :=
  match a, b with
  | (VUndefined | VNull), (VUndefined | VNull) => true
  | (VUndefined | VNull), _ => false
  | _, (VUndefined | VNull) => false
  | (VArr _ | VObj _), (VArr _ | VObj _) => false
  | _, _ =>
      match toPrimitive a, toPrimitive b with
      | VStr s, VStr t => (s =? t)%string
      | pa, pb =>
          match toNumber pa, toNumber pb with
          | Some x, Some y => x =? y
          | _, _ => false
          end
      end
  end.

Fixpoint lookup (k : string) (o : list (string * value)) : option value :=
  match o with
  | [] => None
  | (k', v) :: o' => if (k =? k')%string then Some v else lookup k o'
  end.

(** [obj[k] = v]: an existing key keeps its place, a new one goes last.
    (Keys that are array indices, which JavaScript enumerates first, are not
    treated apart.) *)
Fixpoint assign (k : string) (v : value) (o : list (string * value))
  : list (string * value) :=
  match o with
  | [] => [(k, v)]
  | (k', v') :: o' =>
      if (k =? k')%string then (k, v) :: o' else (k', v') :: assign k v o'
  end.

(** [v.k] for the response keys this program reads (none of them is a
    built-in member of strings or arrays); [None] is the TypeError of reading
    a property of null or undefined. *)
Definition getProp (v : value) (k : string) : option value :=
  match v with
  | VUndefined | VNull => None
  | VObj o => Some (match lookup k o with Some x => x | None => VUndefined end)
  | _ => Some VUndefined
  end.

(** The elements [for (const x of v)] visits; [None] when [v] is not
    iterable.  A string is visited character by character. *)
Definition iterate (v : value) : option (list value) :=
  match v with
  | VArr l => Some l
  | VStr s => Some (map (fun c => VStr (String c EmptyString)) (list_ascii_of_string s))
  | _ => None
  end.

(** Error.prototype.toString for an error named "Error". *)
Definition Error_toString (message : string) : string :=
  if (message =? EmptyString)%string then "Error" else "Error: " ++ message.

End JS.
Import JS.

(** How a promise (or the call that returns it) ends. *)
Inductive outcome (A : Type) : Type :=
| Resolved (a : A)
| Rejected (e : exn)
| Threw (e : exn)       (* synchronous throw, before any promise exists *)
| Pending.              (* not settled within the timer firings simulated *)
Arguments Resolved {A} a.
Arguments Rejected {A} e.
Arguments Threw {A} e.
Arguments Pending {A}.

(* ================================================================= *)
(** ** The outside world *)

(** The options object of [getWebRequestOptions].  [authorization] holds
    "username:password", which the code sends base64-encoded after "Basic ";
    [contentLength] is present when a body is given. *)
Record request_options : Type := {
  hostname : string;
  port : string;
  path : string;
  method : string;
  authorization : string;
  contentLength : option nat
}.

Record http_request : Type := {
  https : bool;                 (* getRequireProtocol *)
  options : request_options;
  body : option string          (* req.write(post_data) *)
}.

Inductive http_result : Type :=
| Response (statusCode : Z) (text : string)   (* "data" chunks, then "end" *)
| RequestError (message : string)             (* "error" event *)
| RequestThrew (e : exn).                     (* the call of request threw *)

Inductive exec_result : Type :=
| ExecOk (stdout : string)
| ExecError (message : string).

Inductive event : Type :=
| EvExec (cmd : string)              (* child_process.exec(cmd, ...) *)
| EvSetTimeout (delay : value)       (* setTimeout(runner, delay) of a retry loop *)
| EvRequest (r : http_request)       (* a request sent to the agency *)
| EvStartServer                      (* SSHServer.startServer entered *)
| EvStopServer (containerId : value) (* SSHServer.stopServer entered *)
| EvUnhandledRejection (e : exn).    (* a promise nobody awaits was rejected *)

(** The parts of a parsed URL the program reads. *)
Record URL : Type := {
  url_protocol : string;
  url_hostname : string;
  url_port : string;
  url_pathname : string
}.

(** What the program runs on: the answers of the docker command line and of
    the agency (both may depend on everything that happened before), and the
    built-ins whose results are not computed here. *)
Class Platform : Type := {
  exec : list event -> string -> exec_result;
  agency_answer : list event -> http_request -> http_result;
  JSON_parse : string -> value + string;   (* inr: message of the SyntaxError *)
  JSON_stringify : value -> string;
  new_URL : string -> option URL;          (* None: TypeError, invalid URL *)
  TypeError_message : type_fault -> string
}.

(** A path with a character [http.request] refuses: one outside the range
    0x21-0xff, which in ASCII is the space or a control character below it. *)
Definition unescaped (path : string) : bool :=
  existsb (fun c => (nat_of_ascii c <? 33)%nat) (list_ascii_of_string path).

(** [http.request(options, callback)] (or that of [https]): the call throws
    a TypeError when the path holds a character it refuses, before anything is
    sent; otherwise the request is sent and the agency answers. *)
Definition request {P : Platform} (tr : list event) (r : http_request)
  : http_result :=
  if unescaped (path (options r))
  then RequestThrew (TypeError "Request path contains unescaped characters")
  else agency_answer tr r.

(** Process-wide state: the static [SSHServer.availablePorts], the trace, and
    the timers of [setTimeout] that are armed (experiment watchdogs). *)
Record World : Type := {
  availablePorts : list Z;
  trace : list event;
  armedTimers : list nat;
  nextTimer : nat
}.

Definition log (ev : event) (w : World) : World :=
  {| availablePorts := availablePorts w;
     trace := trace w ++ [ev];
     armedTimers := armedTimers w;
     nextTimer := nextTimer w |}.

Definition set_availablePorts (l : list Z) (w : World) : World :=
  {| availablePorts := l;
     trace := trace w;
     armedTimers := armedTimers w;
     nextTimer := nextTimer w |}.

(** Array.prototype.shift. *)
Definition shift {A : Type} (l : list A) : option A * list A :=
  match l with
  | [] => (None, [])
  | x :: l' => (Some x, l')
  end.

(* ================================================================= *)
(** ** class SSHServer *)

Module SSHServer.

Record t : Type := {
  sharedDirectory : value;
  image : string;
  insidePort : Z;
  containerPrefix : string;
  dockerSharedDirectory : string;
  maxStartRetries : Z;
  startTimeout : Z;
  maxStopRetries : Z;
  stopTimeout : Z;
  reservePortTimeout : Z;
  reservePortMaxTime : Z;
  username : string;
  password : string;
  reservedPort : option Z;        (* None: undefined *)
  containerName : value;
  containerId : value;
  reservePort_overwritten : bool  (* own property [reservePort] set to undefined *)
}.

Definition default_image : string :=
  "lscr.io/linuxserver/openssh-server:9.3_p2-r0-ls132".

(** [new SSHServer(sharedDirectory, image, insidePort)]; the two random
    strings of [generateRandomString] are given by the caller. *)
Definition new (sharedDirectory : value) (image : string) (insidePort : Z)
    (username password : string) : t :=
  {| sharedDirectory := sharedDirectory;
     image := image;
     insidePort := insidePort;
     containerPrefix := "sshserver_";
     dockerSharedDirectory := "/shared";
     maxStartRetries := 3;
     startTimeout := 10000;
     maxStopRetries := 3;
     stopTimeout := 10000;
     reservePortTimeout := 30000;
     reservePortMaxTime := 3600000;
     username := username;
     password := password;
     reservedPort := None;
     containerName := VUndefined;
     containerId := VUndefined;
     reservePort_overwritten := false |}.

Definition set_reservedPort (p : option Z) (s : t) : t :=
  {| sharedDirectory := sharedDirectory s; image := image s;
     insidePort := insidePort s; containerPrefix := containerPrefix s;
     dockerSharedDirectory := dockerSharedDirectory s;
     maxStartRetries := maxStartRetries s; startTimeout := startTimeout s;
     maxStopRetries := maxStopRetries s; stopTimeout := stopTimeout s;
     reservePortTimeout := reservePortTimeout s;
     reservePortMaxTime := reservePortMaxTime s;
     username := username s; password := password s;
     reservedPort := p;
     containerName := containerName s; containerId := containerId s;
     reservePort_overwritten := reservePort_overwritten s |}.

Definition set_containerName (v : value) (s : t) : t :=
  {| sharedDirectory := sharedDirectory s; image := image s;
     insidePort := insidePort s; containerPrefix := containerPrefix s;
     dockerSharedDirectory := dockerSharedDirectory s;
     maxStartRetries := maxStartRetries s; startTimeout := startTimeout s;
     maxStopRetries := maxStopRetries s; stopTimeout := stopTimeout s;
     reservePortTimeout := reservePortTimeout s;
     reservePortMaxTime := reservePortMaxTime s;
     username := username s; password := password s;
     reservedPort := reservedPort s;
     containerName := v; containerId := containerId s;
     reservePort_overwritten := reservePort_overwritten s |}.

Definition set_containerId (v : value) (s : t) : t :=
  {| sharedDirectory := sharedDirectory s; image := image s;
     insidePort := insidePort s; containerPrefix := containerPrefix s;
     dockerSharedDirectory := dockerSharedDirectory s;
     maxStartRetries := maxStartRetries s; startTimeout := startTimeout s;
     maxStopRetries := maxStopRetries s; stopTimeout := stopTimeout s;
     reservePortTimeout := reservePortTimeout s;
     reservePortMaxTime := reservePortMaxTime s;
     username := username s; password := password s;
     reservedPort := reservedPort s;
     containerName := containerName s; containerId := v;
     reservePort_overwritten := reservePort_overwritten s |}.

(** [this.reservePort = undefined]: the method of that name is shadowed. *)
Definition overwrite_reservePort (s : t) : t :=
  {| sharedDirectory := sharedDirectory s; image := image s;
     insidePort := insidePort s; containerPrefix := containerPrefix s;
     dockerSharedDirectory := dockerSharedDirectory s;
     maxStartRetries := maxStartRetries s; startTimeout := startTimeout s;
     maxStopRetries := maxStopRetries s; stopTimeout := stopTimeout s;
     reservePortTimeout := reservePortTimeout s;
     reservePortMaxTime := reservePortMaxTime s;
     username := username s; password := password s;
     reservedPort := reservedPort s;
     containerName := containerName s; containerId := containerId s;
     reservePort_overwritten := true |}.

(** [static getExistingSSHServer(containerId, reservedPort)]. *)
Definition getExistingSSHServer (containerId : value) (reservedPort : option Z)
    (username password : string) : t :=
  set_reservedPort reservedPort
    (set_containerId containerId
       (new VUndefined default_image 2222 username password)).

(** The longest an array can be: 2^32 - 1 elements. *)
Definition max_array_length : Z := 4294967295.

(** [static setPortRange(firstPort, lastPort)].  [push_range] is the [for]
    loop, of which [fuel] iterations are followed: it is [Pending] when the
    loop is still running after them.  The counter is a double, so [i++] may
    leave it as it is; [push] throws a RangeError on an array that is full.
    The pool is the new array from the first iteration on. *)
Fixpoint push_range (fuel : nat) (i lastPort : Z) (ports : list Z)
  : outcome unit * list Z :=
  if i <=? lastPort then
    if Z.of_nat (List.length ports) <? max_array_length then
      match fuel with
      | O => (Pending, ports)
      | S fuel' => push_range fuel' (increment i) lastPort (ports ++ [i])
      end
    else (Threw (RangeError "Invalid array length"), ports)
  else (Resolved tt, ports).

Definition setPortRange (fuel : nat) (firstPort lastPort : Z) (w : World)
  : outcome unit * World :=
  if firstPort >? lastPort then (Resolved tt, w)
  else
    let (o, ports) := push_range fuel firstPort lastPort [] in
    (o, set_availablePorts ports w).

(** [freePort()]. *)
Definition freePort (s : t) (w : World) : t * World :=
  match reservedPort s with
  | Some p =>
      if truthy (VNum p)
      then (overwrite_reservePort s,
            set_availablePorts (availablePorts w ++ [p]) w)
      else (s, w)
  | None => (s, w)
  end.

(** *** fetchAndWaitForPort *)

(** What [this] is when [runner] runs: the server for [runner.call(this)],
    the timer object when [setTimeout] calls it back. *)
Inductive this_binding : Type :=
| ThisServer (s : t)
| ThisTimeout.

Definition this_reservePortMaxTime (this : this_binding) : value :=
  match this with
  | ThisServer s => VNum (reservePortMaxTime s)
  | ThisTimeout => VUndefined
  end.

Definition this_reservePortTimeout (this : this_binding) : value :=
  match this with
  | ThisServer s => VNum (reservePortTimeout s)
  | ThisTimeout => VUndefined
  end.

(** The quotient [a / b] of two values, as an exact rational. *)
Inductive quotient : Type :=
| NaN
| Infinite (positive : bool)
| Finite (q : Q).

Definition divide (a b : value) : quotient :=
  match toNumber a, toNumber b with
  | Some x, Some y =>
      if y =? 0 then
        if x =? 0 then NaN else Infinite (0 <? x)
      else Finite (Qmake (x * Z.sgn y) (Z.to_pos (Z.abs y)))
  | _, _ => NaN
  end.

(** [n > q]; false against NaN. *)
Definition greater (n : Z) (q : quotient) : bool :=
  match q with
  | NaN => false
  | Infinite positive => negb positive
  | Finite q => negb (Qle_bool (inject_Z n) q)
  end.

(** [runner]: one run per unit of [fuel] after the first (each further run
    is a timer firing); while it runs nobody else touches the pool. *)
Fixpoint fetch_runner (fuel : nat) (this : this_binding) (retries : Z)
    (w : World) : outcome Z * World :=
  match shift (availablePorts w) with
  | (Some reservedPort, rest) =>
      (Resolved reservedPort, set_availablePorts rest w)
  | (None, _) =>
      if greater retries
           (divide (this_reservePortMaxTime this) (this_reservePortTimeout this))
      then (Rejected NoReason, w)
      else
        let w' := log (EvSetTimeout (this_reservePortTimeout this)) w in
        match fuel with
        | O => (Pending, w')
        | S fuel' => fetch_runner fuel' ThisTimeout (retries + 1) w'
        end
  end.

Definition fetchAndWaitForPort (fuel : nat) (s : t) (w : World)
  : outcome Z * World :=
  fetch_runner fuel (ThisServer s) 0 w.

Section OnPlatform.
Context {P : Platform}.

(** [reservePort()]. *)
Definition reservePort (fuel : nat) (s : t) (w : World)
  : outcome Z * t * World :=
  if reservePort_overwritten s
  then (Threw (TypeError (TypeError_message (NotAFunction "reservePort"))), s, w)
  else
    match fetchAndWaitForPort fuel s w with
    | (Resolved p, w') => (Resolved p, set_reservedPort (Some p) s, w')
    | (Rejected e, w') => (Rejected e, s, w')
    | (Threw e, w') => (Rejected e, s, w')
    | (Pending, w') => (Pending, s, w')
    end.

(** *** runDockerCommand *)

(** [runner] of [runDockerCommand]: [exec], and on an error either a timer
    that runs it again or the rejection.  [fuel] bounds the timer firings. *)
Fixpoint docker_runner (fuel : nat) (cmd : string) (maxRetries timeout : Z)
    (retries : Z) (w : World) : outcome string * World :=
  let w1 := log (EvExec cmd) w in
  match exec (trace w) cmd with
  | ExecError error =>
      if retries <? maxRetries then
        let w2 := log (EvSetTimeout (VNum timeout)) w1 in
        match fuel with
        | O => (Pending, w2)
        | S fuel' => docker_runner fuel' cmd maxRetries timeout (retries + 1) w2
        end
      else (Rejected (Error (Error_toString error)), w1)
  | ExecOk stdout => (Resolved stdout, w1)
  end.

Definition runDockerCommand (cmd : string) (maxRetries timeout : Z) (w : World)
  : outcome string * World :=
  docker_runner (Z.to_nat maxRetries) cmd maxRetries timeout 0 w.

(** [error.message] inside a [catch]; [error] may be anything thrown. *)
Definition message_of (e : exn) : string + exn :=
  match e with
  | Error m | TypeError m | SyntaxError m | RangeError m => inl m
  | NoReason => inr (TypeError (TypeError_message (PropertyOfNullish "message")))
  end.

(** [catch (error) { throw new Error(prefix + error.message) }]. *)
Definition rethrow (prefix : string) (e : exn) : exn :=
  match message_of e with
  | inl m => Error (prefix ++ m)
  | inr e' => e'
  end.

(** *** startServer *)

Definition startCommand (s : t) (reservedPort : Z) (containerName : string)
  : string :=
  "docker run" ++
  " -p " ++ string_of_Z reservedPort ++ ":" ++ string_of_Z (insidePort s) ++
  " -v " ++ toString (sharedDirectory s) ++ ":" ++ dockerSharedDirectory s ++
  " -e PUID=1000" ++
  " -e PGID=1000" ++
  " -e PASSWORD_ACCESS=true" ++
  " -e USER_NAME=" ++ username s ++
  " -e USER_PASSWORD=" ++ password s ++
  " -d" ++
  " --name " ++ containerName ++
  " " ++ image s.

Definition startServer (s : t) (w : World) : outcome unit * t * World :=
  let w := log EvStartServer w in
  match reservedPort s with
  | None =>
      (Rejected (rethrow "Failed to start server: "
                   (Error "Reserve a Port before starting the server!")), s, w)
  | Some p =>
      let name := containerPrefix s ++ string_of_Z p in
      let s := set_containerName (VStr name) s in
      match runDockerCommand (startCommand s p name)
              (maxStartRetries s) (startTimeout s) w with
      | (Resolved stdout, w') =>
          (Resolved tt, set_containerId (VStr (trim stdout)) s, w')
      | (Rejected e, w') | (Threw e, w') =>
          (Rejected (rethrow "Failed to start server: " e), s, w')
      | (Pending, w') => (Pending, s, w')
      end
  end.

(** *** stopServer *)

Definition stopServer (s : t) (w : World) : outcome unit * t * World :=
  let w := log (EvStopServer (containerId s)) w in
  match runDockerCommand ("docker stop " ++ toString (containerId s))
          (maxStopRetries s) (stopTimeout s) w with
  | (Resolved _, w1) =>
      match runDockerCommand ("docker rm " ++ toString (containerId s))
              (maxStopRetries s) (stopTimeout s) w1 with
      | (Resolved _, w2) =>
          let (s', w3) := freePort s w2 in (Resolved tt, s', w3)
      | (Rejected e, w2) | (Threw e, w2) =>
          (Rejected (rethrow "Failed to remove server: " e), s, w2)
      | (Pending, w2) => (Pending, s, w2)
      end
  | (Rejected e, w1) | (Threw e, w1) =>
      (Rejected (rethrow "Failed to remove server: " e), s, w1)
  | (Pending, w1) => (Pending, s, w1)
  end.

(** A call [sshServer.stopServer()] whose promise is dropped: the server is
    stopped as above, and a rejection goes unhandled. *)
Definition stopServer_detached (s : t) (w : World) : t * World :=
  match stopServer s w with
  | (Rejected e, s', w') | (Threw e, s', w') =>
      (s', log (EvUnhandledRejection e) w')
  | (_, s', w') => (s', w')
  end.

End OnPlatform.
End SSHServer.

(* ================================================================= *)
(** ** Connectors, inputs and outputs *)

(** [String.prototype.toLowerCase] on ASCII letters. *)
Fixpoint toLowerCase (s : string) : string :=
  match s with
  | EmptyString => EmptyString
  | String c s' =>
      let n := nat_of_ascii c in
      String (if (Nat.leb 65 n && Nat.leb n 90)%bool
              then ascii_of_nat (n + 32) else c)
             (toLowerCase s')
  end.

(** [CCConnector] and its subclasses; [auth] is absent until [setAuth]. *)
Inductive CCConnector : Type :=
| Connector (auth : option value)
| CCSSHConnector (host path : string) (port : Z)
    (isDirectory isMountable : bool) (auth : option value)
| CCHTTPConnector (url method : string) (disableSSLVerification : bool)
    (auth : option value)
| CCFTPConnector (url : string) (auth : option value).

Definition with_auth (a : value) (c : CCConnector) : CCConnector :=
  match c with
  | Connector _ => Connector (Some a)
  | CCSSHConnector h p n d m _ => CCSSHConnector h p n d m (Some a)
  | CCHTTPConnector u m d _ => CCHTTPConnector u m d (Some a)
  | CCFTPConnector u _ => CCFTPConnector u (Some a)
  end.

(** [setAuth(type, username, credential, passphrase)]. *)
Definition setAuth (type username : string) (credential passphrase : value)
    (c : CCConnector) : CCConnector :=
  let auth := [("username", VStr username)] in
  let auth :=
    if (toLowerCase type =? "password")%string
    then assign "password" credential auth
    else if (toLowerCase type =? "privatekey")%string
    then
      let auth := assign "privateKey" credential auth in
      if truthy passphrase then assign "passphrase" passphrase auth else auth
    else auth in
  with_auth (VObj auth) c.

Section Documents.
Context {P : Platform}.

(** [getRED()] of a connector; the base class has no such method. *)
Definition getRED (c : CCConnector) : value + exn :=
  match c with
  | Connector _ => inr (TypeError (TypeError_message (NotAFunction "getRED")))
  | CCSSHConnector host path port isDirectory isMountable auth =>
      match auth with
      | None => inr (Error "No authentification method set! Use setAuth().")
      | Some auth =>
          let access := [("host", VStr host); ("port", VNum port); ("auth", auth)] in
          let access :=
            if isDirectory then assign "dirPath" (VStr path) access
            else assign "filePath" (VStr path) access in
          let red := [("command", VStr "red-connector-ssh"); ("access", VObj access)] in
          inl (VObj (if isMountable then assign "mount" (VBool true) red else red))
      end
  | CCHTTPConnector url method disableSSLVerification auth =>
      let access := [("url", VStr url); ("method", VStr method);
                     ("disableSSLVerification", VBool disableSSLVerification)] in
      let access :=
        match auth with
        | Some auth => assign "auth" auth access
        | None => access
        end in
      inl (VObj [("command", VStr "red-connector-http"); ("access", VObj access)])
  | CCFTPConnector url _ =>
      inl (VObj [("command", VStr "red-connector-ftp");
                 ("access", VObj [("url", VStr url)])])
  end.

(** [this.connector.getRED()] where the connector may be undefined. *)
Definition connector_getRED (c : option CCConnector) : value + exn :=
  match c with
  | Some c => getRED c
  | None => inr (TypeError (TypeError_message (PropertyOfNullish "getRED")))
  end.

End Documents.

Module CCInput.

Record t : Type := {
  name : string;
  type : string;
  position : value;
  connector : option CCConnector;
  value_ : value               (* [this.value], set by setStringValue *)
}.

Definition new (name type : string) (position : value)
    (connector : option CCConnector) : t :=
  {| name := name; type := type; position := position;
     connector := connector; value_ := VUndefined |}.

Definition setStringValue (v : value) (i : t) : t :=
  {| name := name i; type := type i; position := position i;
     connector := connector i; value_ := v |}.

Definition setConnector (c : CCConnector) (i : t) : t :=
  {| name := name i; type := type i; position := position i;
     connector := Some c; value_ := value_ i |}.

Definition getREDCliInput (i : t) : value :=
  VObj [("type", VStr (type i));
        ("inputBinding", VObj [("position", position i)])].

Definition getREDInput {P : Platform} (i : t) : value + exn :=
  if (type i =? "string")%string then inl (value_ i)
  else
    match connector_getRED (connector i) with
    | inl red => inl (VObj [("class", VStr (type i)); ("connector", red)])
    | inr e => inr e
    end.

End CCInput.

Module CCOutput.

Record t : Type := {
  name : string;
  type : string;
  glob : value;
  connector : option CCConnector
}.

Definition new (name type : string) (glob : value)
    (connector : option CCConnector) : t :=
  {| name := name; type := type; glob := glob; connector := connector |}.

Definition setConnector (c : CCConnector) (o : t) : t :=
  {| name := name o; type := type o; glob := glob o; connector := Some c |}.

Definition getREDCliOutput (o : t) : value :=
  let cli := [("type", VStr (type o))] in
  VObj (if truthy (glob o)
        then assign "outputBinding" (VObj [("glob", glob o)]) cli
        else cli).

Definition getREDOutput {P : Platform} (o : t) : value + exn :=
  match connector_getRED (connector o) with
  | inl red => inl (VObj [("class", VStr (type o)); ("connector", red)])
  | inr e => inr e
  end.

End CCOutput.

(* ================================================================= *)
(** ** class CCExperiment *)

Module CCExperiment.

Record t : Type := {
  ccAgencyUrl : string;
  ccAgencyUsername : string;
  ccAgencyPassword : string;
  baseComand : value;
  image : value;
  ram : value;
  timeout : Z;
  inputs : list CCInput.t;
  outputs : list CCOutput.t;
  gpus : list value;
  currentStatus : value;
  experimentId : value;
  batchId : value;
  debugInfo : value;
  sshServer : option SSHServer.t;  (* None: undefined *)
  red : option value;  (* None: not created yet *)
  timeoutFunction : option nat  (* the timer of startTimeoutTimer *)
}.

Definition set_inputs (x : list CCInput.t) (e : t) : t :=
  {| ccAgencyUrl := ccAgencyUrl e; ccAgencyUsername := ccAgencyUsername e;
     ccAgencyPassword := ccAgencyPassword e; baseComand := baseComand e;
     image := image e; ram := ram e; timeout := timeout e; inputs := x;
     outputs := outputs e; gpus := gpus e; currentStatus := currentStatus e;
     experimentId := experimentId e; batchId := batchId e;
     debugInfo := debugInfo e; sshServer := sshServer e; red := red e;
     timeoutFunction := timeoutFunction e |}.

Definition set_outputs (x : list CCOutput.t) (e : t) : t :=
  {| ccAgencyUrl := ccAgencyUrl e; ccAgencyUsername := ccAgencyUsername e;
     ccAgencyPassword := ccAgencyPassword e; baseComand := baseComand e;
     image := image e; ram := ram e; timeout := timeout e;
     inputs := inputs e; outputs := x; gpus := gpus e;
     currentStatus := currentStatus e; experimentId := experimentId e;
     batchId := batchId e; debugInfo := debugInfo e;
     sshServer := sshServer e; red := red e;
     timeoutFunction := timeoutFunction e |}.

Definition set_gpus (x : list value) (e : t) : t :=
  {| ccAgencyUrl := ccAgencyUrl e; ccAgencyUsername := ccAgencyUsername e;
     ccAgencyPassword := ccAgencyPassword e; baseComand := baseComand e;
     image := image e; ram := ram e; timeout := timeout e;
     inputs := inputs e; outputs := outputs e; gpus := x;
     currentStatus := currentStatus e; experimentId := experimentId e;
     batchId := batchId e; debugInfo := debugInfo e;
     sshServer := sshServer e; red := red e;
     timeoutFunction := timeoutFunction e |}.

Definition set_currentStatus (x : value) (e : t) : t :=
  {| ccAgencyUrl := ccAgencyUrl e; ccAgencyUsername := ccAgencyUsername e;
     ccAgencyPassword := ccAgencyPassword e; baseComand := baseComand e;
     image := image e; ram := ram e; timeout := timeout e;
     inputs := inputs e; outputs := outputs e; gpus := gpus e;
     currentStatus := x; experimentId := experimentId e;
     batchId := batchId e; debugInfo := debugInfo e;
     sshServer := sshServer e; red := red e;
     timeoutFunction := timeoutFunction e |}.

Definition set_experimentId (x : value) (e : t) : t :=
  {| ccAgencyUrl := ccAgencyUrl e; ccAgencyUsername := ccAgencyUsername e;
     ccAgencyPassword := ccAgencyPassword e; baseComand := baseComand e;
     image := image e; ram := ram e; timeout := timeout e;
     inputs := inputs e; outputs := outputs e; gpus := gpus e;
     currentStatus := currentStatus e; experimentId := x;
     batchId := batchId e; debugInfo := debugInfo e;
     sshServer := sshServer e; red := red e;
     timeoutFunction := timeoutFunction e |}.

Definition set_batchId (x : value) (e : t) : t :=
  {| ccAgencyUrl := ccAgencyUrl e; ccAgencyUsername := ccAgencyUsername e;
     ccAgencyPassword := ccAgencyPassword e; baseComand := baseComand e;
     image := image e; ram := ram e; timeout := timeout e;
     inputs := inputs e; outputs := outputs e; gpus := gpus e;
     currentStatus := currentStatus e; experimentId := experimentId e;
     batchId := x; debugInfo := debugInfo e; sshServer := sshServer e;
     red := red e; timeoutFunction := timeoutFunction e |}.

Definition set_debugInfo (x : value) (e : t) : t :=
  {| ccAgencyUrl := ccAgencyUrl e; ccAgencyUsername := ccAgencyUsername e;
     ccAgencyPassword := ccAgencyPassword e; baseComand := baseComand e;
     image := image e; ram := ram e; timeout := timeout e;
     inputs := inputs e; outputs := outputs e; gpus := gpus e;
     currentStatus := currentStatus e; experimentId := experimentId e;
     batchId := batchId e; debugInfo := x; sshServer := sshServer e;
     red := red e; timeoutFunction := timeoutFunction e |}.

Definition set_sshServer (x : option SSHServer.t) (e : t) : t :=
  {| ccAgencyUrl := ccAgencyUrl e; ccAgencyUsername := ccAgencyUsername e;
     ccAgencyPassword := ccAgencyPassword e; baseComand := baseComand e;
     image := image e; ram := ram e; timeout := timeout e;
     inputs := inputs e; outputs := outputs e; gpus := gpus e;
     currentStatus := currentStatus e; experimentId := experimentId e;
     batchId := batchId e; debugInfo := debugInfo e; sshServer := x;
     red := red e; timeoutFunction := timeoutFunction e |}.

Definition set_red (x : option value) (e : t) : t :=
  {| ccAgencyUrl := ccAgencyUrl e; ccAgencyUsername := ccAgencyUsername e;
     ccAgencyPassword := ccAgencyPassword e; baseComand := baseComand e;
     image := image e; ram := ram e; timeout := timeout e;
     inputs := inputs e; outputs := outputs e; gpus := gpus e;
     currentStatus := currentStatus e; experimentId := experimentId e;
     batchId := batchId e; debugInfo := debugInfo e;
     sshServer := sshServer e; red := x;
     timeoutFunction := timeoutFunction e |}.

Definition set_timeoutFunction (x : option nat) (e : t) : t :=
  {| ccAgencyUrl := ccAgencyUrl e; ccAgencyUsername := ccAgencyUsername e;
     ccAgencyPassword := ccAgencyPassword e; baseComand := baseComand e;
     image := image e; ram := ram e; timeout := timeout e;
     inputs := inputs e; outputs := outputs e; gpus := gpus e;
     currentStatus := currentStatus e; experimentId := experimentId e;
     batchId := batchId e; debugInfo := debugInfo e;
     sshServer := sshServer e; red := red e; timeoutFunction := x |}.

(** [new CCExperiment(ccAgencyUrl, ..., ram, timeout)]. *)
Definition new (ccAgencyUrl ccAgencyUsername ccAgencyPassword : string)
    (baseComand image ram : value) (timeout : Z) : t :=
  {| ccAgencyUrl := ccAgencyUrl; ccAgencyUsername := ccAgencyUsername;
     ccAgencyPassword := ccAgencyPassword; baseComand := baseComand;
     image := image; ram := ram; timeout := timeout;
     inputs := []; outputs := []; gpus := [];
     currentStatus := VStr "unknown"; experimentId := VUndefined;
     batchId := VUndefined; debugInfo := VUndefined;
     sshServer := None; red := None; timeoutFunction := None |}.

Definition getExistingExperiment
    (ccAgencyUrl ccAgencyUsername ccAgencyPassword : string)
    (experimentId : value) : t :=
  set_experimentId experimentId
    (new ccAgencyUrl ccAgencyUsername ccAgencyPassword
       VUndefined VUndefined VUndefined 0).

Definition addInput (input : CCInput.t) (e : t) : t :=
  set_inputs (inputs e ++ [input]) e.

Definition addOutput (output : CCOutput.t) (e : t) : t :=
  set_outputs (outputs e ++ [output]) e.

Definition addGPU (vramMin : value) (amount : Z) (e : t) : t :=
  set_gpus (gpus e ++ repeat (VObj [("vramMin", vramMin)]) (Z.to_nat amount)) e.

Definition setSSHServer (s : SSHServer.t) (e : t) : t :=
  set_sshServer (Some s) e.

(** *** The watchdog timer *)

Definition setTimeout (delay : Z) (w : World) : nat * World :=
  (nextTimer w,
   {| availablePorts := availablePorts w;
      trace := trace w ++ [EvSetTimeout (VNum delay)];
      armedTimers := nextTimer w :: armedTimers w;
      nextTimer := S (nextTimer w) |}).

Definition clearTimeout (id : nat) (w : World) : World :=
  {| availablePorts := availablePorts w;
     trace := trace w;
     armedTimers := List.remove Nat.eq_dec id (armedTimers w);
     nextTimer := nextTimer w |}.

Definition startTimeoutTimer (e : t) (w : World) : t * World :=
  if timeout e >? 0 then
    let (id, w') := setTimeout (timeout e * 1000 * 60) w in
    (set_timeoutFunction (Some id) e, w')
  else (e, w).

Definition clearTimeoutTimer (e : t) (w : World) : World :=
  match timeoutFunction e with
  | Some id => clearTimeout id w
  | None => w
  end.

(** *** Requests *)

Definition getWebRequestOptions (e : t) (url : URL) (path method : string)
    (data : option string) : request_options :=
  {| hostname := url_hostname url;
     port := if (url_port url =? EmptyString)%string then "8080" else url_port url;
     path := url_pathname url ++ path;
     method := method;
     authorization := ccAgencyUsername e ++ ":" ++ ccAgencyPassword e;
     contentLength :=
       match data with
       | Some d => if (d =? EmptyString)%string then None else Some (String.length d)
       | None => None
       end |}.

Definition getRequireProtocol (protocol : string) : bool :=
  (protocol =? "https:")%string.

(** The request each method of the class makes from [url]: the options of
    [getWebRequestOptions], sent with the module of [getRequireProtocol]. *)
Definition build_request (e : t) (url : URL) (path method : string)
    (data : option string) : http_request :=
  {| https := getRequireProtocol (url_protocol url);
     options := getWebRequestOptions e url path method data;
     body := data |}.

Definition parse_failed (message : string) : exn :=
  Error ("Failed to parse the response data: " ++ message).

Definition request_failed (message : string) : exn :=
  Error ("HTTP request error: " ++ message).

Section OnPlatform.
Context {P : Platform}.

(** [req_prot.request(options, ...)] inside the executor of the promise: a
    request that is sent is recorded; when the call throws, nothing is sent
    and the promise is rejected with what was thrown. *)
Definition send (r : http_request) (w : World) : http_result * World :=
  match request (trace w) r with
  | RequestThrew ex => (RequestThrew ex, w)
  | answer => (answer, log (EvRequest r) w)
  end.

Definition invalid_URL : exn := TypeError (TypeError_message InvalidURL).

(** *** The job description *)

Definition getREDCli (e : t) : value :=
  let ins :=
    fold_left (fun o i => assign (CCInput.name i) (CCInput.getREDCliInput i) o)
              (inputs e) [] in
  let outs :=
    fold_left (fun o x => assign (CCOutput.name x) (CCOutput.getREDCliOutput x) o)
              (outputs e) [] in
  VObj [("cwlVersion", VStr "v1.0");
        ("class", VStr "CommandLineTool");
        ("baseCommand", baseComand e);
        ("inputs", VObj ins);
        ("outputs", VObj outs);
        ("stdout", VStr "stdout.txt");
        ("stderr", VStr "stderr.txt")].

Fixpoint redInputs (l : list CCInput.t) (o : list (string * value))
  : list (string * value) + exn :=
  match l with
  | [] => inl o
  | input :: l' =>
      match CCInput.getREDInput input with
      | inl v => redInputs l' (assign (CCInput.name input) v o)
      | inr ex => inr ex
      end
  end.

Definition getREDInputs (e : t) : value + exn :=
  match inputs e with
  | [] => inr (Error "No inputs defined! Add at least one input.")
  | _ :: _ =>
      match redInputs (inputs e) [] with
      | inl o => inl (VObj o)
      | inr ex => inr ex
      end
  end.

Fixpoint redOutputs (l : list CCOutput.t) (o : list (string * value))
  : list (string * value) + exn :=
  match l with
  | [] => inl o
  | output :: l' =>
      match CCOutput.getREDOutput output with
      | inl v => redOutputs l' (assign (CCOutput.name output) v o)
      | inr ex => inr ex
      end
  end.

Definition getREDOutputs (e : t) : value + exn :=
  match redOutputs (outputs e) [] with
  | inl o => inl (VObj o)
  | inr ex => inr ex
  end.

Definition getREDContainer (e : t) : value :=
  let settings := [("image", VObj [("url", image e)]); ("ram", ram e)] in
  let settings :=
    match gpus e with
    | [] => settings
    | _ :: _ =>
        assign "gpus" (VObj [("vendor", VStr "nvidia"); ("devices", VArr (gpus e))])
               settings
    end in
  VObj [("engine", VStr "docker"); ("settings", VObj settings)].

Definition getREDExecution (e : t) : value :=
  VObj [("engine", VStr "ccagency");
        ("settings",
         VObj [("access",
                VObj [("url", VStr (ccAgencyUrl e));
                      ("auth",
                       VObj [("username", VStr (ccAgencyUsername e));
                             ("password", VStr (ccAgencyPassword e))])])])].

(** [createRED()]: the members of the literal are evaluated in order, and
    [this.red] is assigned only when none of them throws. *)
Definition createRED (e : t) : t + exn :=
  let cli := getREDCli e in
  match getREDInputs e with
  | inr ex => inr ex
  | inl ins =>
      match getREDOutputs e with
      | inr ex => inr ex
      | inl outs =>
          inl (set_red
                 (Some (VObj [("redVersion", VStr "9");
                              ("cli", cli);
                              ("inputs", ins);
                              ("outputs", outs);
                              ("container", getREDContainer e);
                              ("execution", getREDExecution e)]))
                 e)
      end
  end.

(** *** getBatchId *)

(** The loop over the batches of the response, inside its [try]. *)
Fixpoint find_batch (experimentId : value) (batches : list value)
  : outcome value :=
  match batches with
  | [] => Rejected (Error "Experiment ID not found.")
  | batch :: rest =>
      match getProp batch "experimentId", getProp batch "_id" with
      | Some id, Some _id =>
          if loose_eq id experimentId then Resolved _id
          else find_batch experimentId rest
      | _, _ =>
          Rejected (parse_failed (TypeError_message (PropertyOfNullish "experimentId")))
      end
  end.

Definition getBatchId (e : t) (w : World) : outcome value * World :=
  match new_URL (ccAgencyUrl e) with
  | None => (Threw invalid_URL, w)
  | Some url =>
      let r := build_request e url
                 ("batches?experimentId=" ++ toString (experimentId e)) "GET" None in
      match send r w with
      | (Response _ buffer, w') =>
          match JSON_parse buffer with
          | inl json_response =>
              match iterate json_response with
              | Some batches => (find_batch (experimentId e) batches, w')
              | None =>
                  (Rejected (parse_failed (TypeError_message NotIterable)), w')
              end
          | inr m => (Rejected (parse_failed m), w')
          end
      | (RequestError m, w') => (Rejected (request_failed m), w')
      | (RequestThrew ex, w') => (Rejected ex, w')
      end
  end.

(** [if (!this.batchId) { try { this.batchId = await this.getBatchId(); }
    catch (err) { return ... } }]: [None] when the [catch] was taken. *)
Definition resolve_batchId (e : t) (w : World) : option t * World :=
  if truthy (batchId e) then (Some e, w)
  else
    match getBatchId e w with
    | (Resolved id, w') => (Some (set_batchId id e), w')
    | (_, w') => (None, w')
    end.

(** [if (this.sshServer) { this.sshServer.stopServer(); }] *)
Definition stop_attached_server (e : t) (w : World) : t * World :=
  match sshServer e with
  | Some s =>
      let (s', w') := SSHServer.stopServer_detached s w in
      (set_sshServer (Some s') e, w')
  | None => (e, w)
  end.

(** *** startExperiment *)

Definition startExperiment (e : t) (w : World) : outcome value * t * World :=
  match (match red e with Some _ => inl e | None => createRED e end) with
  | inr ex => (Rejected ex, e, w)
  | inl e =>
      let '(started, e, w) :=
        match sshServer e with
        | Some s =>
            let '(o, s', w') := SSHServer.startServer s w in
            (o, set_sshServer (Some s') e, w')
        | None => (Resolved tt, e, w)
        end in
      match started with
      | Rejected ex | Threw ex => (Rejected ex, e, w)
      | Pending => (Pending, e, w)
      | Resolved _ =>
          match new_URL (ccAgencyUrl e) with
          | None => (Rejected invalid_URL, e, w)
          | Some url =>
              let post_data :=
                JSON_stringify (match red e with Some r => r | None => VUndefined end) in
              let r := build_request e url "red" "POST" (Some post_data) in
              match send r w with
              | (Response _ buffer, w) =>
                  match JSON_parse buffer with
                  | inl json_response =>
                      match getProp json_response "experimentId" with
                      | Some id =>
                          if truthy id then
                            let e := set_experimentId id e in
                            let (e, w) := startTimeoutTimer e w in
                            (Resolved (experimentId e), e, w)
                          else
                            (Rejected (Error "Experiment ID not returned in the response."),
                             e, w)
                      | None =>
                          (Rejected (parse_failed
                                       (TypeError_message (PropertyOfNullish "experimentId"))),
                           e, w)
                      end
                  | inr m => (Rejected (parse_failed m), e, w)
                  end
              | (RequestError m, w) =>
                  let (e, w) := stop_attached_server e w in
                  (Rejected (request_failed m), e, w)
              | (RequestThrew ex, w) => (Rejected ex, e, w)
              end
          end
      end
  end.

(** *** cancelExperiment *)

Definition cancelExperiment (e : t) (w : World) : outcome bool * t * World :=
  match resolve_batchId e w with
  | (None, w) => (Resolved false, e, w)
  | (Some e, w) =>
      let w := clearTimeoutTimer e w in
      match new_URL (ccAgencyUrl e) with
      | None => (Rejected invalid_URL, e, w)
      | Some url =>
          let r := build_request e url
                     ("batches/" ++ toString (batchId e)) "DELETE" None in
          match send r w with
          | (Response _ buffer, w) =>
              match JSON_parse buffer with
              | inl json_response =>
                  match getProp json_response "state" with
                  | Some state =>
                      let (e, w) := stop_attached_server e w in
                      (Resolved (loose_eq state (VStr "cancelled")), e, w)
                  | None =>
                      (Rejected (parse_failed
                                   (TypeError_message (PropertyOfNullish "state"))),
                       e, w)
                  end
              | inr m => (Rejected (parse_failed m), e, w)
              end
          | (RequestError m, w) => (Rejected (request_failed m), e, w)
          | (RequestThrew ex, w) => (Rejected ex, e, w)
          end
      end
  end.

(** *** fetchCurrentStatus *)

(** [for (const historyElement of json_response.history) { if
    (historyElement.state == "failed") { this.debugInfo = ...; break; } }] *)
Fixpoint scan_history (history : list value) (e : t) : t + exn :=
  match history with
  | [] => inl e
  | historyElement :: rest =>
      match getProp historyElement "state", getProp historyElement "debugInfo" with
      | Some state, Some info =>
          if loose_eq state (VStr "failed") then inl (set_debugInfo info e)
          else scan_history rest e
      | _, _ =>
          inr (parse_failed (TypeError_message (PropertyOfNullish "state")))
      end
  end.

(** The body of the [try] once the response is parsed. *)
Definition on_status (json_response : value) (e : t) (w : World)
  : outcome value * t * World :=
  match getProp json_response "state", getProp json_response "history" with
  | Some state, Some history =>
      let e := set_currentStatus state e in
      let scanned :=
        if loose_eq (currentStatus e) (VStr "failed") then
          match iterate history with
          | Some l => scan_history l e
          | None => inr (parse_failed (TypeError_message NotIterable))
          end
        else inl e in
      match scanned with
      | inl e =>
          let (e, w) :=
            if (loose_eq (currentStatus e) (VStr "succeeded")
                || loose_eq (currentStatus e) (VStr "failed"))%bool
            then stop_attached_server e (clearTimeoutTimer e w)
            else (e, w) in
          (Resolved (currentStatus e), e, w)
      | inr ex => (Rejected ex, e, w)
      end
  | _, _ =>
      (Rejected (parse_failed (TypeError_message (PropertyOfNullish "state"))), e, w)
  end.

Definition fetchCurrentStatus (e : t) (w : World) : outcome value * t * World :=
  match resolve_batchId e w with
  | (None, w) => (Resolved (currentStatus e), e, w)
  | (Some e, w) =>
      match new_URL (ccAgencyUrl e) with
      | None => (Rejected invalid_URL, e, w)
      | Some url =>
          let r := build_request e url
                     ("batches/" ++ toString (batchId e)) "GET" None in
          match send r w with
          | (Response _ buffer, w) =>
              match JSON_parse buffer with
              | inl json_response => on_status json_response e w
              | inr m => (Rejected (parse_failed m), e, w)
              end
          | (RequestError m, w) => (Rejected (request_failed m), e, w)
          | (RequestThrew ex, w) => (Rejected ex, e, w)
          end
      end
  end.

(** *** getStd, getStdout, getStderr *)

Definition getStd (stream : string) (e : t) (w : World) : outcome string * World :=
  match new_URL (ccAgencyUrl e) with
  | None => (Threw invalid_URL, w)
  | Some url =>
      let r := build_request e url
                 ("batches/" ++ toString (batchId e) ++ "/" ++ stream) "GET" None in
      match send r w with
      | (Response statusCode buffer, w) =>
          (Resolved (if statusCode >=? 400 then EmptyString else buffer), w)
      | (RequestError m, w) => (Rejected (request_failed m), w)
      | (RequestThrew ex, w) => (Rejected ex, w)
      end
  end.

Definition getStdout (e : t) (w : World) : outcome string * World :=
  getStd "stdout" e w.

Definition getStderr (e : t) (w : World) : outcome string * World :=
  getStd "stderr" e w.

(** *** The watchdog fires *)

(** The callback of [startTimeoutTimer], run by the timer if it is still
    armed: [this.cancelExperiment()], its promise dropped. *)
Definition timeout_fires (e : t) (w : World) : t * World :=
  match timeoutFunction e with
  | Some id =>
      if existsb (Nat.eqb id) (armedTimers w) then
        match cancelExperiment e (clearTimeout id w) with
        | (Rejected ex, e', w') | (Threw ex, e', w') =>
            (e', log (EvUnhandledRejection ex) w')
        | (_, e', w') => (e', w')
        end
      else (e, w)
  | None => (e, w)
  end.

End OnPlatform.
End CCExperiment.

(* ================================================================= *)
(** ** class DefaultExperiment extends CCExperiment *)

Module DefaultExperiment.

(** [createDefaultIO(sharedDirectory, scriptFile, dataset, output, host)];
    [username] and [password] are the random strings the new server draws,
    [fuel] the timer firings its port reservation may take. *)
Definition createDefaultIO {P : Platform} (fuel : nat) (username password : string)
    (sharedDirectory : value) (scriptFile dataset output host : string)
    (e : CCExperiment.t) (w : World) : outcome unit * CCExperiment.t * World :=
  let sshServer :=
    SSHServer.new sharedDirectory SSHServer.default_image 2222 username password in
  match SSHServer.reservePort fuel sshServer w with
  | (Resolved sshPort, sshServer, w) =>
      let e := CCExperiment.setSSHServer sshServer e in
      let scriptFilePath := SSHServer.dockerSharedDirectory sshServer ++ "/" ++ scriptFile in
      let datasetPath := SSHServer.dockerSharedDirectory sshServer ++ "/" ++ dataset in
      let outputPath := SSHServer.dockerSharedDirectory sshServer ++ "/" ++ output in
      let auth :=
        setAuth "password" (SSHServer.username sshServer)
          (VStr (SSHServer.password sshServer)) VUndefined in
      let inputConnectorScript :=
        auth (CCSSHConnector host scriptFilePath sshPort false false None) in
      let inputConnectorData :=
        auth (CCSSHConnector host datasetPath sshPort false false None) in
      let outputConnectorDirectory :=
        auth (CCSSHConnector host outputPath sshPort true false None) in
      let inputScript :=
        CCInput.new "script" "File" (VNum 0) (Some inputConnectorScript) in
      let inputData :=
        CCInput.new "data" "File" (VNum 1) (Some inputConnectorData) in
      let outputDirectory :=
        CCOutput.new "output_directory" "Directory" (VStr "outputs/")
          (Some outputConnectorDirectory) in
      let e := CCExperiment.addInput inputScript e in
      let e := CCExperiment.addInput inputData e in
      let e := CCExperiment.addOutput outputDirectory e in
      (Resolved tt, e, w)
  | (Rejected ex, _, w) | (Threw ex, _, w) => (Rejected ex, e, w)
  | (Pending, _, w) => (Pending, e, w)
  end.

End DefaultExperiment.

(* ================================================================= *)
(** ** SSHServer.generateRandomString *)

Module Random.

(** The digit of [n < 16] in [Buffer.toString('hex')]: lower case. *)
Definition hex_digit (n : N) : ascii :=
  if (n <? 10)%N then ascii_of_N (48 + n) else ascii_of_N (87 + n).

(** A byte as its two hexadecimal digits, the high one first. *)
Definition hex_of_byte (b : Byte.byte) : string :=
  let n := Byte.to_N b in
  String (hex_digit (n / 16)) (String (hex_digit (n mod 16)) EmptyString).

(** [buffer.toString('hex')]. *)
Fixpoint toString_hex (buffer : list Byte.byte) : string :=
  match buffer with
  | [] => EmptyString
  | b :: rest => hex_of_byte b ++ toString_hex rest
  end.

(** [generateRandomString()], on the bytes [crypto.randomBytes(8)] drew. *)
Definition generateRandomString (randomBytes : list Byte.byte) : string :=
  toString_hex randomBytes.

(** [new SSHServer(...)] with the sixteen bytes its constructor draws: the
    first eight make the user name, the next eight the password. *)
Definition newSSHServer (sharedDirectory : value) (image : string) (insidePort : Z)
    (forUsername forPassword : list Byte.byte) : SSHServer.t :=
  SSHServer.new sharedDirectory image insidePort
    (generateRandomString forUsername) (generateRandomString forPassword).

End Random.

(* ================================================================= *)
(** * Vocabulary of the properties *)

Open Scope list_scope.

(** ** Traces *)

(** The world after the events [evs] have been appended to its trace. *)
Definition extend (evs : list event) (w : World) : World :=
  {| availablePorts := availablePorts w;
     trace := trace w ++ evs;
     armedTimers := armedTimers w;
     nextTimer := nextTimer w |}.

(** The commands given to [exec], in order. *)
Definition execs (tr : list event) : list string :=
  flat_map (fun ev => match ev with EvExec cmd => [cmd] | _ => [] end) tr.

(** How often [stopServer] was entered. *)
Definition stops (tr : list event) : nat :=
  List.length (filter (fun ev => match ev with EvStopServer _ => true | _ => false end) tr).

(** The requests sent, in order. *)
Definition requests (tr : list event) : list http_request :=
  flat_map (fun ev => match ev with EvRequest r => [r] | _ => [] end) tr.



(** ** A platform for the examples *)

Module Scenario.

Definition quote : string := String (ascii_of_nat 34) EmptyString.
Definition newline : string := String (ascii_of_nat 10) EmptyString.

(** JSON text: a string literal, and a member [k: text] of an object. *)
Definition str (s : string) : string := (quote ++ s ++ quote)%string.
Definition member (k text : string) : string := (str k ++ ":" ++ text)%string.

(** A serializer for the job description: JSON.stringify on values whose
    strings need no escaping. *)
Fixpoint stringify (v : value) : string :=
  match v with
  | VUndefined | VNull => "null"
  | VBool true => "true"
  | VBool false => "false"
  | VNum n => string_of_Z n
  | VStr s => str s
  | VArr l =>
      ("[" ++
       (fix elements (l : list value) : string :=
          match l with
          | [] => EmptyString
          | x :: rest =>
              match rest with
              | [] => stringify x
              | _ :: _ => stringify x ++ "," ++ elements rest
              end
          end) l
       ++ "]")%string
  | VObj o =>
      ("{" ++
       (fix members (first : bool) (o : list (string * value)) : string :=
          match o with
          | [] => EmptyString
          | (_, VUndefined) :: rest => members first rest
          | (k, x) :: rest =>
              (if first then EmptyString else ",") ++ member k (stringify x)
              ++ members false rest
          end) true o
       ++ "}")%string
  end.

(** The response texts of the examples, with the values JSON.parse gives
    for them. *)
Definition documents : list value :=
  [ VObj [("experimentId", VStr "exp1")];
    VObj [];
    VArr [VObj [("_id", VStr "batch1"); ("experimentId", VStr "exp1")]];
    VObj [("state", VStr "processing"); ("history", VArr [])];
    VObj [("state", VStr "succeeded"); ("history", VArr [])];
    VObj [("state", VStr "cancelled"); ("history", VArr [])];
    VObj [("state", VStr "failed");
          ("history",
           VArr [VObj [("state", VStr "processing"); ("debugInfo", VNull)];
                 VObj [("state", VStr "failed"); ("debugInfo", VStr "first")];
                 VObj [("state", VStr "failed"); ("debugInfo", VStr "second")]])] ].

Definition submitted : string := stringify (nth 0 documents VNull).
Definition no_identifier : string := stringify (nth 1 documents VNull).
Definition batches : string := stringify (nth 2 documents VNull).
Definition processing : string := stringify (nth 3 documents VNull).
Definition succeeded : string := stringify (nth 4 documents VNull).
Definition cancelled : string := stringify (nth 5 documents VNull).
Definition failed_twice : string := stringify (nth 6 documents VNull).

(** JSON.parse on the texts above; any other text counts as malformed. *)
Definition parse (text : string) : value + string :=
  match find (fun v => (stringify v =? text)%string) documents with
  | Some v => inl v
  | None => inr "Unexpected token"
  end.

Definition agency_url : string := "http://127.0.0.1:8090/".

Definition parse_url (s : string) : option URL :=
  if (s =? agency_url)%string
  then Some {| url_protocol := "http:"; url_hostname := "127.0.0.1";
               url_port := "8090"; url_pathname := "/" |}
  else None.

(** The docker command line: the command [cmd] fails [failures cmd] times,
    then prints a container identifier. *)
Definition docker (failures : string -> nat) (tr : list event) (cmd : string)
  : exec_result :=
  if (count_occ string_dec (execs tr) cmd <? failures cmd)%nat
  then ExecError ("Command failed: " ++ cmd)%string
  else ExecOk ("c0ffee" ++ newline)%string.

(** The agency: [submit] answers the POST of the job description, [status]
    the GET of the batch, [stream] the GET of stdout or stderr. *)
Definition agency (submit status stream : http_result) (tr : list event)
    (r : http_request) : http_result :=
  let p := path (options r) in
  let m := method (options r) in
  if (m =? "POST")%string then submit
  else if (m =? "DELETE")%string then Response 200 cancelled
  else if (p =? "/batches?experimentId=exp1")%string then Response 200 batches
  else if (p =? "/batches/batch1")%string then status
  else stream.

(** The answer of an agency that cannot be reached. *)
Definition offline : http_result :=
  RequestError "connect ECONNREFUSED 127.0.0.1:8090".

Definition messages (f : type_fault) : string :=
  match f with
  | PropertyOfNullish k => ("Cannot read properties of undefined (reading '" ++ k ++ "')")%string
  | NotIterable => "object is not iterable"
  | NotAFunction name => (name ++ " is not a function")%string
  | InvalidURL => "Invalid URL"
  end.

Definition platform_where (failures : string -> nat)
    (submit status stream : http_result) : Platform :=
  {| exec := docker failures;
     agency_answer := agency submit status stream;
     JSON_parse := parse;
     JSON_stringify := stringify;
     new_URL := parse_url;
     TypeError_message := messages |}.

(** Every command fails [failures] times. *)
Definition platform (failures : nat) (submit status stream : http_result)
  : Platform :=
  platform_where (fun _ => failures) submit status stream.

Definition world (ports : list Z) : World :=
  {| availablePorts := ports; trace := []; armedTimers := []; nextTimer := 0 |}.

(** [new SSHServer("~/shared")], with the two random strings it drew. *)
Definition server : SSHServer.t :=
  SSHServer.new (VStr "~/shared") SSHServer.default_image 2222
    "3f9a1c0b7d2e4f68" "a85d0e6c41b97f23".

Definition other_server : SSHServer.t :=
  SSHServer.new (VStr "~/other") SSHServer.default_image 2222
    "6b1f0a9e8c7d5432" "0c4e2a6b8d1f3597".

(** The server above once it has reserved port 5000 and been started. *)
Definition started_server : SSHServer.t :=
  SSHServer.set_containerId (VStr "c0ffee")
    (SSHServer.set_containerName (VStr "sshserver_5000")
       (SSHServer.set_reservedPort (Some 5000) server)).

Definition connector (path : string) (isDirectory : bool) : CCConnector :=
  setAuth "password" (SSHServer.username server)
    (VStr (SSHServer.password server)) VUndefined
    (CCSSHConnector "127.0.0.1" path 5000 isDirectory false None).

(** An experiment wired as [createDefaultIO] does: a script and a data set
    as inputs, a directory as output, all through the server's port. *)
Definition experiment (s : SSHServer.t) : CCExperiment.t :=
  CCExperiment.addOutput
    (CCOutput.new "output_directory" "Directory" (VStr "outputs/")
       (Some (connector "/shared/." true)))
    (CCExperiment.addInput
       (CCInput.new "data" "File" (VNum 1)
          (Some (connector "/shared/input/sleep.RData" false)))
       (CCExperiment.addInput
          (CCInput.new "script" "File" (VNum 0)
             (Some (connector "/shared/input/workload.py" false)))
          (CCExperiment.setSSHServer s
             (CCExperiment.new agency_url "agency_user" "agency_password"
                (VStr "python3") (VStr "dprobst/curious_containers:python")
                (VNum 256) 0)))).

(** The same experiment after its submission was answered with "exp1". *)
Definition submitted_experiment : CCExperiment.t :=
  CCExperiment.set_experimentId (VStr "exp1") (experiment started_server).

End Scenario.

(** ** The history of a batch *)

Definition is_failed (historyElement : value) : bool :=
  match getProp historyElement "state" with
  | Some state => loose_eq state (VStr "failed")
  | None => false
  end.

(** The diagnostic of the first entry, in the order of the response, whose
    state is "failed". *)
Definition first_failed (history : list value) : option value :=
  match filter is_failed history with
  | historyElement :: _ => getProp historyElement "debugInfo"
  | [] => None
  end.

(** The design document's "most recent failed entry", a history listing the
    states of a batch in the order it entered them: the diagnostic of the
    last entry whose state is "failed". *)
Definition most_recent_failed (history : list value) : option value :=
  match rev (filter is_failed history) with
  | historyElement :: _ => getProp historyElement "debugInfo"
  | [] => None
  end.

(** ** The port pool *)



(** ** Polling *)

(** [n] calls of [fetchCurrentStatus] in a row. *)
Fixpoint polls {P : Platform} (n : nat) (e : CCExperiment.t) (w : World)
  : CCExperiment.t * World :=
  match n with
  | O => (e, w)
  | S n' =>
      let '(_, e', w') := CCExperiment.fetchCurrentStatus e w in
      polls n' e' w'
  end.

(** ** Frames *)

(** The events a docker command leaves: calls of [exec] and retry timers. *)
Definition docker_event (ev : event) : bool :=
  match ev with
  | EvExec _ | EvSetTimeout _ => true
  | _ => false
  end.

(** The events that concern nothing but one server: those of its docker
    commands, the marks of [startServer] and [stopServer], and a rejection
    nobody handles. *)
Definition server_event (ev : event) : bool :=
  match ev with
  | EvRequest _ => false
  | _ => true
  end.

(** The watchdog of [e] can no longer fire on [w]. *)
Definition disarmed (e : CCExperiment.t) (w : World) : Prop :=
  match CCExperiment.timeoutFunction e with
  | Some id => ~ In id (armedTimers w)
  | None => True
  end.

(** ** Hexadecimal strings *)

Definition is_hex_digit (c : ascii) : bool :=
  let n := nat_of_ascii c in
  ((Nat.leb 48 n && Nat.leb n 57) || (Nat.leb 97 n && Nat.leb n 102))%bool.

Fixpoint all_chars (p : ascii -> bool) (s : string) : bool :=
  match s with
  | EmptyString => true
  | String c s' => (p c && all_chars p s')%bool
  end.

(** The value of a hexadecimal digit, and the bytes a hexadecimal string
    stands for (read back two digits at a time). *)
Definition hex_value (c : ascii) : N :=
  let n := N_of_ascii c in
  if (n <? 58)%N then n - 48 else n - 87.

Fixpoint bytes_of_hex (s : string) : list Byte.byte :=
  match s with
  | String c1 (String c2 s') =>
      match Byte.of_N (16 * hex_value c1 + hex_value c2) with
      | Some b => b :: bytes_of_hex s'
      | None => []
      end
  | _ => []
  end.

(** ** Reading documents *)

(** The member of [v] reached through the keys [ks]; [None] when a key is
    missing on the way. *)
Fixpoint at_path (v : value) (ks : list string) : option value :=
  match ks with
  | [] => Some v
  | k :: ks' =>
      match v with
      | VObj o =>
          match lookup k o with
          | Some x => at_path x ks'
          | None => None
          end
      | _ => None
      end
  end.

(** The input added last under the name [k]. *)
Definition last_named (k : string) (l : list CCInput.t) : option CCInput.t :=
  find (fun i => (CCInput.name i =? k)%string) (rev l).

(** ** Batches and states *)

(** The batch belongs to the experiment identified by [experimentId]. *)
Definition belongs_to (experimentId : value) (batch : value) : bool :=
  match getProp batch "experimentId" with
  | Some id => loose_eq id experimentId
  | None => false
  end.

(** The state ends the life of a batch as [fetchCurrentStatus] sees it. *)
Definition terminal (state : value) : bool :=
  (loose_eq state (VStr "succeeded") || loose_eq state (VStr "failed"))%bool.

(** ** Frames of the experiment's operations *)

(** [w'] is [w] with events added to the trace and another pool: the
    timers are the same. *)
Definition grown (w w' : World) : Prop :=
  exists ports evs, w' = set_availablePorts ports (extend evs w).

(** [e'] is [e] but for the server attached. *)
Definition same_but_server (e e' : CCExperiment.t) : Prop :=
  exists x, e' = CCExperiment.set_sshServer x e.

(** ** An experiment with a watchdog *)

Module Timed.

(** The experiment of the examples with a timeout of one minute, after its
    submission was answered with "exp1" and armed timer 0. *)
Definition experiment : CCExperiment.t :=
  CCExperiment.set_timeoutFunction (Some 0%nat)
    (CCExperiment.set_experimentId (VStr "exp1")
       (CCExperiment.addInput
          (CCInput.new "script" "File" (VNum 0)
             (Some (Scenario.connector "/shared/input/workload.py" false)))
          (CCExperiment.setSSHServer Scenario.started_server
             (CCExperiment.new Scenario.agency_url "agency_user" "agency_password"
                (VStr "python3") (VStr "dprobst/curious_containers:python")
                (VNum 256) 1)))).

Definition world : World :=
  {| availablePorts := [5001]; trace := []; armedTimers := [0%nat]; nextTimer := 1 |}.

End Timed.

(** [e] after a call of [createRED()] that did not throw ([e] itself when
    it threw). *)
Definition described {P : Platform} (e : CCExperiment.t) : CCExperiment.t :=
  match CCExperiment.createRED e with
  | inl e' => e'
  | inr _ => e
  end.

(** ** Servers left alone *)

(** From [w] to [w'] no docker command was run, no [stopServer] entered and
    the pool of ports is the same. *)
Definition servers_untouched (w w' : World) : Prop :=
  execs (trace w') = execs (trace w) /\
  stops (trace w') = stops (trace w) /\
  availablePorts w' = availablePorts w.
(* ================================================================= *)
(** * Properties *)

(** ** Traces *)

Lemma extend_nil (w : World) : extend [] w = w.
Proof. destruct w; unfold extend; simpl; now rewrite app_nil_r. Qed.

Lemma log_is_extend (ev : event) (w : World) : log ev w = extend [ev] w.
Proof. reflexivity. Qed.

Lemma extend_extend (a b : list event) (w : World) :
  extend b (extend a w) = extend (a ++ b) w.
Proof. unfold extend; simpl; now rewrite app_assoc. Qed.

Lemma trace_extend (evs : list event) (w : World) :
  trace (extend evs w) = trace w ++ evs.
Proof. reflexivity. Qed.

Lemma availablePorts_extend (evs : list event) (w : World) :
  availablePorts (extend evs w) = availablePorts w.
Proof. reflexivity. Qed.

Lemma execs_app (a b : list event) : execs (a ++ b) = execs a ++ execs b.
Proof. unfold execs; now rewrite flat_map_app. Qed.



(** ** runDockerCommand *)

Section DockerRunner.
Context {P : Platform}.
Variables (cmd : string) (maxRetries timeout : Z).

Import SSHServer.


Lemma docker_runner_unfold (fuel : nat) (retries : Z) (w : World) :
  docker_runner fuel cmd maxRetries timeout retries w
  = match exec (trace w) cmd with
    | ExecError error =>
        if retries <? maxRetries then
          match fuel with
          | O => (Pending, extend [EvExec cmd; EvSetTimeout (VNum timeout)] w)
          | S fuel' =>
              docker_runner fuel' cmd maxRetries timeout (retries + 1)
                (extend [EvExec cmd; EvSetTimeout (VNum timeout)] w)
          end
        else (Rejected (Error (Error_toString error)), extend [EvExec cmd] w)
    | ExecOk stdout => (Resolved stdout, extend [EvExec cmd] w)
    end.
Proof.
  destruct fuel; simpl; rewrite !log_is_extend, extend_extend; reflexivity.
Qed.




(** The promise of [runDockerCommand] always settles, and the command line
    is all it touches: the world it leaves differs by trace events only. *)
Lemma docker_runner_settles (fuel : nat) :
  forall (retries : Z) (w : World),
    maxRetries - retries <= Z.of_nat fuel ->
    exists o evs k,
      docker_runner fuel cmd maxRetries timeout retries w = (o, extend evs w) /\
      execs evs = repeat cmd (S k) /\
      ((exists stdout, o = Resolved stdout) \/
       (exists m, o = Rejected (Error (Error_toString m)))).
Proof.
  induction fuel as [|fuel IH]; intros retries w Hfuel.
  - pose proof (docker_runner_unfold 0 retries w) as E.
    destruct (exec (trace w) cmd) as [stdout|m].
    + exists (Resolved stdout), [EvExec cmd], 0%nat. eauto.
    + replace (retries <? maxRetries) with false in E
        by (symmetry; apply Z.ltb_ge; lia).
      exists (Rejected (Error (Error_toString m))), [EvExec cmd], 0%nat. eauto.
  - pose proof (docker_runner_unfold (S fuel) retries w) as E.
    destruct (exec (trace w) cmd) as [stdout|m].
    + exists (Resolved stdout), [EvExec cmd], 0%nat. eauto.
    + destruct (retries <? maxRetries) eqn:Hlt.
      * apply Z.ltb_lt in Hlt.
        destruct (IH (retries + 1)
                    (extend [EvExec cmd; EvSetTimeout (VNum timeout)] w))
          as (o & evs & k & Hrun & Hk & Hres); [lia|].
        exists o, ([EvExec cmd; EvSetTimeout (VNum timeout)] ++ evs), (S k).
        rewrite E, Hrun, extend_extend, execs_app, Hk. auto.
      * exists (Rejected (Error (Error_toString m))), [EvExec cmd], 0%nat. eauto.
Qed.

End DockerRunner.

(** ** C6: the attempts of runDockerCommand *)



(** ** C7: setPortRange *)










(** With the pool empty, and nobody filling it, [runner] never resolves. *)
Lemma fetch_runner_empty (fuel : nat) :
  forall (this : SSHServer.this_binding) (retries : Z) (w : World),
    availablePorts w = [] ->
    forall p, fst (SSHServer.fetch_runner fuel this retries w) <> Resolved p.
Proof.
  induction fuel as [|fuel IH]; intros this retries w Hw p;
    cbn [SSHServer.fetch_runner]; rewrite Hw; cbn [shift];
    destruct (SSHServer.greater _ _); try discriminate.
  apply IH. exact Hw.
Qed.

(** Once [runner] is called back by the timer, [this] is the timer object:
    the bound of the retries is NaN and the delay undefined, so on an empty
    pool it only ever sets the next timer. *)
Lemma fetch_runner_on_timer (fuel : nat) :
  forall (retries : Z) (w : World),
    availablePorts w = [] ->
    SSHServer.fetch_runner fuel SSHServer.ThisTimeout retries w
    = (Pending, extend (repeat (EvSetTimeout VUndefined) (S fuel)) w).
Proof.
  induction fuel as [|fuel IH]; intros retries w Hw;
    cbn [SSHServer.fetch_runner]; rewrite Hw; cbn [shift].
  - reflexivity.
  - cbn [SSHServer.this_reservePortMaxTime SSHServer.this_reservePortTimeout
         SSHServer.divide toNumber SSHServer.greater].
    rewrite IH by exact Hw.
    rewrite log_is_extend, extend_extend. reflexivity.
Qed.

(** Unless the very first check rejects (a negative bound), the promise of
    [fetchAndWaitForPort] on a pool that stays empty is pending after any
    number of timer firings. *)
Lemma fetchAndWaitForPort_pending (s : SSHServer.t) (w : World) (fuel : nat) :
  availablePorts w = [] ->
  SSHServer.greater 0
    (SSHServer.divide (VNum (SSHServer.reservePortMaxTime s))
                      (VNum (SSHServer.reservePortTimeout s))) = false ->
  SSHServer.fetchAndWaitForPort fuel s w
  = (Pending,
     extend (EvSetTimeout (VNum (SSHServer.reservePortTimeout s))
             :: repeat (EvSetTimeout VUndefined) fuel) w).
Proof.
  intros Hw Hfirst. unfold SSHServer.fetchAndWaitForPort.
  destruct fuel as [|fuel];
    cbn [SSHServer.fetch_runner]; rewrite Hw; cbn [shift];
    cbn [SSHServer.this_reservePortMaxTime SSHServer.this_reservePortTimeout];
    rewrite Hfirst; [reflexivity|].
  rewrite fetch_runner_on_timer by exact Hw.
  rewrite log_is_extend, extend_extend. reflexivity.
Qed.






(** ** C3: freePort *)

Lemma freePort_unleased (s : SSHServer.t) (w : World) :
  SSHServer.reservedPort s = None -> SSHServer.freePort s w = (s, w).
Proof. intros H; unfold SSHServer.freePort; now rewrite H. Qed.

(** [freePort] leaves [reservedPort] as it was: what it sets to undefined is
    the property [reservePort]. *)
Lemma freePort_keeps_reservation (s : SSHServer.t) (w : World) :
  SSHServer.reservedPort (fst (SSHServer.freePort s w)) = SSHServer.reservedPort s.
Proof.
  unfold SSHServer.freePort.
  destruct (SSHServer.reservedPort s) as [p|] eqn:Hp; [|exact Hp].
  destruct (truthy (VNum p)); exact Hp.
Qed.

Lemma freePort_twice (s : SSHServer.t) (w : World) (p : Z) :
  SSHServer.reservedPort s = Some p -> p <> 0 ->
  let (s1, w1) := SSHServer.freePort s w in
  availablePorts (snd (SSHServer.freePort s1 w1)) = availablePorts w ++ [p; p].
Proof.
  intros Hp Hnz. unfold SSHServer.freePort. rewrite Hp. simpl.
  replace (p =? 0) with false by (symmetry; apply Z.eqb_neq; exact Hnz).
  simpl. rewrite Hp. simpl.
  replace (p =? 0) with false by (symmetry; apply Z.eqb_neq; exact Hnz).
  simpl. now rewrite <- app_assoc.
Qed.

(** C3, at a failing input.  A server that leased port 5000 from an empty
    pool releases it twice: the pool then holds 5000 twice, and two servers
    that reserve a port next both obtain 5000.  (The reservation survives the
    release, because [freePort] clears [reservePort] instead of
    [reservedPort].) *)
Theorem freePort_twice_duplicates_port :
  let P := Scenario.platform 0 Scenario.offline Scenario.offline Scenario.offline in
  let s := SSHServer.set_reservedPort (Some 5000) Scenario.server in
  let (s1, w1) := SSHServer.freePort s (Scenario.world []) in
  let (s2, w2) := SSHServer.freePort s1 w1 in
  let '(_, a, wa) := SSHServer.reservePort 0 Scenario.server w2 in
  let '(_, b, wb) := SSHServer.reservePort 0 Scenario.other_server wa in
  availablePorts w1 = [5000] /\
  SSHServer.reservedPort s1 = Some 5000 /\
  SSHServer.reservePort_overwritten s1 = true /\
  availablePorts w2 = [5000; 5000] /\
  SSHServer.reservedPort a = Some 5000 /\
  SSHServer.reservedPort b = Some 5000.
Proof. vm_compute. repeat split. Qed.

(** ** C4: fetchAndWaitForPort *)

(** C4, at a failing input.  A server with the constructor's settings
    (30 s between polls, one hour at most) acquires from an empty pool that
    stays empty: however many timers fire, the promise is still pending; it is
    never rejected.  The first timer is set to 30000 ms, all later ones to
    [undefined]. *)
Theorem fetchAndWaitForPort_never_rejects :
  forall fuel : nat,
    SSHServer.fetchAndWaitForPort fuel Scenario.server (Scenario.world [])
    = (Pending,
       extend (EvSetTimeout (VNum 30000) :: repeat (EvSetTimeout VUndefined) fuel)
              (Scenario.world [])).
Proof.
  intros fuel. apply (fetchAndWaitForPort_pending Scenario.server); reflexivity.
Qed.

(** ** C5: stopServer *)

Lemma runDockerCommand_settles {P : Platform}
    (cmd : string) (maxRetries timeout : Z) (w : World) :
  exists o evs k,
    SSHServer.runDockerCommand cmd maxRetries timeout w = (o, extend evs w) /\
    execs evs = repeat cmd (S k) /\
    ((exists stdout, o = Resolved stdout) \/
     (exists m, o = Rejected (Error (Error_toString m)))).
Proof. apply docker_runner_settles. lia. Qed.

(** What [stopServer] does in general.  It runs "docker stop <id>" and, only
    when that has succeeded, "docker rm <id>", for the recorded [containerId]
    (each command possibly several times, by its retries).  It resolves
    exactly when both commands succeed, and then [freePort] has appended the
    reserved port to the pool, unless that port is 0, which [freePort] takes
    for no port; when either command exhausts its retries it is rejected with
    an error "Failed to remove server: ...", and pool and server are as
    before. *)
Theorem stopServer_releases_on_success_only {P : Platform}
    (s : SSHServer.t) (w : World) :
  let stop := ("docker stop " ++ toString (SSHServer.containerId s))%string in
  let rm := ("docker rm " ++ toString (SSHServer.containerId s))%string in
  let retries := SSHServer.maxStopRetries s in
  let timeout := SSHServer.stopTimeout s in
  let w0 := log (EvStopServer (SSHServer.containerId s)) w in
  exists o s' w' k1 k2,
    SSHServer.stopServer s w = (o, s', w') /\
    execs (trace w') = execs (trace w) ++ repeat stop (S k1) ++ repeat rm k2 /\
    match o with
    | Resolved _ =>
        (exists out1 w1 out2 w2,
            SSHServer.runDockerCommand stop retries timeout w0 = (Resolved out1, w1) /\
            SSHServer.runDockerCommand rm retries timeout w1 = (Resolved out2, w2)) /\
        (0 < k2)%nat /\
        availablePorts w'
        = match SSHServer.reservedPort s with
          | Some p => if p =? 0 then availablePorts w else availablePorts w ++ [p]
          | None => availablePorts w
          end
    | Rejected e =>
        ((exists e1 w1,
             SSHServer.runDockerCommand stop retries timeout w0 = (Rejected e1, w1) /\
             k2 = 0%nat) \/
         (exists out1 w1 e2 w2,
             SSHServer.runDockerCommand stop retries timeout w0 = (Resolved out1, w1) /\
             SSHServer.runDockerCommand rm retries timeout w1 = (Rejected e2, w2))) /\
        (exists m, e = Error ("Failed to remove server: " ++ m)%string) /\
        availablePorts w' = availablePorts w /\
        s' = s
    | _ => False
    end.
Proof.
  intros stop rm retries timeout w0.
  unfold SSHServer.stopServer. fold stop rm retries timeout w0.
  destruct (runDockerCommand_settles stop retries timeout w0)
    as (o1 & evs1 & k1 & Hrun1 & Hex1 & [[out1 Ho1]|[m1 Ho1]]); subst o1;
    rewrite Hrun1.
  - destruct (runDockerCommand_settles rm retries timeout (extend evs1 w0))
      as (o2 & evs2 & k2 & Hrun2 & Hex2 & [[out2 Ho2]|[m2 Ho2]]); subst o2;
      rewrite Hrun2.
    + destruct (SSHServer.freePort s (extend evs2 (extend evs1 w0)))
        as [s' w'] eqn:Hfree.
      exists (Resolved tt), s', w', k1, (S k2).
      assert (Htr : trace w' = trace (extend evs2 (extend evs1 w0)) /\
                    availablePorts w'
                    = match SSHServer.reservedPort s with
                      | Some p => if p =? 0 then availablePorts w
                                  else availablePorts w ++ [p]
                      | None => availablePorts w
                      end).
      { unfold SSHServer.freePort in Hfree.
        destruct (SSHServer.reservedPort s) as [p|].
        - simpl in Hfree. destruct (p =? 0); simpl in Hfree;
            inversion Hfree; subst; auto.
        - inversion Hfree; subst; auto. }
      destruct Htr as [Htr Hpool]. split; [reflexivity|]. split.
      * rewrite Htr. unfold w0. rewrite log_is_extend, !extend_extend.
        rewrite trace_extend, !execs_app, Hex1, Hex2. reflexivity.
      * split; [|split; [lia|exact Hpool]].
        exists out1, (extend evs1 w0), out2, (extend evs2 (extend evs1 w0)). auto.
    + exists (Rejected (Error ("Failed to remove server: " ++ Error_toString m2)%string)),
             s, (extend evs2 (extend evs1 w0)), k1, (S k2).
      split; [reflexivity|]. split.
      * unfold w0. rewrite log_is_extend, !extend_extend.
        rewrite trace_extend, !execs_app, Hex1, Hex2. reflexivity.
      * split; [|split; [eauto|split; reflexivity]].
        right. exists out1, (extend evs1 w0),
                 (Error (Error_toString m2)), (extend evs2 (extend evs1 w0)). auto.
  - exists (Rejected (Error ("Failed to remove server: " ++ Error_toString m1)%string)),
           s, (extend evs1 w0), k1, 0%nat.
    split; [reflexivity|]. split.
    + unfold w0. rewrite log_is_extend, !extend_extend.
      rewrite trace_extend, !execs_app, Hex1. simpl. now rewrite app_nil_r.
    + split; [|split; [eauto|split; reflexivity]].
      left. exists (Error (Error_toString m1)), (extend evs1 w0). auto.
Qed.

(** C5, at a failing input.  The range is the single port 0.  A server
    reserves it, starts, and is stopped: "docker stop" and "docker rm" both
    succeed at once and [stopServer] resolves, but the port is not returned:
    [freePort] tests [this.reservedPort] for truth, and 0 is not true.  The
    pool stays empty, and the next server waits for a port that never comes.
    With the single port 5000 the same run returns the port. *)
Theorem stopServer_loses_port_zero :
  let P := Scenario.platform 0 Scenario.offline Scenario.offline Scenario.offline in
  let run (port : Z) :=
    let w := snd (SSHServer.setPortRange 1 port port (Scenario.world [])) in
    let '(leased, s, w) := SSHServer.reservePort 0 Scenario.server w in
    let '(started, s, w) := SSHServer.startServer s w in
    let '(stopped, s, w) := SSHServer.stopServer s w in
    (leased, started, stopped, skipn 1 (execs (trace w)), availablePorts w,
     fst (fst (SSHServer.reservePort 2 Scenario.other_server w))) in
  run 0
  = (Resolved 0, Resolved tt, Resolved tt,
     ["docker stop c0ffee"; "docker rm c0ffee"]%string, [], Pending)
  /\
  run 5000
  = (Resolved 5000, Resolved tt, Resolved tt,
     ["docker stop c0ffee"; "docker rm c0ffee"]%string, [5000], Resolved 5000).
Proof. vm_compute. split; reflexivity. Qed.


(** ** C9: getStd *)

(** C9.  When the agency answers the request of [getStd] with a status code
    of 400 or more, the promise resolves with the empty string, whatever the
    body of the response; [getStdout] and [getStderr] are [getStd] on the
    streams "stdout" and "stderr". *)
Theorem getStd_error_status_resolves_empty {P : Platform}
    (stream : string) (e : CCExperiment.t) (w : World)
    (url : URL) (statusCode : Z) (text : string) :
  let r := CCExperiment.build_request e url
             ("batches/" ++ toString (CCExperiment.batchId e) ++ "/" ++ stream)%string
             "GET" None in
  new_URL (CCExperiment.ccAgencyUrl e) = Some url ->
  request (trace w) r = Response statusCode text ->
  400 <= statusCode ->
  CCExperiment.getStd stream e w = (Resolved EmptyString, log (EvRequest r) w)
  /\ CCExperiment.getStdout e w = CCExperiment.getStd "stdout" e w
  /\ CCExperiment.getStderr e w = CCExperiment.getStd "stderr" e w.
Proof.
  intros r Hurl Hresp Hcode.
  split; [|split; reflexivity].
  unfold CCExperiment.getStd, CCExperiment.send. rewrite Hurl. fold r. rewrite Hresp.
  cbv beta iota.
  replace (statusCode >=? 400) with true
    by (rewrite Z.geb_leb; symmetry; apply Z.leb_le; lia).
  reflexivity.
Qed.

Lemma getStd_error_status_resolves_empty_witness :
  let P := Scenario.platform 0 Scenario.offline Scenario.offline
             (Response 404 "Not found") in
  let e := CCExperiment.set_batchId (VStr "batch1") Scenario.submitted_experiment in
  fst (CCExperiment.getStd "stdout" e (Scenario.world [])) = Resolved EmptyString.
Proof.
  intros P e.
  rewrite (proj1 (@getStd_error_status_resolves_empty P "stdout" e (Scenario.world [])
                    {| url_protocol := "http:"; url_hostname := "127.0.0.1";
                       url_port := "8090"; url_pathname := "/" |}
                    404 "Not found" eq_refl eq_refl ltac:(lia))).
  reflexivity.
Defined.

(** ** C10: startExperiment without inputs *)

(** C10.  An experiment with no inputs and no job description yet (its first
    [startExperiment]): the call is rejected with the error of
    [getREDInputs], and nothing else has happened; the experiment is
    unchanged and the trace has no new event (no server started, no command
    run, no request sent). *)
Theorem startExperiment_without_inputs {P : Platform}
    (e : CCExperiment.t) (w : World) :
  CCExperiment.inputs e = [] ->
  CCExperiment.red e = None ->
  CCExperiment.startExperiment e w
  = (Rejected (Error "No inputs defined! Add at least one input."), e, w).
Proof.
  intros Hin Hred.
  unfold CCExperiment.startExperiment, CCExperiment.createRED,
    CCExperiment.getREDInputs.
  rewrite Hred, Hin. reflexivity.
Qed.

Lemma startExperiment_without_inputs_witness :
  let P := Scenario.platform 0 (Response 200 Scenario.submitted)
             Scenario.offline Scenario.offline in
  let e := CCExperiment.setSSHServer
             (SSHServer.set_reservedPort (Some 5000) Scenario.server)
             (CCExperiment.new Scenario.agency_url "agency_user" "agency_password"
                (VStr "python3") (VStr "dprobst/curious_containers:python")
                (VNum 256) 0) in
  CCExperiment.startExperiment e (Scenario.world [5001])
  = (Rejected (Error "No inputs defined! Add at least one input."),
     e, Scenario.world [5001]).
Proof.
  intros P e.
  exact (@startExperiment_without_inputs P e (Scenario.world [5001]) eq_refl eq_refl).
Defined.

(** ** What the steps of a poll leave alone *)

Lemma stops_app (a b : list event) : stops (a ++ b) = (stops a + stops b)%nat.
Proof. unfold stops. now rewrite filter_app, length_app. Qed.

(** Counts the [stopServer] events of a trace that was extended. *)
Ltac count_stops :=
  rewrite ?log_is_extend, ?trace_extend, ?stops_app;
  unfold stops in *; simpl; try lia.

Lemma getProp_defined (v x : value) (k k' : string) :
  getProp v k = Some x -> exists y, getProp v k' = Some y.
Proof. destruct v; simpl; intros H; try discriminate; eauto. Qed.

Lemma docker_runner_stops {P : Platform} (cmd : string) (maxRetries timeout : Z)
    (fuel : nat) :
  forall (retries : Z) (w : World),
    stops (trace (snd (SSHServer.docker_runner fuel cmd maxRetries timeout retries w)))
    = stops (trace w).
Proof.
  assert (Hkeep : forall evs w,
             stops evs = 0%nat -> stops (trace (extend evs w)) = stops (trace w)).
  { intros evs w H. rewrite trace_extend, stops_app, H. lia. }
  induction fuel as [|fuel IH]; intros retries w;
    rewrite docker_runner_unfold;
    destruct (exec (trace w) cmd); try destruct (retries <? maxRetries);
    try rewrite IH; cbn [snd]; apply Hkeep; reflexivity.
Qed.

Lemma stopServer_stops {P : Platform} (s : SSHServer.t) (w : World) :
  stops (trace (snd (SSHServer.stopServer s w))) = S (stops (trace w)).
Proof.
  unfold SSHServer.stopServer, SSHServer.runDockerCommand.
  set (w0 := log (EvStopServer (SSHServer.containerId s)) w).
  assert (H0 : stops (trace w0) = S (stops (trace w))).
  { unfold w0. count_stops. }
  match goal with
  | |- context [SSHServer.docker_runner ?f ?c ?n ?t ?r w0] =>
      pose proof (docker_runner_stops c n t f r w0) as H1;
      destruct (SSHServer.docker_runner f c n t r w0) as [o1 w1]
  end.
  cbn [snd] in H1.
  destruct o1; cbn [snd]; try lia.
  match goal with
  | |- context [SSHServer.docker_runner ?f ?c ?n ?t ?r w1] =>
      pose proof (docker_runner_stops c n t f r w1) as H2;
      destruct (SSHServer.docker_runner f c n t r w1) as [o2 w2]
  end.
  cbn [snd] in H2.
  destruct o2; cbn [snd]; try lia.
  unfold SSHServer.freePort.
  destruct (SSHServer.reservedPort s) as [p|]; [destruct (truthy (VNum p))|];
    cbn [snd set_availablePorts trace]; lia.
Qed.

Lemma stopServer_detached_stops {P : Platform} (s : SSHServer.t) (w : World) :
  stops (trace (snd (SSHServer.stopServer_detached s w))) = S (stops (trace w)).
Proof.
  unfold SSHServer.stopServer_detached.
  pose proof (stopServer_stops s w) as H.
  destruct (SSHServer.stopServer s w) as [[o s'] w']. cbn [snd] in H.
  destruct o; cbn [snd]; try exact H;
    count_stops.
Qed.

(** Resolving the batch identifier sets [batchId] and sends one request at
    most; it starts and stops nothing. *)
Lemma resolve_batchId_frame {P : Platform} (e e1 : CCExperiment.t) (w w1 : World) :
  CCExperiment.resolve_batchId e w = (Some e1, w1) ->
  CCExperiment.sshServer e1 = CCExperiment.sshServer e /\
  CCExperiment.debugInfo e1 = CCExperiment.debugInfo e /\
  stops (trace w1) = stops (trace w).
Proof.
  unfold CCExperiment.resolve_batchId, CCExperiment.getBatchId, CCExperiment.send.
  destruct (truthy (CCExperiment.batchId e)).
  - intros H; inversion H; subst; auto.
  - destruct (new_URL (CCExperiment.ccAgencyUrl e)) as [url|]; [|discriminate].
    match goal with
    | |- context [request (trace w) ?r] => destruct (request (trace w) r)
    end; [|discriminate|discriminate].
    destruct (JSON_parse text) as [json|]; [|discriminate].
    destruct (iterate json) as [batches|]; [|discriminate].
    destruct (CCExperiment.find_batch _ batches); try discriminate.
    intros H; inversion H; subst. repeat split.
    count_stops.
Qed.

(** ** C1: teardown on a terminal poll *)

(** One poll that observes "succeeded", with the experiment it leaves. *)
Lemma poll_succeeded_step {P : Platform}
    (e e1 : CCExperiment.t) (w w1 : World) (s : SSHServer.t)
    (url : URL) (statusCode : Z) (text : string) (json : value) :
  CCExperiment.sshServer e = Some s ->
  CCExperiment.resolve_batchId e w = (Some e1, w1) ->
  new_URL (CCExperiment.ccAgencyUrl e1) = Some url ->
  request (trace w1)
    (CCExperiment.build_request e1 url
       ("batches/" ++ toString (CCExperiment.batchId e1))%string "GET" None)
  = Response statusCode text ->
  JSON_parse text = inl json ->
  getProp json "state" = Some (VStr "succeeded") ->
  exists w' s',
    CCExperiment.fetchCurrentStatus e w
    = (Resolved (VStr "succeeded"),
       CCExperiment.set_sshServer (Some s')
         (CCExperiment.set_currentStatus (VStr "succeeded") e1),
       w') /\
    stops (trace w') = S (stops (trace w)) /\
    SSHServer.containerId s' = SSHServer.containerId s.
Proof.
  intros Hs Hbatch Hurl Hresp Hparse Hstate.
  destruct (resolve_batchId_frame _ _ _ _ Hbatch) as (Hs1 & _ & Hstops1).
  destruct (getProp_defined json _ "state" "history" Hstate) as [history Hhist].
  unfold CCExperiment.fetchCurrentStatus, CCExperiment.send.
  rewrite Hbatch, Hurl, Hresp. cbv beta iota. rewrite Hparse.
  unfold CCExperiment.on_status. rewrite Hstate, Hhist.
  cbn [CCExperiment.currentStatus CCExperiment.set_currentStatus].
  change (loose_eq (VStr "succeeded") (VStr "failed")) with false.
  change (loose_eq (VStr "succeeded") (VStr "succeeded")) with true.
  cbn [orb].
  unfold CCExperiment.stop_attached_server.
  cbn [CCExperiment.sshServer CCExperiment.set_currentStatus].
  rewrite Hs1, Hs.
  match goal with
  | |- context [SSHServer.stopServer_detached s ?w0] =>
      pose proof (stopServer_detached_stops s w0) as Hstop;
      assert (Hid : SSHServer.containerId (fst (SSHServer.stopServer_detached s w0))
                    = SSHServer.containerId s);
      [| destruct (SSHServer.stopServer_detached s w0) as [s' w'] ]
  end.
  { unfold SSHServer.stopServer_detached, SSHServer.stopServer.
    repeat match goal with
           | |- context [SSHServer.runDockerCommand ?c ?n ?t ?x] =>
               destruct (SSHServer.runDockerCommand c n t x) as [[] ?]
           end; try reflexivity.
    unfold SSHServer.freePort.
    destruct (SSHServer.reservedPort s) as [p|]; [destruct (truthy (VNum p))|];
      reflexivity. }
  exists w', s'.
  cbn [snd fst] in *. repeat split; auto.
  rewrite Hstop.
  unfold CCExperiment.clearTimeoutTimer, CCExperiment.clearTimeout.
  destruct (CCExperiment.timeoutFunction _);
    cbn [trace]; rewrite log_is_extend, trace_extend, stops_app, Hstops1;
    unfold stops; simpl; lia.
Qed.

(** While the agency keeps answering "succeeded", [n] polls in a row enter
    [stopServer] [n] times. *)
Lemma polls_stop_each_time {P : Platform} (n : nat) :
  forall (e : CCExperiment.t) (w : World) (s : SSHServer.t) (url : URL),
    CCExperiment.sshServer e = Some s ->
    truthy (CCExperiment.batchId e) = true ->
    new_URL (CCExperiment.ccAgencyUrl e) = Some url ->
    (forall tr, exists statusCode text json,
        request tr
          (CCExperiment.build_request e url
             ("batches/" ++ toString (CCExperiment.batchId e))%string "GET" None)
        = Response statusCode text /\
        JSON_parse text = inl json /\
        getProp json "state" = Some (VStr "succeeded")) ->
    stops (trace (snd (polls n e w))) = (stops (trace w) + n)%nat.
Proof.
  induction n as [|n IH]; intros e w s url Hs Hbatch Hurl Hagency.
  - cbn [polls snd]. lia.
  - destruct (Hagency (trace w)) as (statusCode & text & json & Hresp & Hparse & Hstate).
    assert (Hres : CCExperiment.resolve_batchId e w = (Some e, w))
      by (unfold CCExperiment.resolve_batchId; now rewrite Hbatch).
    destruct (poll_succeeded_step e e w w s url statusCode text json
                Hs Hres Hurl Hresp Hparse Hstate) as (w' & s' & Hpoll & Hstops & _).
    cbn [polls]. rewrite Hpoll.
    rewrite (IH _ w' s' url); [lia | reflexivity | exact Hbatch | exact Hurl | exact Hagency].
Qed.

(** C1, as the code has it.  On an experiment with an SSH server attached,
    every [fetchCurrentStatus] whose response parses with state "succeeded"
    resolves with that state and enters [stopServer] exactly once in that
    call, whatever happened before (nothing records that the server was
    stopped already); the server stays attached, so the next such call stops
    it again. *)
Theorem fetchCurrentStatus_succeeded_stops_server {P : Platform}
    (e e1 : CCExperiment.t) (w w1 : World) (s : SSHServer.t)
    (url : URL) (statusCode : Z) (text : string) (json : value) :
  CCExperiment.sshServer e = Some s ->
  CCExperiment.resolve_batchId e w = (Some e1, w1) ->
  new_URL (CCExperiment.ccAgencyUrl e1) = Some url ->
  request (trace w1)
    (CCExperiment.build_request e1 url
       ("batches/" ++ toString (CCExperiment.batchId e1))%string "GET" None)
  = Response statusCode text ->
  JSON_parse text = inl json ->
  getProp json "state" = Some (VStr "succeeded") ->
  exists e' w' s',
    CCExperiment.fetchCurrentStatus e w = (Resolved (VStr "succeeded"), e', w') /\
    stops (trace w') = S (stops (trace w)) /\
    CCExperiment.sshServer e' = Some s' /\
    SSHServer.containerId s' = SSHServer.containerId s.
Proof.
  intros Hs Hbatch Hurl Hresp Hparse Hstate.
  destruct (poll_succeeded_step e e1 w w1 s url statusCode text json
              Hs Hbatch Hurl Hresp Hparse Hstate) as (w' & s' & Hpoll & Hstops & Hid).
  eexists _, w', s'. repeat split; eauto.
Qed.

Lemma fetchCurrentStatus_succeeded_stops_server_witness :
  let P := Scenario.platform 0 Scenario.offline (Response 200 Scenario.succeeded)
             Scenario.offline in
  exists e' w' s',
    CCExperiment.fetchCurrentStatus Scenario.submitted_experiment (Scenario.world [])
    = (Resolved (VStr "succeeded"), e', w') /\
    stops (trace w') = 1%nat /\
    CCExperiment.sshServer e' = Some s' /\
    SSHServer.containerId s' = VStr "c0ffee".
Proof.
  intros P.
  eapply (@fetchCurrentStatus_succeeded_stops_server P
            Scenario.submitted_experiment _ (Scenario.world []) _
            Scenario.started_server).
  - reflexivity.
  - reflexivity.
  - reflexivity.
  - reflexivity.
  - reflexivity.
  - reflexivity.
Defined.

(** C1 fails as stated: the experiment below is polled twice, both polls
    observe "succeeded"; the first enters [stopServer] once, and the second
    enters it again (and, the commands succeeding, port 5000 is returned to
    the pool a second time). *)
Lemma teardown_once_counterexample :
  let P := Scenario.platform 0 Scenario.offline (Response 200 Scenario.succeeded)
             Scenario.offline in
  let '(o1, e1, w1) :=
    CCExperiment.fetchCurrentStatus Scenario.submitted_experiment (Scenario.world []) in
  let '(o2, e2, w2) := CCExperiment.fetchCurrentStatus e1 w1 in
  o1 = Resolved (VStr "succeeded") /\
  stops (trace w1) = 1%nat /\
  o2 = Resolved (VStr "succeeded") /\
  stops (trace w2) = 2%nat /\
  execs (trace w2) = ["docker stop c0ffee"; "docker rm c0ffee";
                      "docker stop c0ffee"; "docker rm c0ffee"]%string /\
  availablePorts w2 = [5000; 5000].
Proof. vm_compute. repeat split. Qed.

(** ** C8: the diagnostic of a failed batch *)

Lemma scan_history_first_failed {P : Platform} (history : list value) :
  forall e : CCExperiment.t,
    Forall (fun historyElement => getProp historyElement "state" <> None) history ->
    CCExperiment.scan_history history e
    = inl (match first_failed history with
           | Some info => CCExperiment.set_debugInfo info e
           | None => e
           end).
Proof.
  induction history as [|el rest IH]; intros e Hall; [reflexivity|].
  inversion Hall as [|? ? Hel Hrest]; subst.
  destruct (getProp el "state") as [state|] eqn:Hstate; [|congruence].
  destruct (getProp_defined el state "state" "debugInfo" Hstate) as [info Hinfo].
  cbn [CCExperiment.scan_history]. rewrite Hstate, Hinfo.
  unfold first_failed. cbn [filter]. unfold is_failed at 1. rewrite Hstate.
  destruct (loose_eq state (VStr "failed")).
  - rewrite Hinfo. reflexivity.
  - rewrite IH by exact Hrest. reflexivity.
Qed.

(** C8, as the code has it.  When the response of [fetchCurrentStatus]
    parses with a state equal to "failed" and a history array (of objects),
    the call resolves with that state and [debugInfo] becomes the
    [debugInfo] of the first entry, in the order of the array, whose state is
    "failed"; with no such entry it keeps its value. *)
Theorem fetchCurrentStatus_records_first_failed {P : Platform}
    (e e1 : CCExperiment.t) (w w1 : World)
    (url : URL) (statusCode : Z) (text : string) (json state : value)
    (history : list value) :
  CCExperiment.resolve_batchId e w = (Some e1, w1) ->
  new_URL (CCExperiment.ccAgencyUrl e1) = Some url ->
  request (trace w1)
    (CCExperiment.build_request e1 url
       ("batches/" ++ toString (CCExperiment.batchId e1))%string "GET" None)
  = Response statusCode text ->
  JSON_parse text = inl json ->
  getProp json "state" = Some state ->
  loose_eq state (VStr "failed") = true ->
  getProp json "history" = Some (VArr history) ->
  Forall (fun historyElement => getProp historyElement "state" <> None) history ->
  exists e' w',
    CCExperiment.fetchCurrentStatus e w = (Resolved state, e', w') /\
    CCExperiment.debugInfo e'
    = match first_failed history with
      | Some info => info
      | None => CCExperiment.debugInfo e
      end.
Proof.
  intros Hbatch Hurl Hresp Hparse Hstate Hfailed Hhist Hall.
  destruct (resolve_batchId_frame _ _ _ _ Hbatch) as (_ & Hinfo1 & _).
  unfold CCExperiment.fetchCurrentStatus, CCExperiment.send.
  rewrite Hbatch, Hurl, Hresp. cbv beta iota. rewrite Hparse.
  unfold CCExperiment.on_status. rewrite Hstate, Hhist.
  cbn [CCExperiment.currentStatus CCExperiment.set_currentStatus].
  rewrite Hfailed. cbn [iterate]. rewrite scan_history_first_failed by exact Hall.
  set (e2 := match first_failed history with
             | Some info => CCExperiment.set_debugInfo info _
             | None => _
             end).
  assert (Hst : CCExperiment.currentStatus e2 = state)
    by (unfold e2; destruct (first_failed history); reflexivity).
  assert (Hdi : CCExperiment.debugInfo e2
                = match first_failed history with
                  | Some info => info
                  | None => CCExperiment.debugInfo e
                  end)
    by (unfold e2; destruct (first_failed history); [reflexivity | exact Hinfo1]).
  rewrite Hst, Hfailed, orb_true_r.
  unfold CCExperiment.stop_attached_server.
  destruct (CCExperiment.sshServer e2) as [s|].
  - destruct (SSHServer.stopServer_detached s _) as [s' w'].
    eexists _, _. split; [cbn; rewrite Hst; reflexivity | exact Hdi].
  - eexists _, _. split; [rewrite Hst; reflexivity | exact Hdi].
Qed.

Lemma fetchCurrentStatus_records_first_failed_witness :
  let P := Scenario.platform 0 Scenario.offline (Response 200 Scenario.failed_twice)
             Scenario.offline in
  exists e' w',
    CCExperiment.fetchCurrentStatus Scenario.submitted_experiment (Scenario.world [])
    = (Resolved (VStr "failed"), e', w') /\
    CCExperiment.debugInfo e' = VStr "first".
Proof.
  intros P.
  eapply (@fetchCurrentStatus_records_first_failed P
            Scenario.submitted_experiment _ (Scenario.world []) _ _ _ _ _ _
            [VObj [("state", VStr "processing"); ("debugInfo", VNull)];
             VObj [("state", VStr "failed"); ("debugInfo", VStr "first")];
             VObj [("state", VStr "failed"); ("debugInfo", VStr "second")]]).
  - reflexivity.
  - reflexivity.
  - reflexivity.
  - reflexivity.
  - reflexivity.
  - reflexivity.
  - reflexivity.
  - repeat constructor; discriminate.
Defined.

(** C8 fails as stated: the batch below failed twice; of its two "failed"
    entries the poll records the diagnostic of the earlier one, "first",
    while the most recent one carries "second". *)
Lemma most_recent_failed_counterexample :
  let P := Scenario.platform 0 Scenario.offline (Response 200 Scenario.failed_twice)
             Scenario.offline in
  let history :=
    [VObj [("state", VStr "processing"); ("debugInfo", VNull)];
     VObj [("state", VStr "failed"); ("debugInfo", VStr "first")];
     VObj [("state", VStr "failed"); ("debugInfo", VStr "second")]] in
  let '(o, e', _) :=
    CCExperiment.fetchCurrentStatus Scenario.submitted_experiment (Scenario.world []) in
  JSON_parse Scenario.failed_twice
  = inl (VObj [("state", VStr "failed"); ("history", VArr history)]) /\
  o = Resolved (VStr "failed") /\
  most_recent_failed history = Some (VStr "second") /\
  CCExperiment.debugInfo e' = VStr "first" /\
  Some (CCExperiment.debugInfo e') <> most_recent_failed history.
Proof. vm_compute. repeat split. discriminate. Qed.

(** ** C2: a submission that fails *)

(** Whenever the agency answers the submission at all, whatever the answer
    holds, [startExperiment] stops no server and returns no port: only the
    handler of the "error" event does. *)
Lemma startServer_frame {P : Platform} (s : SSHServer.t) (w : World) :
  stops (trace (snd (SSHServer.startServer s w))) = stops (trace w) /\
  availablePorts (snd (SSHServer.startServer s w)) = availablePorts w.
Proof.
  unfold SSHServer.startServer.
  destruct (SSHServer.reservedPort s) as [p|].
  - match goal with
    | |- context [SSHServer.runDockerCommand ?c ?n ?t ?x] =>
        destruct (runDockerCommand_settles c n t x)
          as (o & evs & k & Hrun & _ & _);
        pose proof (docker_runner_stops c n t (Z.to_nat n) 0 x) as Hstops;
        fold (SSHServer.runDockerCommand c n t x) in Hstops;
        rewrite Hrun in *
    end.
    cbn [snd] in Hstops.
    destruct o; cbn [snd]; rewrite Hstops, log_is_extend, trace_extend, stops_app;
      unfold stops; simpl; split; try lia; reflexivity.
  - cbn [snd]. rewrite log_is_extend, trace_extend, stops_app.
    unfold stops; simpl; split; [lia | reflexivity].
Qed.

Lemma startExperiment_answered_never_stops {P : Platform}
    (e : CCExperiment.t) (w : World) :
  (forall tr r m, request tr r <> RequestError m) ->
  stops (trace (snd (CCExperiment.startExperiment e w))) = stops (trace w) /\
  availablePorts (snd (CCExperiment.startExperiment e w)) = availablePorts w.
Proof.
  intros Hanswered. unfold CCExperiment.startExperiment.
  destruct (match CCExperiment.red e with
            | Some _ => inl e
            | None => CCExperiment.createRED e
            end) as [e0|ex]; [|auto].
  assert (Hstart :
            let '(_, _, w1) :=
              match CCExperiment.sshServer e0 with
              | Some s =>
                  let '(o, s', w') := SSHServer.startServer s w in
                  (o, CCExperiment.set_sshServer (Some s') e0, w')
              | None => (Resolved tt, e0, w)
              end in
            stops (trace w1) = stops (trace w) /\
            availablePorts w1 = availablePorts w).
  { destruct (CCExperiment.sshServer e0) as [s|]; [|auto].
    pose proof (startServer_frame s w) as H.
    destruct (SSHServer.startServer s w) as [[o s'] w']. exact H. }
  destruct (match CCExperiment.sshServer e0 with
            | Some s =>
                let '(o, s', w') := SSHServer.startServer s w in
                (o, CCExperiment.set_sshServer (Some s') e0, w')
            | None => (Resolved tt, e0, w)
            end) as [[started e1] w1].
  destruct Hstart as [Hst Hpool].
  destruct started; cbn [snd]; auto.
  destruct (new_URL (CCExperiment.ccAgencyUrl e1)) as [url|]; cbn [snd]; auto.
  unfold CCExperiment.send.
  match goal with
  | |- context [request (trace w1) ?r] =>
      pose proof (Hanswered (trace w1) r) as Hno;
      destruct (request (trace w1) r) as [statusCode text|m|thrown];
      [| now elim (Hno m) | cbn [snd]; auto]
  end.
  assert (Hlog : forall r,
             stops (trace (log (EvRequest r) w1)) = stops (trace w) /\
             availablePorts (log (EvRequest r) w1) = availablePorts w).
  { intros r. rewrite log_is_extend, trace_extend, stops_app.
    unfold stops in *; simpl; split; [lia | exact Hpool]. }
  destruct (JSON_parse text) as [json|]; cbn [snd]; auto.
  destruct (getProp json "experimentId") as [id|]; cbn [snd]; auto.
  destruct (truthy id); cbn [snd]; auto.
  unfold CCExperiment.startTimeoutTimer.
  cbn [CCExperiment.timeout CCExperiment.set_experimentId].
  destruct (CCExperiment.timeout e1 >? 0); cbn [snd]; auto.
  unfold CCExperiment.setTimeout; cbn [snd trace availablePorts].
  rewrite log_is_extend, trace_extend, !stops_app.
  unfold stops in *; simpl; split; [lia | exact Hpool].
Qed.

(** C2, at a failing input.  The experiment has a server holding port 5000
    (the pool holds 5001); the server starts, and the agency answers the
    submission with the document [{}].  [startExperiment] is rejected with
    "Experiment ID not returned in the response.", but [stopServer] is never
    entered: the container started by "docker run" is still recorded as
    running and port 5000 is not back in the pool.  When instead the request
    itself fails, the handler of the "error" event does stop the server, and
    the port returns. *)
Theorem startExperiment_missing_id_keeps_server :
  let e := Scenario.experiment (SSHServer.set_reservedPort (Some 5000) Scenario.server) in
  (let P := Scenario.platform 0 (Response 200 Scenario.no_identifier)
              Scenario.offline Scenario.offline in
   let '(o, e', w') := CCExperiment.startExperiment e (Scenario.world [5001]) in
   JSON_parse Scenario.no_identifier = inl (VObj []) /\
   o = Rejected (Error "Experiment ID not returned in the response.") /\
   option_map SSHServer.containerId (CCExperiment.sshServer e') = Some (VStr "c0ffee") /\
   List.length (execs (trace w')) = 1%nat /\
   stops (trace w') = 0%nat /\
   availablePorts w' = [5001])
  /\
  (let P := Scenario.platform 0 (RequestError "connect ECONNREFUSED")
              Scenario.offline Scenario.offline in
   let '(o, e', w') := CCExperiment.startExperiment e (Scenario.world [5001]) in
   o = Rejected (Error "HTTP request error: connect ECONNREFUSED") /\
   stops (trace w') = 1%nat /\
   availablePorts w' = [5001; 5000]).
Proof. vm_compute. repeat split. Qed.

(** ** The scenarios of the examples *)

(** [createDefaultIO], called as in test-default.js on a pool that holds
    port 5000, builds the experiment of the examples. *)
Example createDefaultIO_builds_example :
  let P := Scenario.platform 0 Scenario.offline Scenario.offline Scenario.offline in
  DefaultExperiment.createDefaultIO 0
    (SSHServer.username Scenario.server) (SSHServer.password Scenario.server)
    (VStr "~/shared") "input/workload.py" "input/sleep.RData" "." "127.0.0.1"
    (CCExperiment.new Scenario.agency_url "agency_user" "agency_password"
       (VStr "python3") (VStr "dprobst/curious_containers:python") (VNum 256) 0)
    (Scenario.world [5000; 5001])
  = (Resolved tt,
     Scenario.experiment (SSHServer.set_reservedPort (Some 5000) Scenario.server),
     Scenario.world [5001]).
Proof. reflexivity. Qed.

(** Range [5000, 5001]: two reservations obtain 5000 and then 5001; after
    the first server stops, its port is at the tail of the pool again. *)
Example pool_scenario :
  let P := Scenario.platform 0 Scenario.offline Scenario.offline Scenario.offline in
  let w := snd (SSHServer.setPortRange 2 5000 5001 (Scenario.world [])) in
  let '(o1, a, w) := SSHServer.reservePort 0 Scenario.server w in
  let '(o2, b, w) := SSHServer.reservePort 0 Scenario.other_server w in
  let '(_, a, w1) := SSHServer.startServer a w in
  let '(o3, a, w2) := SSHServer.stopServer a w1 in
  o1 = Resolved 5000 /\ o2 = Resolved 5001 /\
  availablePorts w1 = [] /\ o3 = Resolved tt /\ availablePorts w2 = [5000].
Proof. vm_compute. repeat split. Qed.

(** A server whose container stops but cannot be removed: [stopServer] is
    rejected after the four attempts at "docker rm", and port 5000 stays
    out of the pool. *)
Example stopServer_failure_scenario :
  let P := Scenario.platform_where
             (fun cmd => if (cmd =? "docker rm c0ffee")%string then 4%nat else 0%nat)
             Scenario.offline Scenario.offline Scenario.offline in
  let '(o, s', w') := SSHServer.stopServer Scenario.started_server (Scenario.world [5001]) in
  o = Rejected (Error "Failed to remove server: Error: Command failed: docker rm c0ffee") /\
  s' = Scenario.started_server /\
  availablePorts w' = [5001] /\
  execs (trace w') = ["docker stop c0ffee"; "docker rm c0ffee"; "docker rm c0ffee";
                      "docker rm c0ffee"; "docker rm c0ffee"]%string.
Proof. vm_compute. repeat split. Qed.

(** A poll that observes a batch still "processing" resolves the batch
    identifier, sends two requests and stops nothing. *)
Example processing_scenario :
  let P := Scenario.platform 0 Scenario.offline (Response 200 Scenario.processing)
             Scenario.offline in
  let '(o, e', w') :=
    CCExperiment.fetchCurrentStatus Scenario.submitted_experiment (Scenario.world []) in
  o = Resolved (VStr "processing") /\
  CCExperiment.batchId e' = VStr "batch1" /\
  List.length (requests (trace w')) = 2%nat /\
  stops (trace w') = 0%nat.
Proof. vm_compute. repeat split. Qed.

(** A timeout of one minute: the submission arms the watchdog (60000 ms);
    an explicit cancel disarms it and stops the server; when the timer's time
    comes, nothing happens any more. *)
Example watchdog_scenario :
  let P := Scenario.platform 0 (Response 200 Scenario.submitted)
             (Response 200 Scenario.processing) Scenario.offline in
  let '(_, e, w) :=
    DefaultExperiment.createDefaultIO 0
      (SSHServer.username Scenario.server) (SSHServer.password Scenario.server)
      (VStr "~/shared") "input/workload.py" "input/sleep.RData" "." "127.0.0.1"
      (CCExperiment.new Scenario.agency_url "agency_user" "agency_password"
         (VStr "python3") (VStr "dprobst/curious_containers:python") (VNum 256) 1)
      (Scenario.world [5000]) in
  let '(o1, e1, w1) := CCExperiment.startExperiment e w in
  let '(o2, e2, w2) := CCExperiment.cancelExperiment e1 w1 in
  let '(e3, w3) := CCExperiment.timeout_fires e2 w2 in
  o1 = Resolved (VStr "exp1") /\
  armedTimers w1 = [0%nat] /\
  In (EvSetTimeout (VNum 60000)) (trace w1) /\
  o2 = Resolved true /\
  armedTimers w2 = [] /\
  stops (trace w2) = 1%nat /\
  availablePorts w2 = [5000] /\
  (e3, w3) = (e2, w2).
Proof. vm_compute. repeat split. auto 10. Qed.

(* ================================================================= *)
(** * Further properties of the code *)

(** ** generateRandomString *)

Lemma hex_of_byte_digits (b : Byte.byte) :
  all_chars is_hex_digit (Random.hex_of_byte b) = true.
Proof. destruct b; vm_compute; reflexivity. Qed.

Lemma hex_of_byte_read_back (b : Byte.byte) (s : string) :
  bytes_of_hex (Random.hex_of_byte b ++ s)%string = b :: bytes_of_hex s.
Proof.
  unfold Random.hex_of_byte.
  cbn [String.append bytes_of_hex].
  replace (Byte.of_N _) with (Some b); [reflexivity|].
  destruct b; vm_compute; reflexivity.
Qed.

Lemma all_chars_app (p : ascii -> bool) (a b : string) :
  all_chars p (a ++ b)%string = (all_chars p a && all_chars p b)%bool.
Proof.
  induction a as [|c a IH]; [reflexivity|].
  cbn [String.append all_chars]. now rewrite IH, andb_assoc.
Qed.

Lemma length_string_app (a b : string) :
  String.length (a ++ b)%string = (String.length a + String.length b)%nat.
Proof. induction a as [|c a IH]; simpl; auto. Qed.

(** X1.  Whatever bytes were drawn, [generateRandomString] returns two
    characters per byte (sixteen for the eight bytes of [randomBytes(8)]),
    each a digit or a lower-case letter from a to f. *)
Theorem generateRandomString_hex (randomBytes : list Byte.byte) :
  String.length (Random.generateRandomString randomBytes)
  = (2 * List.length randomBytes)%nat
  /\ all_chars is_hex_digit (Random.generateRandomString randomBytes) = true.
Proof.
  unfold Random.generateRandomString.
  induction randomBytes as [|b rest [IHlen IHhex]]; [split; reflexivity|].
  cbn [Random.toString_hex List.length]. split.
  - rewrite length_string_app, IHlen. cbn. lia.
  - rewrite all_chars_app, hex_of_byte_digits, IHhex. reflexivity.
Qed.

(** X2.  The string determines the bytes: reading the digits back two at a
    time gives the bytes drawn, so two servers get the same user name (or
    password) only when they drew the same bytes. *)
Theorem generateRandomString_read_back (randomBytes : list Byte.byte) :
  bytes_of_hex (Random.generateRandomString randomBytes) = randomBytes
  /\ forall other,
       Random.generateRandomString other = Random.generateRandomString randomBytes ->
       other = randomBytes.
Proof.
  assert (Hback : forall l, bytes_of_hex (Random.generateRandomString l) = l).
  { unfold Random.generateRandomString.
    induction l as [|b rest IH]; [reflexivity|].
    cbn [Random.toString_hex]. now rewrite hex_of_byte_read_back, IH. }
  split; [apply Hback|].
  intros other Heq. rewrite <- (Hback other), Heq. apply Hback.
Qed.

(** ** What the docker commands leave alone *)

Lemma requests_app (a b : list event) : requests (a ++ b) = requests a ++ requests b.
Proof. unfold requests; now rewrite flat_map_app. Qed.

Lemma docker_events_are_server_events (evs : list event) :
  forallb docker_event evs = true -> forallb server_event evs = true.
Proof.
  induction evs as [|ev evs IH]; [reflexivity|].
  cbn [forallb]. intros H. apply andb_prop in H as [Hev Hevs].
  rewrite (IH Hevs). destruct ev; try discriminate; reflexivity.
Qed.

Lemma requests_server_events (evs : list event) :
  forallb server_event evs = true -> requests evs = [].
Proof.
  induction evs as [|ev evs IH]; [reflexivity|].
  cbn [forallb]. intros H. apply andb_prop in H as [Hev Hevs].
  destruct ev; try discriminate; cbn; auto.
Qed.

Lemma execs_docker_free (evs : list event) :
  forallb (fun ev => negb (docker_event ev)) evs = true -> execs evs = [].
Proof.
  induction evs as [|ev evs IH]; [reflexivity|].
  cbn [forallb]. intros H. apply andb_prop in H as [Hev Hevs].
  destruct ev; try discriminate; cbn; auto.
Qed.

Lemma docker_runner_world {P : Platform} (cmd : string) (maxRetries timeout : Z)
    (fuel : nat) :
  forall (retries : Z) (w : World),
    exists o evs,
      SSHServer.docker_runner fuel cmd maxRetries timeout retries w = (o, extend evs w) /\
      forallb docker_event evs = true.
Proof.
  induction fuel as [|fuel IH]; intros retries w;
    rewrite docker_runner_unfold;
    destruct (exec (trace w) cmd); try destruct (retries <? maxRetries);
    try (eexists _, _; split; [reflexivity | reflexivity]).
  destruct (IH (retries + 1) (extend [EvExec cmd; EvSetTimeout (VNum timeout)] w))
    as (o & evs & Hrun & Hevs).
  rewrite Hrun, extend_extend. eexists _, _. split; [reflexivity|].
  cbn [app forallb docker_event andb]. exact Hevs.
Qed.

Lemma runDockerCommand_world {P : Platform} (cmd : string) (maxRetries timeout : Z)
    (w : World) :
  exists o evs,
    SSHServer.runDockerCommand cmd maxRetries timeout w = (o, extend evs w) /\
    forallb docker_event evs = true.
Proof. apply docker_runner_world. Qed.

(** [stopServer] adds events of the server to the trace and may return a
    port to the pool; the timers are as they were. *)
Lemma stopServer_world {P : Platform} (s : SSHServer.t) (w : World) :
  exists ports evs,
    snd (SSHServer.stopServer s w) = set_availablePorts ports (extend evs w) /\
    forallb server_event evs = true.
Proof.
  unfold SSHServer.stopServer. rewrite log_is_extend.
  match goal with
  | |- context [SSHServer.runDockerCommand ?c ?n ?t ?x] =>
      destruct (runDockerCommand_world c n t x) as (o1 & evs1 & Hrun1 & Hevs1)
  end.
  rewrite Hrun1, extend_extend.
  assert (Hs1 : forallb server_event ([EvStopServer (SSHServer.containerId s)] ++ evs1) = true)
    by (cbn; now apply docker_events_are_server_events).
  destruct o1; cbn [snd];
    try (exists (availablePorts w); eexists; split; [reflexivity | exact Hs1]).
  match goal with
  | |- context [SSHServer.runDockerCommand ?c ?n ?t ?x] =>
      destruct (runDockerCommand_world c n t x) as (o2 & evs2 & Hrun2 & Hevs2)
  end.
  rewrite Hrun2, extend_extend.
  assert (Hs2 : forallb server_event
                  (([EvStopServer (SSHServer.containerId s)] ++ evs1) ++ evs2) = true)
    by (rewrite forallb_app, Hs1; now apply docker_events_are_server_events).
  destruct o2; cbn [snd];
    try (exists (availablePorts w); eexists; split; [reflexivity | exact Hs2]).
  unfold SSHServer.freePort.
  destruct (SSHServer.reservedPort s) as [p|]; [destruct (truthy (VNum p))|];
    cbn [snd]; eexists _, _; (split; [reflexivity | exact Hs2]).
Qed.

Lemma stopServer_detached_world {P : Platform} (s : SSHServer.t) (w : World) :
  exists ports evs,
    snd (SSHServer.stopServer_detached s w) = set_availablePorts ports (extend evs w) /\
    forallb server_event evs = true.
Proof.
  unfold SSHServer.stopServer_detached.
  destruct (stopServer_world s w) as (ports & evs & Hw & Hevs).
  destruct (SSHServer.stopServer s w) as [[o s'] w']. cbn [snd] in Hw. subst w'.
  destruct o; cbn [snd];
    try (exists ports, evs; split; [reflexivity | exact Hevs]);
    exists ports, (evs ++ [EvUnhandledRejection e]);
    (split; [| rewrite forallb_app, Hevs; reflexivity]);
    unfold log, set_availablePorts, extend; cbn; now rewrite app_assoc.
Qed.

Lemma startServer_world {P : Platform} (s : SSHServer.t) (w : World) :
  exists evs,
    snd (SSHServer.startServer s w) = extend evs w /\
    forallb server_event evs = true.
Proof.
  unfold SSHServer.startServer. rewrite log_is_extend.
  destruct (SSHServer.reservedPort s) as [p|].
  - match goal with
    | |- context [SSHServer.runDockerCommand ?c ?n ?t ?x] =>
        destruct (runDockerCommand_world c n t x) as (o & evs & Hrun & Hevs)
    end.
    rewrite Hrun, extend_extend.
    destruct o; cbn [snd]; eexists; (split; [reflexivity|]);
      cbn; now apply docker_events_are_server_events.
  - cbn [snd]. eexists; split; reflexivity.
Qed.

(** ** startServer *)

(** The attempts of a docker command never exceed the retries by more than
    one. *)
Lemma docker_runner_within {P : Platform} (cmd : string) (maxRetries timeout : Z)
    (fuel : nat) :
  forall (retries : Z) (w : World),
    maxRetries - retries <= Z.of_nat fuel ->
    exists o evs k,
      SSHServer.docker_runner fuel cmd maxRetries timeout retries w = (o, extend evs w) /\
      execs evs = repeat cmd (S k) /\
      Z.of_nat k <= Z.max 0 (maxRetries - retries) /\
      forallb docker_event evs = true /\
      ((exists stdout, o = Resolved stdout) \/
       (exists m, o = Rejected (Error (Error_toString m)))).
Proof.
  induction fuel as [|fuel IH]; intros retries w Hfuel.
  - pose proof (docker_runner_unfold cmd maxRetries timeout 0 retries w) as E.
    destruct (exec (trace w) cmd) as [stdout|m].
    + exists (Resolved stdout), [EvExec cmd], 0%nat.
      repeat split; eauto; lia.
    + replace (retries <? maxRetries) with false in E
        by (symmetry; apply Z.ltb_ge; lia).
      exists (Rejected (Error (Error_toString m))), [EvExec cmd], 0%nat.
      repeat split; eauto; lia.
  - pose proof (docker_runner_unfold cmd maxRetries timeout (S fuel) retries w) as E.
    destruct (exec (trace w) cmd) as [stdout|m].
    + exists (Resolved stdout), [EvExec cmd], 0%nat.
      repeat split; eauto; lia.
    + destruct (retries <? maxRetries) eqn:Hlt.
      * apply Z.ltb_lt in Hlt.
        destruct (IH (retries + 1)
                    (extend [EvExec cmd; EvSetTimeout (VNum timeout)] w))
          as (o & evs & k & Hrun & Hk & Hbound & Hevs & Hres); [lia|].
        exists o, ([EvExec cmd; EvSetTimeout (VNum timeout)] ++ evs), (S k).
        rewrite E, Hrun, extend_extend, execs_app, Hk.
        repeat split; auto; try lia.
      * exists (Rejected (Error (Error_toString m))), [EvExec cmd], 0%nat.
        repeat split; eauto; lia.
Qed.

Lemma runDockerCommand_within {P : Platform} (cmd : string) (maxRetries timeout : Z)
    (w : World) :
  exists o evs k,
    SSHServer.runDockerCommand cmd maxRetries timeout w = (o, extend evs w) /\
    execs evs = repeat cmd (S k) /\
    Z.of_nat k <= Z.max 0 maxRetries /\
    forallb docker_event evs = true /\
    ((exists stdout, o = Resolved stdout) \/
     (exists m, o = Rejected (Error (Error_toString m)))).
Proof.
  destruct (docker_runner_within cmd maxRetries timeout (Z.to_nat maxRetries) 0 w)
    as (o & evs & k & H); [lia|].
  exists o, evs, k. now rewrite Z.sub_0_r in H.
Qed.

(** X3.  [startServer] on a server that has reserved no port is rejected
    with "Failed to start server: Reserve a Port before starting the
    server!"; no command is run and the server is unchanged. *)
Theorem startServer_without_port {P : Platform} (s : SSHServer.t) (w : World) :
  SSHServer.reservedPort s = None ->
  SSHServer.startServer s w
  = (Rejected (Error "Failed to start server: Reserve a Port before starting the server!"),
     s, extend [EvStartServer] w)
  /\ execs (trace (snd (SSHServer.startServer s w))) = execs (trace w).
Proof.
  intros Hport. unfold SSHServer.startServer. rewrite Hport. cbn [snd].
  split; [reflexivity|].
  rewrite log_is_extend, trace_extend, execs_app. cbn. now rewrite app_nil_r.
Qed.

Lemma startServer_without_port_witness :
  let P := Scenario.platform 0 Scenario.offline Scenario.offline Scenario.offline in
  execs (trace (snd (SSHServer.startServer Scenario.server (Scenario.world [5000])))) = [].
Proof.
  intros P.
  exact (proj2 (@startServer_without_port P Scenario.server (Scenario.world [5000])
                  eq_refl)).
Defined.




(** ** Leases *)

Lemma fetch_runner_resolved (fuel : nat) (this : SSHServer.this_binding)
    (retries : Z) (w w' : World) (p : Z) :
  SSHServer.fetch_runner fuel this retries w = (Resolved p, w') ->
  exists rest, availablePorts w = p :: rest /\ w' = set_availablePorts rest w.
Proof.
  destruct (availablePorts w) as [|x rest] eqn:Hpool.
  - intros H. exfalso.
    apply (fetch_runner_empty fuel this retries w Hpool p). now rewrite H.
  - destruct fuel; cbn [SSHServer.fetch_runner]; rewrite Hpool; cbn [shift];
      intros H; inversion H; subst; eauto.
Qed.

Lemma reservePort_resolved {P : Platform} (fuel : nat) (s s' : SSHServer.t)
    (w w' : World) (p : Z) :
  SSHServer.reservePort fuel s w = (Resolved p, s', w') ->
  exists rest,
    availablePorts w = p :: rest /\ w' = set_availablePorts rest w /\
    s' = SSHServer.set_reservedPort (Some p) s.
Proof.
  unfold SSHServer.reservePort, SSHServer.fetchAndWaitForPort.
  destruct (SSHServer.reservePort_overwritten s); [discriminate|].
  destruct (SSHServer.fetch_runner fuel (SSHServer.ThisServer s) 0 w) as [o w1] eqn:Hrun.
  destruct o; intros H; inversion H; subst.
  destruct (fetch_runner_resolved _ _ _ _ _ _ Hrun) as (rest & Hpool & Hw).
  exists rest. auto.
Qed.

(** X5.  On a pool without duplicates (as [setPortRange] leaves it), two
    reservations that both succeed obtain different ports; neither port is
    in the pool afterwards, and the pool still has no duplicates. *)
Theorem reservePort_exclusive {P : Platform}
    (a a' b b' : SSHServer.t) (w w1 w2 : World) (fuel1 fuel2 : nat) (p q : Z) :
  NoDup (availablePorts w) ->
  SSHServer.reservePort fuel1 a w = (Resolved p, a', w1) ->
  SSHServer.reservePort fuel2 b w1 = (Resolved q, b', w2) ->
  SSHServer.reservedPort a' = Some p /\
  SSHServer.reservedPort b' = Some q /\
  p <> q /\
  ~ In p (availablePorts w2) /\
  ~ In q (availablePorts w2) /\
  NoDup (availablePorts w2).
Proof.
  intros Hnodup Ha Hb.
  destruct (reservePort_resolved _ _ _ _ _ _ Ha) as (rest1 & Hpool1 & Hw1 & Ha').
  destruct (reservePort_resolved _ _ _ _ _ _ Hb) as (rest2 & Hpool2 & Hw2 & Hb').
  subst w1 w2 a' b'. cbn [availablePorts set_availablePorts] in *. subst rest1.
  rewrite Hpool1 in Hnodup.
  inversion Hnodup as [|? ? Hp Hrest]; subst.
  inversion Hrest as [|? ? Hq Hrest2]; subst.
  repeat split; auto.
  - intros Heq. subst q. apply Hp. now left.
  - intros Hin. apply Hp. now right.
Qed.

Lemma reservePort_exclusive_witness :
  let P := Scenario.platform 0 Scenario.offline Scenario.offline Scenario.offline in
  let w := snd (SSHServer.setPortRange 3 5000 5002 (Scenario.world [])) in
  5000 <> 5001 /\ availablePorts
                    (snd (SSHServer.reservePort 0 Scenario.other_server
                            (snd (SSHServer.reservePort 0 Scenario.server w))))
                  = [5002].
Proof.
  intros P w. split; [|reflexivity].
  refine (proj1 (proj2 (proj2
            (@reservePort_exclusive P Scenario.server _ Scenario.other_server _
               w _ _ 0 0 5000 5001 _ eq_refl eq_refl)))).
  repeat constructor; cbn; intuition lia.
Defined.

(** The pool after [stopServer], by its outcome. *)
Lemma stopServer_pool {P : Platform} (s : SSHServer.t) (w : World) :
  availablePorts (snd (SSHServer.stopServer s w))
  = match fst (fst (SSHServer.stopServer s w)), SSHServer.reservedPort s with
    | Resolved _, Some p => if p =? 0 then availablePorts w else availablePorts w ++ [p]
    | _, _ => availablePorts w
    end.
Proof.
  unfold SSHServer.stopServer. rewrite log_is_extend.
  match goal with
  | |- context [SSHServer.runDockerCommand ?c ?n ?t ?x] =>
      destruct (runDockerCommand_world c n t x) as (o1 & evs1 & Hrun1 & _)
  end.
  rewrite Hrun1. destruct o1; cbn [fst snd]; try reflexivity.
  match goal with
  | |- context [SSHServer.runDockerCommand ?c ?n ?t ?x] =>
      destruct (runDockerCommand_world c n t x) as (o2 & evs2 & Hrun2 & _)
  end.
  rewrite Hrun2. destruct o2; cbn [fst snd]; try reflexivity.
  unfold SSHServer.freePort.
  destruct (SSHServer.reservedPort s) as [q|]; [|reflexivity].
  cbn [truthy]. destruct (q =? 0); reflexivity.
Qed.

Lemma startServer_keeps_port {P : Platform} (s : SSHServer.t) (w : World) :
  SSHServer.reservedPort (snd (fst (SSHServer.startServer s w)))
  = SSHServer.reservedPort s.
Proof.
  unfold SSHServer.startServer.
  destruct (SSHServer.reservedPort s) as [p|] eqn:Hp; [|exact Hp].
  match goal with
  | |- context [SSHServer.runDockerCommand ?c ?n ?t ?x] =>
      destruct (SSHServer.runDockerCommand c n t x) as [[] ?]
  end; exact Hp.
Qed.

(** X6.  A server reserves the head [p] of the pool (a port other than 0),
    starts and stops: while it runs, the pool is the rest; when [stopServer]
    resolves, [p] is back at the tail of the pool; when [stopServer] is
    rejected, [p] stays out of the pool. *)
Theorem lease_then_stop {P : Platform}
    (s : SSHServer.t) (w : World) (fuel : nat) (p : Z) (rest : list Z) :
  SSHServer.reservePort_overwritten s = false ->
  availablePorts w = p :: rest ->
  p <> 0 ->
  let '(o1, s1, w1) := SSHServer.reservePort fuel s w in
  let '(o2, s2, w2) := SSHServer.startServer s1 w1 in
  let '(o3, s3, w3) := SSHServer.stopServer s2 w2 in
  o1 = Resolved p /\
  availablePorts w2 = rest /\
  availablePorts w3 = match o3 with
                      | Resolved _ => rest ++ [p]
                      | _ => rest
                      end.
Proof.
  intros Hmethod Hpool Hp.
  unfold SSHServer.reservePort, SSHServer.fetchAndWaitForPort.
  rewrite Hmethod.
  replace (SSHServer.fetch_runner fuel (SSHServer.ThisServer s) 0 w)
    with (Resolved p, set_availablePorts rest w)
    by (destruct fuel; cbn [SSHServer.fetch_runner]; rewrite Hpool; reflexivity).
  pose proof (startServer_frame (SSHServer.set_reservedPort (Some p) s)
                (set_availablePorts rest w)) as [_ Hpool2].
  pose proof (startServer_keeps_port (SSHServer.set_reservedPort (Some p) s)
                (set_availablePorts rest w)) as Hport2.
  destruct (SSHServer.startServer _ _) as [[o2 s2] w2]. cbn [fst snd] in *.
  pose proof (stopServer_pool s2 w2) as Hpool3.
  destruct (SSHServer.stopServer s2 w2) as [[o3 s3] w3]. cbn [fst snd] in *.
  rewrite Hport2, Hpool2 in Hpool3. cbn [SSHServer.reservedPort SSHServer.set_reservedPort] in Hpool3.
  replace (p =? 0) with false in Hpool3 by (symmetry; now apply Z.eqb_neq).
  repeat split; auto.
Qed.

Lemma lease_then_stop_witness :
  let P := Scenario.platform 0 Scenario.offline Scenario.offline Scenario.offline in
  let '(o1, s1, w1) := SSHServer.reservePort 0 Scenario.server (Scenario.world [5000; 5001]) in
  let '(o2, s2, w2) := SSHServer.startServer s1 w1 in
  let '(o3, s3, w3) := SSHServer.stopServer s2 w2 in
  o1 = Resolved 5000 /\
  availablePorts w2 = [5001] /\
  availablePorts w3 = match o3 with
                      | Resolved _ => [5001; 5000]
                      | _ => [5001]
                      end.
Proof.
  intros P.
  exact (@lease_then_stop P Scenario.server (Scenario.world [5000; 5001]) 0 5000 [5001]
           eq_refl eq_refl ltac:(lia)).
Defined.

(** X7.  After a [stopServer] that resolved on a server holding a port
    other than 0, the server still records that port as reserved, and
    [reservePort] can no longer be called on it: the call throws a TypeError,
    takes nothing from the pool and sets no timer. *)
Theorem stopped_server_cannot_reserve {P : Platform}
    (s s' : SSHServer.t) (w w' : World) (p : Z) :
  SSHServer.stopServer s w = (Resolved tt, s', w') ->
  SSHServer.reservedPort s = Some p ->
  p <> 0 ->
  SSHServer.reservedPort s' = Some p /\
  forall fuel w2,
    SSHServer.reservePort fuel s' w2
    = (Threw (TypeError (TypeError_message (NotAFunction "reservePort"))), s', w2).
Proof.
  intros Hstop Hport Hp.
  assert (Hs' : s' = SSHServer.overwrite_reservePort s).
  { revert Hstop. unfold SSHServer.stopServer.
    repeat match goal with
           | |- context [SSHServer.runDockerCommand ?c ?n ?t ?x] =>
               destruct (SSHServer.runDockerCommand c n t x) as [[] ?];
               try discriminate
           end.
    unfold SSHServer.freePort. rewrite Hport. cbn [truthy].
    replace (p =? 0) with false by (symmetry; now apply Z.eqb_neq).
    cbn. intros H; inversion H; reflexivity. }
  subst s'. split; [exact Hport|].
  intros fuel w2. reflexivity.
Qed.

Lemma stopped_server_cannot_reserve_witness :
  let P := Scenario.platform 0 Scenario.offline Scenario.offline Scenario.offline in
  let '(_, s', _) := SSHServer.stopServer Scenario.started_server (Scenario.world []) in
  SSHServer.reservedPort s' = Some 5000 /\
  fst (fst (SSHServer.reservePort 0 s' (Scenario.world [5001])))
  = Threw (TypeError "reservePort is not a function").
Proof.
  intros P.
  destruct (@stopped_server_cannot_reserve P Scenario.started_server _
              (Scenario.world []) _ 5000 eq_refl eq_refl ltac:(lia)) as [Hport Hcall].
  split; [exact Hport|].
  rewrite Hcall. reflexivity.
Defined.

(** ** The shape of what a poll or a cancel leaves *)

Lemma set_sshServer_same (e : CCExperiment.t) :
  CCExperiment.set_sshServer (CCExperiment.sshServer e) e = e.
Proof. destruct e; reflexivity. Qed.

Lemma set_debugInfo_same (e : CCExperiment.t) :
  CCExperiment.set_debugInfo (CCExperiment.debugInfo e) e = e.
Proof. destruct e; reflexivity. Qed.

Lemma set_availablePorts_same (w : World) :
  set_availablePorts (availablePorts w) w = w.
Proof. destruct w; reflexivity. Qed.

(** [stop_attached_server] changes the attached server at most, and the
    world by events of that server and a port returned. *)
Lemma stop_attached_server_shape {P : Platform} (e : CCExperiment.t) (w : World) :
  exists x ports evs,
    CCExperiment.stop_attached_server e w
    = (CCExperiment.set_sshServer x e, set_availablePorts ports (extend evs w)) /\
    forallb server_event evs = true.
Proof.
  unfold CCExperiment.stop_attached_server.
  destruct (CCExperiment.sshServer e) as [s|] eqn:Hs.
  - destruct (stopServer_detached_world s w) as (ports & evs & Hw & Hevs).
    destruct (SSHServer.stopServer_detached s w) as [s' w']. cbn [snd] in Hw. subst w'.
    exists (Some s'), ports, evs. auto.
  - exists None, (availablePorts w), []. split; [|reflexivity].
    rewrite extend_nil, set_availablePorts_same, <- Hs, set_sshServer_same. reflexivity.
Qed.

(** Resolving the batch identifier sets [batchId] at most and sends one
    request at most. *)
Lemma resolve_batchId_shape {P : Platform} (e : CCExperiment.t) (w : World) :
  exists evs,
    snd (CCExperiment.resolve_batchId e w) = extend evs w /\
    (List.length (requests evs) <= 1)%nat /\
    stops evs = 0%nat /\
    match fst (CCExperiment.resolve_batchId e w) with
    | Some e1 => e1 = e \/ exists id, e1 = CCExperiment.set_batchId id e
    | None => True
    end.
Proof.
  unfold CCExperiment.resolve_batchId.
  destruct (truthy (CCExperiment.batchId e)).
  - exists []. cbn. rewrite extend_nil. auto.
  - unfold CCExperiment.getBatchId, CCExperiment.send.
    destruct (new_URL (CCExperiment.ccAgencyUrl e)) as [url|].
    + match goal with
      | |- context [request (trace w) ?r] =>
          destruct (request (trace w) r) as [statusCode text|m|thrown];
          [exists [EvRequest r] | exists [EvRequest r] | exists []]
      end; rewrite ?log_is_extend.
      * destruct (JSON_parse text) as [json|]; [destruct (iterate json) as [l|];
          [destruct (CCExperiment.find_batch _ l)|]|]; cbn; eauto 6.
      * cbn. auto.
      * cbn. rewrite extend_nil. auto.
    + exists []. cbn. rewrite extend_nil. auto.
Qed.

Lemma grown_refl (w : World) : grown w w.
Proof.
  exists (availablePorts w), [].
  now rewrite extend_nil, set_availablePorts_same.
Qed.

Lemma grown_extend (evs : list event) (w : World) : grown w (extend evs w).
Proof. exists (availablePorts w), evs. reflexivity. Qed.

Lemma grown_trans (a b c : World) : grown a b -> grown b c -> grown a c.
Proof.
  intros (p1 & ev1 & Hb) (p2 & ev2 & Hc). subst.
  exists p2, (ev1 ++ ev2). unfold set_availablePorts, extend; cbn.
  now rewrite app_assoc.
Qed.

Lemma grown_timers (w w' : World) :
  grown w w' -> armedTimers w' = armedTimers w /\ nextTimer w' = nextTimer w.
Proof. intros (p & evs & H); subst; auto. Qed.

Lemma same_but_server_refl (e : CCExperiment.t) : same_but_server e e.
Proof. exists (CCExperiment.sshServer e). now rewrite set_sshServer_same. Qed.

Lemma stop_attached_server_frame {P : Platform} (e : CCExperiment.t) (w : World) :
  same_but_server e (fst (CCExperiment.stop_attached_server e w)) /\
  grown w (snd (CCExperiment.stop_attached_server e w)).
Proof.
  destruct (stop_attached_server_shape e w) as (x & ports & evs & H & _).
  rewrite H. split; [now exists x | now exists ports, evs].
Qed.

(** Past the resolution of the batch, [cancelExperiment] clears the watchdog
    and then changes the attached server, the trace and the pool only. *)
Lemma cancelExperiment_shape {P : Platform} (e e1 : CCExperiment.t) (w w1 : World) :
  CCExperiment.resolve_batchId e w = (Some e1, w1) ->
  same_but_server e1 (snd (fst (CCExperiment.cancelExperiment e w))) /\
  grown (CCExperiment.clearTimeoutTimer e1 w1) (snd (CCExperiment.cancelExperiment e w)).
Proof.
  intros Hres. unfold CCExperiment.cancelExperiment, CCExperiment.send.
  rewrite Hres.
  destruct (new_URL (CCExperiment.ccAgencyUrl e1)) as [url|];
    [|split; [apply same_but_server_refl | apply grown_refl]].
  match goal with
  | |- context [request ?tr ?r] => destruct (request tr r)
  end; rewrite ?log_is_extend;
    [|split; [apply same_but_server_refl | apply grown_extend]
     |split; [apply same_but_server_refl | apply grown_refl]].
  destruct (JSON_parse text) as [json|];
    [|split; [apply same_but_server_refl | apply grown_extend]].
  destruct (getProp json "state");
    [|split; [apply same_but_server_refl | apply grown_extend]].
  match goal with
  | |- context [CCExperiment.stop_attached_server ?x ?y] =>
      destruct (stop_attached_server_frame x y) as [He Hw];
      destruct (CCExperiment.stop_attached_server x y) as [e' w']
  end.
  cbn [fst snd] in *. split; [exact He|].
  eapply grown_trans; [apply grown_extend | exact Hw].
Qed.

Lemma resolve_batchId_timers {P : Platform} (e e1 : CCExperiment.t) (w w1 : World) :
  CCExperiment.resolve_batchId e w = (Some e1, w1) ->
  CCExperiment.timeoutFunction e1 = CCExperiment.timeoutFunction e /\
  armedTimers w1 = armedTimers w.
Proof.
  intros Hres.
  destruct (resolve_batchId_shape e w) as (evs & Hw & _ & _ & He).
  rewrite Hres in Hw, He. cbn [fst snd] in *. subst w1.
  destruct He as [He|[id He]]; subst e1; auto.
Qed.

Lemma disarmed_never_fires {P : Platform} (e : CCExperiment.t) (w : World) :
  disarmed e w -> CCExperiment.timeout_fires e w = (e, w).
Proof.
  unfold disarmed, CCExperiment.timeout_fires.
  destruct (CCExperiment.timeoutFunction e) as [id|]; [|reflexivity].
  intros Hout.
  destruct (existsb (Nat.eqb id) (armedTimers w)) eqn:Hin; [|reflexivity].
  exfalso. apply Hout. apply existsb_exists in Hin as (x & Hx & Heq).
  apply Nat.eqb_eq in Heq. now subst.
Qed.

(** X8.  Once [cancelExperiment] has the batch identifier, the watchdog is
    disarmed, however the cancellation itself ends (answer, malformed
    answer, transport error or invalid URL): its timer is no longer armed,
    and if the timer's time comes nothing happens. *)
Theorem cancelExperiment_disarms {P : Platform}
    (e e1 : CCExperiment.t) (w w1 : World) :
  CCExperiment.resolve_batchId e w = (Some e1, w1) ->
  let e' := snd (fst (CCExperiment.cancelExperiment e w)) in
  let w' := snd (CCExperiment.cancelExperiment e w) in
  disarmed e' w' /\ CCExperiment.timeout_fires e' w' = (e', w').
Proof.
  intros Hres e' w'.
  assert (Hd : disarmed e' w').
  { destruct (cancelExperiment_shape e e1 w w1 Hres) as [[x He] Hw].
    apply grown_timers in Hw as [Harmed _].
    fold e' in He. fold w' in Harmed.
    unfold disarmed. rewrite He, Harmed.
    cbn [CCExperiment.timeoutFunction CCExperiment.set_sshServer].
    unfold CCExperiment.clearTimeoutTimer.
    destruct (CCExperiment.timeoutFunction e1) as [id|]; [|exact I].
    cbn [CCExperiment.clearTimeout armedTimers]. apply remove_In. }
  split; [exact Hd | now apply disarmed_never_fires].
Qed.

Lemma cancelExperiment_disarms_witness :
  let P := Scenario.platform 0 Scenario.offline Scenario.offline Scenario.offline in
  let e' := snd (fst (CCExperiment.cancelExperiment Timed.experiment Timed.world)) in
  let w' := snd (CCExperiment.cancelExperiment Timed.experiment Timed.world) in
  In 0%nat (armedTimers Timed.world) /\
  disarmed e' w' /\ CCExperiment.timeout_fires e' w' = (e', w').
Proof.
  intros P e' w'. split; [now left|].
  eapply (@cancelExperiment_disarms P Timed.experiment _ Timed.world _).
  reflexivity.
Defined.

Lemma trace_clearTimeoutTimer (e : CCExperiment.t) (w : World) :
  trace (CCExperiment.clearTimeoutTimer e w) = trace w.
Proof.
  unfold CCExperiment.clearTimeoutTimer.
  destruct (CCExperiment.timeoutFunction e); reflexivity.
Qed.

Lemma stop_attached_server_stops {P : Platform} (e : CCExperiment.t) (w : World) :
  stops (trace (snd (CCExperiment.stop_attached_server e w)))
  = (stops (trace w)
     + match CCExperiment.sshServer e with Some _ => 1 | None => 0 end)%nat.
Proof.
  unfold CCExperiment.stop_attached_server.
  destruct (CCExperiment.sshServer e) as [s|]; cbn [snd]; [|lia].
  pose proof (stopServer_detached_stops s w) as H.
  destruct (SSHServer.stopServer_detached s w). cbn [snd] in *. lia.
Qed.

(** X9.  When the agency answers the DELETE of [cancelExperiment] with a
    document that has a state, the call resolves with whether that state is
    "cancelled", and the attached server is stopped once in either case:
    also when the agency did not confirm the cancellation. *)
Theorem cancelExperiment_answered {P : Platform}
    (e e1 : CCExperiment.t) (w w1 : World) (s : SSHServer.t)
    (url : URL) (statusCode : Z) (text : string) (json state : value) :
  CCExperiment.sshServer e = Some s ->
  CCExperiment.resolve_batchId e w = (Some e1, w1) ->
  new_URL (CCExperiment.ccAgencyUrl e1) = Some url ->
  request (trace w1)
    (CCExperiment.build_request e1 url
       ("batches/" ++ toString (CCExperiment.batchId e1))%string "DELETE" None)
  = Response statusCode text ->
  JSON_parse text = inl json ->
  getProp json "state" = Some state ->
  exists e' w',
    CCExperiment.cancelExperiment e w
    = (Resolved (loose_eq state (VStr "cancelled")), e', w') /\
    stops (trace w') = S (stops (trace w)).
Proof.
  intros Hs Hres Hurl Hresp Hparse Hstate.
  destruct (resolve_batchId_frame _ _ _ _ Hres) as (Hs1 & _ & Hstops1).
  unfold CCExperiment.cancelExperiment, CCExperiment.send.
  rewrite Hres, Hurl, trace_clearTimeoutTimer, Hresp, Hparse, Hstate.
  match goal with
  | |- context [CCExperiment.stop_attached_server ?x ?y] =>
      pose proof (stop_attached_server_stops x y) as Hstop;
      destruct (CCExperiment.stop_attached_server x y) as [e' w']
  end.
  cbn [snd] in Hstop. exists e', w'. split; [reflexivity|].
  rewrite Hstop, Hs1, Hs, log_is_extend, trace_extend, stops_app,
    trace_clearTimeoutTimer, Hstops1.
  unfold stops; simpl; lia.
Qed.

Lemma cancelExperiment_answered_witness :
  let P := Scenario.platform 0 Scenario.offline Scenario.offline Scenario.offline in
  exists e' w',
    CCExperiment.cancelExperiment Timed.experiment Timed.world
    = (Resolved true, e', w') /\
    stops (trace w') = 1%nat.
Proof.
  intros P.
  eapply (@cancelExperiment_answered P Timed.experiment _ Timed.world _
            Scenario.started_server _ _ _ _ (VStr "cancelled")); reflexivity.
Defined.

(** X10.  When the batch identifier is unknown and cannot be resolved
    (whatever the reason: the URL, the transport, the answer, no matching
    batch), [fetchCurrentStatus] resolves with the status it had and
    [cancelExperiment] resolves with false; the experiment is unchanged,
    nothing is stopped, and the watchdog stays armed. *)
Theorem unresolved_batch_is_not_an_error {P : Platform}
    (e : CCExperiment.t) (w : World) :
  truthy (CCExperiment.batchId e) = false ->
  (forall id, fst (CCExperiment.getBatchId e w) <> Resolved id) ->
  let w1 := snd (CCExperiment.getBatchId e w) in
  CCExperiment.fetchCurrentStatus e w = (Resolved (CCExperiment.currentStatus e), e, w1) /\
  CCExperiment.cancelExperiment e w = (Resolved false, e, w1) /\
  armedTimers w1 = armedTimers w /\
  availablePorts w1 = availablePorts w /\
  stops (trace w1) = stops (trace w).
Proof.
  intros Hbatch Hfail w1.
  assert (Hres : CCExperiment.resolve_batchId e w = (None, w1)).
  { unfold CCExperiment.resolve_batchId. rewrite Hbatch. subst w1.
    destruct (CCExperiment.getBatchId e w) as [o w0]. cbn [fst snd] in *.
    destruct o; try reflexivity. now elim (Hfail a). }
  destruct (resolve_batchId_shape e w) as (evs & Hw & _ & Hstops & _).
  rewrite Hres in Hw. cbn [snd] in Hw.
  unfold CCExperiment.fetchCurrentStatus, CCExperiment.cancelExperiment.
  rewrite Hres. repeat split; rewrite ?Hw; try reflexivity.
  rewrite trace_extend, stops_app, Hstops. lia.
Qed.

Lemma unresolved_batch_is_not_an_error_witness :
  let P := Scenario.platform 0 Scenario.offline Scenario.offline Scenario.offline in
  let e := CCExperiment.set_experimentId (VStr "exp2") Timed.experiment in
  fst (fst (CCExperiment.fetchCurrentStatus e Timed.world)) = Resolved (VStr "unknown") /\
  fst (fst (CCExperiment.cancelExperiment e Timed.world)) = Resolved false /\
  armedTimers (snd (CCExperiment.cancelExperiment e Timed.world)) = [0%nat].
Proof.
  intros P e.
  destruct (@unresolved_batch_is_not_an_error P e Timed.world eq_refl)
    as (Hpoll & Hcancel & Harmed & _).
  - intros id. vm_compute. discriminate.
  - rewrite Hpoll, Hcancel. cbn [fst snd]. rewrite Harmed. repeat split.
Defined.

(** ** fetchCurrentStatus *)

Lemma scan_history_shape {P : Platform} (history : list value) :
  forall e e2 : CCExperiment.t,
    CCExperiment.scan_history history e = inl e2 ->
    exists info, e2 = CCExperiment.set_debugInfo info e.
Proof.
  induction history as [|el rest IH]; intros e e2.
  - cbn. intros H; injection H as <-. exists (CCExperiment.debugInfo e).
    now rewrite set_debugInfo_same.
  - cbn [CCExperiment.scan_history].
    destruct (getProp el "state") as [state|]; [|discriminate].
    destruct (getProp el "debugInfo") as [info|]; [|discriminate].
    destruct (loose_eq state (VStr "failed")); [|apply IH].
    intros H; injection H as <-. now exists info.
Qed.

(** What [fetchCurrentStatus] does with a parsed response that has a state:
    it records the state; if it resolves, the experiment differs besides in
    [debugInfo] and, for a terminal state, by the teardown. *)
Lemma on_status_cases {P : Platform} (json state : value) (e : CCExperiment.t)
    (w : World) :
  getProp json "state" = Some state ->
  match CCExperiment.on_status json e w with
  | (Resolved x, e', w') =>
      x = state /\
      exists info,
        let e2 := CCExperiment.set_debugInfo info
                    (CCExperiment.set_currentStatus state e) in
        (e', w') = if terminal state
                   then CCExperiment.stop_attached_server e2
                          (CCExperiment.clearTimeoutTimer e2 w)
                   else (e2, w)
  | (Rejected _, e', w') => e' = CCExperiment.set_currentStatus state e /\ w' = w
  | _ => False
  end.
Proof.
  intros Hstate.
  destruct (getProp_defined json state "state" "history" Hstate) as [history Hhist].
  unfold CCExperiment.on_status. rewrite Hstate, Hhist.
  cbn [CCExperiment.currentStatus CCExperiment.set_currentStatus].
  set (e1 := CCExperiment.set_currentStatus state e).
  assert (Hscan :
            forall e2,
              (if loose_eq state (VStr "failed")
               then match iterate history with
                    | Some l => CCExperiment.scan_history l e1
                    | None =>
                        inr (CCExperiment.parse_failed (TypeError_message NotIterable))
                    end
               else inl e1) = inl e2 ->
              exists info, e2 = CCExperiment.set_debugInfo info e1).
  { intros e2. destruct (loose_eq state (VStr "failed")).
    - destruct (iterate history) as [l|]; [apply scan_history_shape | discriminate].
    - intros H; injection H as <-. exists (CCExperiment.debugInfo e1).
      now rewrite set_debugInfo_same. }
  destruct (if loose_eq state (VStr "failed") then _ else _) as [e2|ex];
    [|split; reflexivity].
  destruct (Hscan e2 eq_refl) as [info He2]. subst e2. clear Hscan. subst e1.
  cbn [CCExperiment.currentStatus CCExperiment.set_debugInfo
       CCExperiment.set_currentStatus].
  fold (terminal state).
  destruct (terminal state).
  - destruct (CCExperiment.stop_attached_server _ _) as [e' w'] eqn:Hstop.
    match type of Hstop with
    | CCExperiment.stop_attached_server ?a ?b = _ =>
        destruct (stop_attached_server_frame a b) as [[x He'] _]
    end.
    rewrite Hstop in He'. cbn [fst] in He'. subst e'.
    split; [reflexivity|]. exists info. exact (eq_sym Hstop).
  - split; [reflexivity|]. exists info. reflexivity.
Qed.

(** X11.  A poll that observes a state other than "succeeded" and "failed"
    records the state and nothing else: the batch identifier apart, the
    experiment is as before, no server is stopped, no port returned, and the
    watchdog stays armed. *)
Theorem fetchCurrentStatus_not_terminal {P : Platform}
    (e e1 : CCExperiment.t) (w w1 : World)
    (url : URL) (statusCode : Z) (text : string) (json state : value) :
  CCExperiment.resolve_batchId e w = (Some e1, w1) ->
  new_URL (CCExperiment.ccAgencyUrl e1) = Some url ->
  let r := CCExperiment.build_request e1 url
             ("batches/" ++ toString (CCExperiment.batchId e1))%string "GET" None in
  request (trace w1) r = Response statusCode text ->
  JSON_parse text = inl json ->
  getProp json "state" = Some state ->
  terminal state = false ->
  CCExperiment.fetchCurrentStatus e w
  = (Resolved state, CCExperiment.set_currentStatus state e1, extend [EvRequest r] w1).
Proof.
  intros Hres Hurl r Hresp Hparse Hstate Hterm.
  destruct (getProp_defined json state "state" "history" Hstate) as [history Hhist].
  unfold terminal in Hterm. apply orb_false_elim in Hterm as [Hsucc Hfail].
  unfold CCExperiment.fetchCurrentStatus, CCExperiment.send.
  rewrite Hres, Hurl. fold r. rewrite Hresp, Hparse.
  unfold CCExperiment.on_status. rewrite Hstate, Hhist.
  cbn [CCExperiment.currentStatus CCExperiment.set_currentStatus].
  rewrite Hfail. cbv beta iota.
  cbn [CCExperiment.currentStatus CCExperiment.set_currentStatus].
  rewrite Hsucc, Hfail. reflexivity.
Qed.

Lemma fetchCurrentStatus_not_terminal_witness :
  let P := Scenario.platform 0 Scenario.offline (Response 200 Scenario.processing)
             Scenario.offline in
  exists e' w',
    CCExperiment.fetchCurrentStatus Timed.experiment Timed.world
    = (Resolved (VStr "processing"), e', w') /\
    armedTimers w' = [0%nat] /\ stops (trace w') = 0%nat.
Proof.
  intros P.
  eexists _, _. split.
  - eapply (@fetchCurrentStatus_not_terminal P Timed.experiment _ Timed.world _);
      reflexivity.
  - split; reflexivity.
Defined.

(** X12.  A poll that resolves after observing a terminal state
    ("succeeded" or "failed") resolves with that state, stops the attached
    server once (no server, no stop) and disarms the watchdog: if the
    timer's time comes afterwards, no cancellation is started. *)
Theorem fetchCurrentStatus_terminal_teardown {P : Platform}
    (e e1 e' : CCExperiment.t) (w w1 w' : World)
    (url : URL) (statusCode : Z) (text : string) (json state x : value) :
  CCExperiment.resolve_batchId e w = (Some e1, w1) ->
  new_URL (CCExperiment.ccAgencyUrl e1) = Some url ->
  request (trace w1)
    (CCExperiment.build_request e1 url
       ("batches/" ++ toString (CCExperiment.batchId e1))%string "GET" None)
  = Response statusCode text ->
  JSON_parse text = inl json ->
  getProp json "state" = Some state ->
  terminal state = true ->
  CCExperiment.fetchCurrentStatus e w = (Resolved x, e', w') ->
  x = state /\
  stops (trace w')
  = (stops (trace w)
     + match CCExperiment.sshServer e with Some _ => 1 | None => 0 end)%nat /\
  disarmed e' w' /\
  CCExperiment.timeout_fires e' w' = (e', w').
Proof.
  intros Hres Hurl Hresp Hparse Hstate Hterm.
  destruct (resolve_batchId_frame _ _ _ _ Hres) as (Hs1 & _ & Hstops1).
  unfold CCExperiment.fetchCurrentStatus, CCExperiment.send.
  rewrite Hres, Hurl, Hresp, Hparse.
  match goal with
  | |- CCExperiment.on_status json e1 ?w2 = _ -> _ =>
      pose proof (on_status_cases json state e1 w2 Hstate) as Hcases;
      set (w2' := w2) in *
  end.
  intros Hpoll. rewrite Hpoll in Hcases.
  destruct Hcases as (Hx & info & Hshape). rewrite Hterm in Hshape.
  cbv zeta in Hshape.
  set (e2 := CCExperiment.set_debugInfo info
               (CCExperiment.set_currentStatus state e1)) in *.
  pose proof (stop_attached_server_stops e2 (CCExperiment.clearTimeoutTimer e2 w2'))
    as Hstop.
  destruct (stop_attached_server_frame e2 (CCExperiment.clearTimeoutTimer e2 w2'))
    as [[y He'] Hgrown].
  rewrite <- Hshape in Hstop, He', Hgrown. cbn [fst snd] in *.
  apply grown_timers in Hgrown as [Harmed _].
  assert (Hd : disarmed e' w').
  { unfold disarmed. rewrite He', Harmed.
    cbn [CCExperiment.timeoutFunction CCExperiment.set_sshServer].
    unfold CCExperiment.clearTimeoutTimer.
    destruct (CCExperiment.timeoutFunction e2) as [id|]; [|exact I].
    cbn [CCExperiment.clearTimeout armedTimers]. apply remove_In. }
  repeat split; auto; [|now apply disarmed_never_fires].
  rewrite Hstop, trace_clearTimeoutTimer. unfold w2'.
  rewrite log_is_extend, trace_extend, stops_app, Hstops1.
  replace (CCExperiment.sshServer e2) with (CCExperiment.sshServer e)
    by (rewrite <- Hs1; reflexivity).
  unfold stops; simpl; lia.
Qed.

Lemma fetchCurrentStatus_terminal_teardown_witness :
  let P := Scenario.platform 0 Scenario.offline (Response 200 Scenario.failed_twice)
             Scenario.offline in
  let '(o, e', w') := CCExperiment.fetchCurrentStatus Timed.experiment Timed.world in
  o = Resolved (VStr "failed") /\ stops (trace w') = 1%nat /\ disarmed e' w'.
Proof.
  intros P.
  destruct (CCExperiment.fetchCurrentStatus Timed.experiment Timed.world)
    as [[o e'] w'] eqn:Hpoll.
  assert (Ho : o = Resolved (VStr "failed"))
    by (apply (f_equal (fun t => fst (fst t))) in Hpoll; vm_compute in Hpoll;
        now symmetry).
  subst o.
  destruct (@fetchCurrentStatus_terminal_teardown P Timed.experiment _ e'
              Timed.world _ w' _ _ _ _ (VStr "failed") (VStr "failed")
              eq_refl eq_refl eq_refl eq_refl eq_refl eq_refl Hpoll)
    as (_ & Hstops & Hd & _).
  repeat split; assumption.
Defined.

(** ** getBatchId *)

(** The operator [==] between a number and what may stand for it: the
    string is read as StringToNumber reads it, an array by way of its
    string. *)
Example loose_eq_of_numbers :
  map (loose_eq (VNum 10))
    [VStr "10"; VStr "1e1"; VStr "0xa"; VStr " 10.0 "; VStr "100e-1";
     VStr "9.5"; VStr "ten"; VStr "1e"; VArr [VNum 10]; VArr [VStr "1e1"];
     VBool true; VNull]
  = [true; true; true; true; true;
     false; false; false; true; true;
     false; false].
Proof. vm_compute. reflexivity. Qed.

Lemma find_batch_first {P : Platform} (experimentId : value) (batches : list value) :
  Forall (fun batch => getProp batch "experimentId" <> None) batches ->
  CCExperiment.find_batch experimentId batches
  = match find (belongs_to experimentId) batches with
    | Some batch =>
        Resolved (match getProp batch "_id" with Some id => id | None => VUndefined end)
    | None => Rejected (Error "Experiment ID not found.")
    end.
Proof.
  induction batches as [|batch rest IH]; intros Hall; [reflexivity|].
  inversion Hall as [|? ? Hbatch Hrest]; subst.
  cbn [CCExperiment.find_batch find]. unfold belongs_to at 1.
  destruct (getProp batch "experimentId") as [id|] eqn:Hid; [|congruence].
  destruct (getProp_defined batch id "experimentId" "_id" Hid) as [_id H_id].
  rewrite H_id.
  destruct (loose_eq id experimentId); [now rewrite H_id | now apply IH].
Qed.

(** X13.  [getBatchId] sends one GET for
    "batches?experimentId=<experimentId>"; when the answer is an array of
    batches (objects), it resolves with the [_id] of the first batch, in the
    order of the array, whose [experimentId] equals the experiment's, and is
    rejected with "Experiment ID not found." when there is none. *)
Theorem getBatchId_first_match {P : Platform}
    (e : CCExperiment.t) (w : World)
    (url : URL) (statusCode : Z) (text : string) (batches : list value) :
  let r := CCExperiment.build_request e url
             ("batches?experimentId=" ++ toString (CCExperiment.experimentId e))%string
             "GET" None in
  new_URL (CCExperiment.ccAgencyUrl e) = Some url ->
  request (trace w) r = Response statusCode text ->
  JSON_parse text = inl (VArr batches) ->
  Forall (fun batch => getProp batch "experimentId" <> None) batches ->
  CCExperiment.getBatchId e w
  = (match find (belongs_to (CCExperiment.experimentId e)) batches with
     | Some batch =>
         Resolved (match getProp batch "_id" with Some id => id | None => VUndefined end)
     | None => Rejected (Error "Experiment ID not found.")
     end,
     extend [EvRequest r] w).
Proof.
  intros r Hurl Hresp Hparse Hall.
  unfold CCExperiment.getBatchId, CCExperiment.send. rewrite Hurl. fold r.
  rewrite Hresp, Hparse. cbn [iterate].
  rewrite find_batch_first by exact Hall. reflexivity.
Qed.

Lemma getBatchId_first_match_witness :
  let P := Scenario.platform 0 Scenario.offline Scenario.offline Scenario.offline in
  fst (CCExperiment.getBatchId Scenario.submitted_experiment (Scenario.world []))
  = Resolved (VStr "batch1")
  /\ fst (CCExperiment.getBatchId
            (CCExperiment.set_experimentId (VStr "exp1")
               (CCExperiment.set_batchId (VStr "stale") Scenario.submitted_experiment))
            (Scenario.world []))
     = Resolved (VStr "batch1").
Proof.
  intros P. split.
  - rewrite (@getBatchId_first_match P Scenario.submitted_experiment (Scenario.world [])
               {| url_protocol := "http:"; url_hostname := "127.0.0.1";
                  url_port := "8090"; url_pathname := "/" |}
               200 Scenario.batches
               [VObj [("_id", VStr "batch1"); ("experimentId", VStr "exp1")]]
               eq_refl eq_refl eq_refl).
    + reflexivity.
    + repeat constructor. discriminate.
  - reflexivity.
Defined.

(** ** startExperiment *)

Lemma createRED_shape {P : Platform} (e e0 : CCExperiment.t) :
  CCExperiment.createRED e = inl e0 ->
  exists r, e0 = CCExperiment.set_red (Some r) e.
Proof.
  unfold CCExperiment.createRED.
  destruct (CCExperiment.getREDInputs e); [|discriminate].
  destruct (CCExperiment.getREDOutputs e); [|discriminate].
  intros H; injection H as <-. eauto.
Qed.

Lemma job_description_shape {P : Platform} (e e0 : CCExperiment.t) :
  match CCExperiment.red e with
  | Some _ => inl e
  | None => CCExperiment.createRED e
  end = inl e0 ->
  e0 = e \/ exists r, e0 = CCExperiment.set_red (Some r) e.
Proof.
  destruct (CCExperiment.red e).
  - intros H; injection H as <-. now left.
  - intros H. right. now apply createRED_shape.
Qed.

(** X14.  When the attached server fails to start, [startExperiment] is
    rejected and the submission does not take place: no request is sent, no
    identifier recorded, no watchdog armed; nothing is stopped either. *)
Theorem startExperiment_aborted_by_server {P : Platform}
    (e : CCExperiment.t) (w w1 : World) (s s1 : SSHServer.t) (ex : exn) :
  CCExperiment.sshServer e = Some s ->
  SSHServer.startServer s w = (Rejected ex, s1, w1) ->
  let '(o, e', w') := CCExperiment.startExperiment e w in
  (exists ex', o = Rejected ex') /\
  requests (trace w') = requests (trace w) /\
  CCExperiment.experimentId e' = CCExperiment.experimentId e /\
  armedTimers w' = armedTimers w /\
  stops (trace w') = stops (trace w).
Proof.
  intros Hs Hstart. unfold CCExperiment.startExperiment.
  destruct (match CCExperiment.red e with
            | Some _ => inl e
            | None => CCExperiment.createRED e
            end) as [e0|ex0] eqn:Hred; [|repeat split; eauto].
  assert (Hs0 : CCExperiment.sshServer e0 = Some s /\
                CCExperiment.experimentId e0 = CCExperiment.experimentId e).
  { destruct (job_description_shape e e0 Hred) as [->|[r ->]]; auto. }
  destruct Hs0 as [Hs0 Hid0]. rewrite Hs0, Hstart.
  destruct (startServer_world s w) as (evs & Hw & Hevs).
  destruct (startServer_frame s w) as [Hstops _].
  rewrite Hstart in Hw, Hstops. cbn [snd] in Hw, Hstops. subst w1.
  repeat split; eauto.
  rewrite trace_extend, requests_app, (requests_server_events evs Hevs).
  apply app_nil_r.
Qed.

Lemma startExperiment_aborted_by_server_witness :
  let P := Scenario.platform 4 (Response 200 Scenario.submitted) Scenario.offline
             Scenario.offline in
  let e := Scenario.experiment (SSHServer.set_reservedPort (Some 5000) Scenario.server) in
  let '(o, e', w') := CCExperiment.startExperiment e (Scenario.world []) in
  (exists ex', o = Rejected ex') /\
  requests (trace w') = [] /\
  CCExperiment.experimentId e' = VUndefined /\
  armedTimers w' = [] /\
  stops (trace w') = 0%nat.
Proof.
  intros P e.
  eapply (@startExperiment_aborted_by_server P e (Scenario.world []) _
            (SSHServer.set_reservedPort (Some 5000) Scenario.server)).
  - reflexivity.
  - reflexivity.
Defined.

(** X15.  A submission with the job description [r] already created and a
    server that starts: when the agency's answer carries a truthy
    [experimentId], [startExperiment] resolves with it and records it; the
    one request sent is the POST of [r] to "red", after the server was
    started; and the watchdog is armed exactly when the timeout is positive,
    with a delay of [timeout] minutes in milliseconds. *)
Theorem startExperiment_submitted {P : Platform}
    (e : CCExperiment.t) (w w1 : World) (s s1 : SSHServer.t) (r : value)
    (url : URL) (statusCode : Z) (text : string) (json id : value) :
  CCExperiment.red e = Some r ->
  CCExperiment.sshServer e = Some s ->
  SSHServer.startServer s w = (Resolved tt, s1, w1) ->
  new_URL (CCExperiment.ccAgencyUrl e) = Some url ->
  let post := CCExperiment.build_request e url "red" "POST" (Some (JSON_stringify r)) in
  request (trace w1) post = Response statusCode text ->
  JSON_parse text = inl json ->
  getProp json "experimentId" = Some id ->
  truthy id = true ->
  exists e' w',
    CCExperiment.startExperiment e w = (Resolved id, e', w') /\
    CCExperiment.experimentId e' = id /\
    CCExperiment.sshServer e' = Some s1 /\
    requests (trace w') = requests (trace w) ++ [post] /\
    if CCExperiment.timeout e >? 0
    then CCExperiment.timeoutFunction e' = Some (nextTimer w) /\
         armedTimers w' = nextTimer w :: armedTimers w /\
         trace w' = trace w1 ++ [EvRequest post;
                                 EvSetTimeout (VNum (CCExperiment.timeout e * 1000 * 60))]
    else CCExperiment.timeoutFunction e' = CCExperiment.timeoutFunction e /\
         armedTimers w' = armedTimers w /\
         trace w' = trace w1 ++ [EvRequest post].
Proof.
  intros Hred Hs Hstart Hurl post Hresp Hparse Hid Htruthy.
  destruct (startServer_world s w) as (evs & Hw & Hevs).
  rewrite Hstart in Hw. cbn [snd] in Hw.
  assert (Hreq : requests (trace w1) = requests (trace w)).
  { rewrite Hw, trace_extend, requests_app, (requests_server_events evs Hevs).
    apply app_nil_r. }
  assert (Htimers : armedTimers w1 = armedTimers w /\ nextTimer w1 = nextTimer w)
    by (rewrite Hw; split; reflexivity).
  destruct Htimers as [Harmed Hnext].
  unfold CCExperiment.startExperiment, CCExperiment.send.
  rewrite Hred, Hs, Hstart.
  cbn [CCExperiment.ccAgencyUrl CCExperiment.set_sshServer CCExperiment.red].
  rewrite Hurl, !Hred.
  change (CCExperiment.build_request (CCExperiment.set_sshServer (Some s1) e) url
            "red" "POST" (Some (JSON_stringify r))) with post.
  rewrite Hresp, Hparse, Hid, Htruthy.
  unfold CCExperiment.startTimeoutTimer.
  cbn [CCExperiment.timeout CCExperiment.set_experimentId CCExperiment.set_sshServer].
  unfold CCExperiment.setTimeout. rewrite log_is_extend.
  destruct (CCExperiment.timeout e >? 0); cbv beta iota zeta;
    cbn [CCExperiment.experimentId CCExperiment.set_timeoutFunction
         CCExperiment.set_experimentId CCExperiment.set_sshServer];
    eexists _, _; (split; [reflexivity|]);
    cbn [CCExperiment.experimentId CCExperiment.sshServer
         CCExperiment.timeoutFunction CCExperiment.set_timeoutFunction
         CCExperiment.set_experimentId CCExperiment.set_sshServer
         trace armedTimers nextTimer extend].
  - rewrite !requests_app, Hreq, Harmed, Hnext, <- !app_assoc.
    repeat split; reflexivity.
  - rewrite requests_app, Hreq, Harmed.
    repeat split; reflexivity.
Qed.

Lemma startExperiment_submitted_witness :
  let P := Scenario.platform 0 (Response 200 Scenario.submitted) Scenario.offline
             Scenario.offline in
  let e := described
             (CCExperiment.set_timeoutFunction None
                (CCExperiment.set_experimentId VUndefined Timed.experiment)) in
  exists e' w',
    CCExperiment.startExperiment e (Scenario.world [])
    = (Resolved (VStr "exp1"), e', w') /\
    CCExperiment.experimentId e' = VStr "exp1" /\
    CCExperiment.timeoutFunction e' = Some 0%nat /\
    armedTimers w' = [0%nat] /\
    List.length (requests (trace w')) = 1%nat.
Proof.
  intros P e.
  destruct (@startExperiment_submitted P e (Scenario.world []) _
              Scenario.started_server _ _ _ _ _ _ (VStr "exp1")
              eq_refl eq_refl eq_refl eq_refl eq_refl eq_refl eq_refl eq_refl)
    as (e' & w' & Hrun & Hid & _ & Hreq & Htimer & Harmed & _).
  exists e', w'. rewrite Hreq. repeat split; assumption.
Defined.

(** X16.  Once the job description exists, [startExperiment] submits it as
    it is: inputs and outputs that the experiment was given afterwards
    change neither the outcome nor anything done (the request sent carries
    the description created before). *)
Theorem startExperiment_submits_created_description {P : Platform}
    (e : CCExperiment.t) (w : World) (r : value)
    (inputs : list CCInput.t) (outputs : list CCOutput.t) :
  CCExperiment.red e = Some r ->
  let later := CCExperiment.set_outputs outputs
                 (CCExperiment.set_inputs inputs e) in
  fst (fst (CCExperiment.startExperiment later w))
  = fst (fst (CCExperiment.startExperiment e w))
  /\ snd (CCExperiment.startExperiment later w)
     = snd (CCExperiment.startExperiment e w).
Proof.
  intros Hred later. unfold CCExperiment.startExperiment, later.
  cbn [CCExperiment.red CCExperiment.set_outputs
       CCExperiment.set_inputs CCExperiment.sshServer].
  rewrite Hred.
  cbn [CCExperiment.red CCExperiment.set_outputs
       CCExperiment.set_inputs CCExperiment.sshServer].
  destruct (CCExperiment.sshServer e) as [s|] eqn:Hserver.
  - destruct (SSHServer.startServer s w) as [[started s1] w1].
    destruct started; try (split; reflexivity).
    cbn [CCExperiment.ccAgencyUrl CCExperiment.set_sshServer
         CCExperiment.set_outputs CCExperiment.set_inputs CCExperiment.red].
    destruct (new_URL (CCExperiment.ccAgencyUrl e)) as [url|]; [|split; reflexivity].
    unfold CCExperiment.send, CCExperiment.build_request,
      CCExperiment.getWebRequestOptions.
    cbn [CCExperiment.ccAgencyUsername CCExperiment.ccAgencyPassword
         CCExperiment.set_sshServer
         CCExperiment.set_outputs CCExperiment.set_inputs].
    match goal with
    | |- context [request ?tr ?q] => destruct (request tr q)
    end.
    + destruct (JSON_parse text) as [json|]; [|split; reflexivity].
      destruct (getProp json "experimentId") as [id|]; [|split; reflexivity].
      destruct (truthy id); [|split; reflexivity].
      unfold CCExperiment.startTimeoutTimer.
      cbn [CCExperiment.timeout CCExperiment.set_experimentId
           CCExperiment.set_sshServer
           CCExperiment.set_outputs CCExperiment.set_inputs].
      destruct (CCExperiment.timeout e >? 0); split; reflexivity.
    + unfold CCExperiment.stop_attached_server.
      cbn [CCExperiment.sshServer CCExperiment.set_sshServer].
      destruct (SSHServer.stopServer_detached s1 _); split; reflexivity.
    + split; reflexivity.
  - cbn [CCExperiment.ccAgencyUrl CCExperiment.set_sshServer
         CCExperiment.set_outputs CCExperiment.set_inputs CCExperiment.red].
    destruct (new_URL (CCExperiment.ccAgencyUrl e)) as [url|]; [|split; reflexivity].
    unfold CCExperiment.send, CCExperiment.build_request,
      CCExperiment.getWebRequestOptions.
    cbn [CCExperiment.ccAgencyUsername CCExperiment.ccAgencyPassword
         CCExperiment.set_sshServer
         CCExperiment.set_outputs CCExperiment.set_inputs].
    match goal with
    | |- context [request ?tr ?q] => destruct (request tr q)
    end.
    + destruct (JSON_parse text) as [json|]; [|split; reflexivity].
      destruct (getProp json "experimentId") as [id|]; [|split; reflexivity].
      destruct (truthy id); [|split; reflexivity].
      unfold CCExperiment.startTimeoutTimer.
      cbn [CCExperiment.timeout CCExperiment.set_experimentId
           CCExperiment.set_sshServer
           CCExperiment.set_outputs CCExperiment.set_inputs].
      destruct (CCExperiment.timeout e >? 0); split; reflexivity.
    + unfold CCExperiment.stop_attached_server.
      cbn [CCExperiment.sshServer CCExperiment.set_sshServer
           CCExperiment.set_outputs CCExperiment.set_inputs].
      rewrite Hserver. split; reflexivity.
    + split; reflexivity.
Qed.

Lemma startExperiment_submits_created_description_witness :
  let P := Scenario.platform 0 (Response 200 Scenario.submitted) Scenario.offline
             Scenario.offline in
  let e := described (Scenario.experiment Scenario.started_server) in
  let later := CCExperiment.addOutput
                 (CCOutput.new "log" "File" (VStr "run.log") None)
                 (CCExperiment.set_inputs [] e) in
  fst (fst (CCExperiment.startExperiment later (Scenario.world [])))
  = fst (fst (CCExperiment.startExperiment e (Scenario.world [])))
  /\ requests (trace (snd (CCExperiment.startExperiment later (Scenario.world []))))
     = requests (trace (snd (CCExperiment.startExperiment e (Scenario.world [])))).
Proof.
  intros P e later.
  destruct (@startExperiment_submits_created_description P e (Scenario.world []) _
              []
              (CCExperiment.outputs e ++ [CCOutput.new "log" "File" (VStr "run.log") None])
              eq_refl)
    as [Hout Hworld].
  split; [exact Hout | exact (f_equal (fun w => requests (trace w)) Hworld)].
Defined.

(** ** The job description *)

Lemma redInputs_first_failure {P : Platform} (before : list CCInput.t)
    (input : CCInput.t) (after : list CCInput.t) (ex : exn) :
  Forall (fun i => exists v, CCInput.getREDInput i = inl v) before ->
  CCInput.getREDInput input = inr ex ->
  forall o, CCExperiment.redInputs (before ++ input :: after) o = inr ex.
Proof.
  intros Hbefore Hinput.
  induction Hbefore as [|i l [v Hv] _ IH]; intros o; cbn [app CCExperiment.redInputs].
  - now rewrite Hinput.
  - rewrite Hv. apply IH.
Qed.

(** X17.  When the job description has not been created and an input
    cannot be described (the inputs before it can), [startExperiment] is
    rejected with the error of that input and does nothing: the experiment
    is unchanged, the server is not started, no request is sent. *)
Theorem startExperiment_undescribable_input {P : Platform}
    (e : CCExperiment.t) (w : World)
    (before : list CCInput.t) (input : CCInput.t) (after : list CCInput.t)
    (ex : exn) :
  CCExperiment.red e = None ->
  CCExperiment.inputs e = before ++ input :: after ->
  Forall (fun i => exists v, CCInput.getREDInput i = inl v) before ->
  CCInput.getREDInput input = inr ex ->
  CCExperiment.startExperiment e w = (Rejected ex, e, w).
Proof.
  intros Hred Hinputs Hbefore Hinput.
  unfold CCExperiment.startExperiment, CCExperiment.createRED,
    CCExperiment.getREDInputs.
  rewrite Hred, Hinputs, (redInputs_first_failure before input after ex Hbefore Hinput).
  destruct before; reflexivity.
Qed.

Lemma startExperiment_undescribable_input_witness :
  let P := Scenario.platform 0 (Response 200 Scenario.submitted) Scenario.offline
             Scenario.offline in
  let e := CCExperiment.addInput
             (CCInput.new "model" "File" (VNum 2)
                (Some (CCSSHConnector "127.0.0.1" "/shared/model.bin" 5000
                         false false None)))
             (Scenario.experiment Scenario.started_server) in
  CCExperiment.startExperiment e (Scenario.world [])
  = (Rejected (Error "No authentification method set! Use setAuth()."),
     e, Scenario.world []).
Proof.
  intros P e.
  apply (@startExperiment_undescribable_input P e (Scenario.world [])
           (CCExperiment.inputs (Scenario.experiment Scenario.started_server))
           (CCInput.new "model" "File" (VNum 2)
              (Some (CCSSHConnector "127.0.0.1" "/shared/model.bin" 5000
                       false false None)))
           []).
  - reflexivity.
  - reflexivity.
  - repeat constructor; eexists; reflexivity.
  - reflexivity.
Defined.

Lemma lookup_assign (k k' : string) (v : value) (o : list (string * value)) :
  lookup k (assign k' v o) = if (k =? k')%string then Some v else lookup k o.
Proof.
  induction o as [|[k0 v0] o IH]; cbn [assign lookup].
  - reflexivity.
  - destruct (k' =? k0)%string eqn:Hk'; cbn [lookup].
    + apply String.eqb_eq in Hk'. subst k0.
      destruct (k =? k')%string; reflexivity.
    + rewrite IH. destruct (k =? k0)%string eqn:Hk0; [|reflexivity].
      destruct (k =? k')%string eqn:Hk; [|reflexivity].
      apply String.eqb_eq in Hk0, Hk. subst.
      now rewrite String.eqb_refl in Hk'.
Qed.

Lemma find_app_first {A : Type} (p : A -> bool) (a b : list A) :
  find p (a ++ b) = match find p a with Some x => Some x | None => find p b end.
Proof.
  induction a as [|x a IH]; cbn; [reflexivity|].
  destruct (p x); [reflexivity | exact IH].
Qed.

Lemma last_named_cons (k : string) (i : CCInput.t) (l : list CCInput.t) :
  last_named k (i :: l)
  = match last_named k l with
    | Some x => Some x
    | None => if (k =? CCInput.name i)%string then Some i else None
    end.
Proof.
  unfold last_named. cbn [rev]. rewrite find_app_first. cbn [find].
  now rewrite (String.eqb_sym k).
Qed.

Lemma cli_inputs_lookup (k : string) (l : list CCInput.t) :
  forall o,
    lookup k (fold_left
                (fun o i => assign (CCInput.name i) (CCInput.getREDCliInput i) o) l o)
    = match last_named k l with
      | Some i => Some (CCInput.getREDCliInput i)
      | None => lookup k o
      end.
Proof.
  induction l as [|i l IH]; intros o; [reflexivity|].
  cbn [fold_left]. rewrite IH, last_named_cons, lookup_assign.
  destruct (last_named k l); [reflexivity|].
  destruct (k =? CCInput.name i)%string; reflexivity.
Qed.

Lemma redInputs_lookup {P : Platform} (k : string) (l : list CCInput.t) :
  forall o o',
    CCExperiment.redInputs l o = inl o' ->
    option_map (@inl value exn) (lookup k o')
    = match last_named k l with
      | Some i => Some (CCInput.getREDInput i)
      | None => option_map (@inl value exn) (lookup k o)
      end.
Proof.
  induction l as [|i l IH]; intros o o'; cbn [CCExperiment.redInputs].
  - intros H; injection H as <-. reflexivity.
  - destruct (CCInput.getREDInput i) as [v|] eqn:Hi; [|discriminate].
    intros H. rewrite (IH _ _ H), last_named_cons, lookup_assign.
    destruct (last_named k l); [reflexivity|].
    destruct (k =? CCInput.name i)%string; [now rewrite Hi | reflexivity].
Qed.

(** X18.  In the job description [createRED] builds, an input name stands
    for the input added last under it, in the command-line part and in the
    inputs part alike; a name no input has is absent from both.  (Stated
    for names other than "__proto__", which a JavaScript object does not
    keep as a member.) *)
Theorem createRED_last_input_wins {P : Platform} (e e' : CCExperiment.t) :
  CCExperiment.createRED e = inl e' ->
  exists r,
    CCExperiment.red e' = Some r /\
    forall k,
      k <> "__proto__"%string ->
      at_path r ["cli"; "inputs"; k]%string
      = option_map CCInput.getREDCliInput (last_named k (CCExperiment.inputs e)) /\
      option_map (@inl value exn) (at_path r ["inputs"; k]%string)
      = option_map CCInput.getREDInput (last_named k (CCExperiment.inputs e)).
Proof.
  unfold CCExperiment.createRED, CCExperiment.getREDInputs, CCExperiment.getREDCli.
  destruct (CCExperiment.inputs e) as [|i l] eqn:Hinputs; [discriminate|].
  destruct (CCExperiment.redInputs (i :: l) []) as [ins|] eqn:Hins; [|discriminate].
  destruct (CCExperiment.getREDOutputs e) as [outs|]; [|discriminate].
  intros H; injection H as <-.
  eexists. split; [reflexivity|].
  intros k _. cbn [at_path lookup String.eqb Ascii.eqb Bool.eqb].
  pose proof (cli_inputs_lookup k (i :: l) []) as Hcli.
  pose proof (redInputs_lookup k (i :: l) [] ins Hins) as Hred.
  cbn [lookup option_map fold_left assign] in Hcli, Hred.
  split.
  - rewrite Hcli. destruct (last_named k (i :: l)); reflexivity.
  - destruct (lookup k ins); cbn [option_map at_path] in *; rewrite Hred;
      destruct (last_named k (i :: l)); reflexivity.
Qed.

Lemma createRED_last_input_wins_witness :
  let P := Scenario.platform 0 Scenario.offline Scenario.offline Scenario.offline in
  let first := CCInput.setStringValue (VStr "fast")
                 (CCInput.new "mode" "string" (VNum 2) None) in
  let second := CCInput.setStringValue (VStr "exact")
                  (CCInput.new "mode" "string" (VNum 3) None) in
  let e := CCExperiment.addInput second
             (CCExperiment.addInput first
                (Scenario.experiment Scenario.started_server)) in
  exists r,
    CCExperiment.red (described e) = Some r /\
    at_path r ["inputs"; "mode"]%string = Some (VStr "exact") /\
    at_path r ["cli"; "inputs"; "mode"; "inputBinding"; "position"]%string
    = Some (VNum 3).
Proof.
  intros P first second e.
  destruct (@createRED_last_input_wins P e (described e) eq_refl) as (r & Hr & Hk).
  exists r. split; [exact Hr|].
  assert (Hsame : Some r = CCExperiment.red (described e)) by now rewrite Hr.
  injection Hsame as ->.
  split; [|reflexivity].
  destruct (Hk "mode"%string) as [_ Hmode]; [discriminate|].
  destruct (at_path _ ["inputs"; "mode"]%string);
    cbn [option_map] in Hmode; [|discriminate].
  now injection Hmode as ->.
Defined.

(** ** createDefaultIO *)

Lemma setAuth_password (username : string) (credential passphrase : value)
    (c : CCConnector) :
  setAuth "password" username credential passphrase c
  = with_auth (VObj [("username", VStr username); ("password", credential)]) c.
Proof. reflexivity. Qed.

(** X19.  With a port [p] at the head of the pool, [createDefaultIO] on an
    experiment without inputs and outputs leases [p] for a new server,
    attaches the server, and leaves an experiment whose job description can
    be created: the script, the data set and the output directory are all
    reached through [host] at port [p], under the shared directory of the
    container, with the user name and password the server drew. *)
Theorem createDefaultIO_describable {P : Platform} (fuel : nat)
    (username password : string) (sharedDirectory : value)
    (scriptFile dataset output host : string)
    (e : CCExperiment.t) (w : World) (p : Z) (rest : list Z) :
  availablePorts w = p :: rest ->
  CCExperiment.inputs e = [] ->
  CCExperiment.outputs e = [] ->
  exists e1 e2 r,
    DefaultExperiment.createDefaultIO fuel username password sharedDirectory
      scriptFile dataset output host e w
    = (Resolved tt, e1, set_availablePorts rest w) /\
    option_map SSHServer.reservedPort (CCExperiment.sshServer e1) = Some (Some p) /\
    CCExperiment.createRED e1 = inl e2 /\
    CCExperiment.red e2 = Some r /\
    let access (kind path : string) :=
      Some (VObj [("host", VStr host); ("port", VNum p);
                  ("auth", VObj [("username", VStr username);
                                 ("password", VStr password)]);
                  (kind, VStr ("/shared/" ++ path))]) in
    at_path r ["inputs"; "script"; "connector"; "access"]%string
    = access "filePath"%string scriptFile /\
    at_path r ["inputs"; "data"; "connector"; "access"]%string
    = access "filePath"%string dataset /\
    at_path r ["outputs"; "output_directory"; "connector"; "access"]%string
    = access "dirPath"%string output.
Proof.
  intros Hpool Hinputs Houtputs.
  unfold DefaultExperiment.createDefaultIO, SSHServer.reservePort,
    SSHServer.fetchAndWaitForPort.
  cbn [SSHServer.reservePort_overwritten SSHServer.new].
  assert (Hport : forall s,
             SSHServer.fetch_runner fuel (SSHServer.ThisServer s) 0 w
             = (Resolved p, set_availablePorts rest w)).
  { intros s. destruct fuel; cbn [SSHServer.fetch_runner]; now rewrite Hpool. }
  rewrite Hport, !setAuth_password.
  eexists _, _, _. split; [reflexivity|].
  split; [reflexivity|].
  unfold CCExperiment.createRED, CCExperiment.getREDInputs,
    CCExperiment.getREDOutputs, CCExperiment.addInput, CCExperiment.addOutput,
    CCExperiment.setSSHServer.
  cbn [CCExperiment.inputs CCExperiment.outputs CCExperiment.set_inputs
       CCExperiment.set_outputs CCExperiment.set_sshServer].
  rewrite Hinputs, Houtputs.
  split; [reflexivity|].
  split; [reflexivity|].
  repeat split; reflexivity.
Qed.

Lemma createDefaultIO_describable_witness :
  let P := Scenario.platform 0 Scenario.offline Scenario.offline Scenario.offline in
  let e := CCExperiment.new Scenario.agency_url "agency_user" "agency_password"
             (VStr "python3") (VStr "dprobst/curious_containers:python")
             (VNum 256) 0 in
  exists e1 e2 r,
    DefaultExperiment.createDefaultIO 0 "3f9a1c0b7d2e4f68" "a85d0e6c41b97f23"
      (VStr "~/shared") "input/workload.py" "input/sleep.RData" "." "127.0.0.1"
      e (Scenario.world [5000; 5001])
    = (Resolved tt, e1, Scenario.world [5001]) /\
    CCExperiment.createRED e1 = inl e2 /\
    CCExperiment.red e2 = Some r /\
    at_path r ["outputs"; "output_directory"; "connector"; "access"]%string
    = Some (VObj [("host", VStr "127.0.0.1"); ("port", VNum 5000);
                  ("auth", VObj [("username", VStr "3f9a1c0b7d2e4f68");
                                 ("password", VStr "a85d0e6c41b97f23")]);
                  ("dirPath", VStr "/shared/.")]).
Proof.
  intros P e.
  destruct (@createDefaultIO_describable P 0 "3f9a1c0b7d2e4f68" "a85d0e6c41b97f23"
              (VStr "~/shared") "input/workload.py" "input/sleep.RData" "."
              "127.0.0.1" e (Scenario.world [5000; 5001]) 5000 [5001]
              eq_refl eq_refl eq_refl)
    as (e1 & e2 & r & Hrun & _ & Hred & Hr & _ & _ & Hout).
  exists e1, e2, r. repeat split; assumption.
Defined.

(** ** Handles of running servers and experiments *)

(** X20.  A handle made by [getExistingSSHServer] from the container
    identifier and the port of a server stops that server as the server
    itself would: same outcome, same commands, same port returned.  (The
    retry settings are those every server is constructed with.) *)
Theorem stopServer_existing_handle {P : Platform}
    (s : SSHServer.t) (w : World) (username password : string) :
  SSHServer.maxStopRetries s = 3 ->
  SSHServer.stopTimeout s = 10000 ->
  let handle := SSHServer.getExistingSSHServer (SSHServer.containerId s)
                  (SSHServer.reservedPort s) username password in
  fst (fst (SSHServer.stopServer handle w)) = fst (fst (SSHServer.stopServer s w)) /\
  snd (SSHServer.stopServer handle w) = snd (SSHServer.stopServer s w).
Proof.
  intros Hretries Htimeout handle. subst handle.
  unfold SSHServer.stopServer, SSHServer.freePort, SSHServer.getExistingSSHServer.
  cbn [SSHServer.new SSHServer.set_reservedPort SSHServer.reservedPort
       SSHServer.set_containerId SSHServer.containerId SSHServer.maxStopRetries
       SSHServer.stopTimeout].
  rewrite Hretries, Htimeout.
  destruct (SSHServer.runDockerCommand _ 3 10000 _) as [[x| | |] w1];
    try (split; reflexivity).
  destruct (SSHServer.runDockerCommand _ 3 10000 w1) as [[y| | |] w2];
    try (split; reflexivity).
  destruct (SSHServer.reservedPort s) as [p|]; [|split; reflexivity].
  destruct (truthy (VNum p)); split; reflexivity.
Qed.

Lemma stopServer_existing_handle_witness :
  let P := Scenario.platform 0 Scenario.offline Scenario.offline Scenario.offline in
  let handle := SSHServer.getExistingSSHServer (VStr "c0ffee") (Some 5000)
                  "9d3c5b7a1e0f2468" "4a6c8e0b2d1f3579" in
  fst (fst (SSHServer.stopServer handle (Scenario.world [5001]))) = Resolved tt /\
  execs (trace (snd (SSHServer.stopServer handle (Scenario.world [5001]))))
  = ["docker stop c0ffee"; "docker rm c0ffee"]%string /\
  availablePorts (snd (SSHServer.stopServer handle (Scenario.world [5001])))
  = [5001; 5000].
Proof.
  intros P handle.
  destruct (@stopServer_existing_handle P Scenario.started_server
              (Scenario.world [5001]) "9d3c5b7a1e0f2468" "4a6c8e0b2d1f3579"
              eq_refl eq_refl) as [Hout Hworld].
  cbv zeta in Hout, Hworld.
  change (SSHServer.getExistingSSHServer
            (SSHServer.containerId Scenario.started_server)
            (SSHServer.reservedPort Scenario.started_server)
            "9d3c5b7a1e0f2468" "4a6c8e0b2d1f3579") with handle in Hout, Hworld.
  rewrite Hout, Hworld. repeat split.
Defined.

Lemma servers_untouched_refl (w : World) : servers_untouched w w.
Proof. repeat split. Qed.

Lemma servers_untouched_trans (a b c : World) :
  servers_untouched a b -> servers_untouched b c -> servers_untouched a c.
Proof.
  intros (H1 & H2 & H3) (H4 & H5 & H6).
  repeat split; congruence.
Qed.

Lemma servers_untouched_request (r : http_request) (w : World) :
  servers_untouched w (log (EvRequest r) w).
Proof.
  rewrite log_is_extend. unfold servers_untouched.
  rewrite trace_extend, execs_app, stops_app. cbn.
  rewrite app_nil_r, Nat.add_0_r. auto.
Qed.

Lemma servers_untouched_clearTimeoutTimer (e : CCExperiment.t) (w : World) :
  servers_untouched w (CCExperiment.clearTimeoutTimer e w).
Proof.
  unfold CCExperiment.clearTimeoutTimer.
  destruct (CCExperiment.timeoutFunction e); repeat split.
Qed.

Lemma servers_untouched_startTimeoutTimer (e : CCExperiment.t) (w : World) :
  servers_untouched w (snd (CCExperiment.startTimeoutTimer e w)) /\
  CCExperiment.sshServer (fst (CCExperiment.startTimeoutTimer e w))
  = CCExperiment.sshServer e.
Proof.
  unfold CCExperiment.startTimeoutTimer, CCExperiment.setTimeout.
  destruct (CCExperiment.timeout e >? 0); cbn [fst snd];
    [|split; [apply servers_untouched_refl | reflexivity]].
  split; [|reflexivity]. unfold servers_untouched. cbn [trace availablePorts].
  rewrite execs_app, stops_app. cbn. rewrite app_nil_r, Nat.add_0_r. auto.
Qed.

Lemma servers_untouched_resolve_batchId {P : Platform}
    (e : CCExperiment.t) (w : World) :
  servers_untouched w (snd (CCExperiment.resolve_batchId e w)) /\
  match fst (CCExperiment.resolve_batchId e w) with
  | Some e1 => CCExperiment.sshServer e1 = CCExperiment.sshServer e
  | None => True
  end.
Proof.
  destruct (resolve_batchId_shape e w) as (evs & Hw & _ & _ & He).
  unfold CCExperiment.resolve_batchId in *.
  destruct (truthy (CCExperiment.batchId e)); cbn [fst snd] in *;
    [split; [apply servers_untouched_refl | reflexivity]|].
  unfold CCExperiment.getBatchId, CCExperiment.send in *.
  destruct (new_URL (CCExperiment.ccAgencyUrl e)) as [url|]; cbn [fst snd];
    [|split; [apply servers_untouched_refl | exact I]].
  match goal with
  | |- context [request ?tr ?r] => destruct (request tr r)
  end; [|split; [apply servers_untouched_request | exact I]
        |split; [apply servers_untouched_refl | exact I]].
  destruct (JSON_parse text) as [json|];
    [|split; [apply servers_untouched_request | exact I]].
  destruct (iterate json) as [l|];
    [|split; [apply servers_untouched_request | exact I]].
  destruct (CCExperiment.find_batch _ l); cbn [fst snd];
    (split; [apply servers_untouched_request | auto]).
Qed.

(** X21.  An experiment that has no server attached (as a handle made by
    [getExistingExperiment] has none) leaves all servers alone: submitting,
    polling and cancelling it run no docker command, enter no [stopServer]
    and leave the pool of ports as it was, and no server is attached
    afterwards either. *)
Theorem no_server_no_teardown {P : Platform} (e : CCExperiment.t) (w : World) :
  CCExperiment.sshServer e = None ->
  (servers_untouched w (snd (CCExperiment.startExperiment e w)) /\
   CCExperiment.sshServer (snd (fst (CCExperiment.startExperiment e w))) = None) /\
  (servers_untouched w (snd (CCExperiment.fetchCurrentStatus e w)) /\
   CCExperiment.sshServer (snd (fst (CCExperiment.fetchCurrentStatus e w))) = None) /\
  (servers_untouched w (snd (CCExperiment.cancelExperiment e w)) /\
   CCExperiment.sshServer (snd (fst (CCExperiment.cancelExperiment e w))) = None).
Proof.
  intros Hnone.
  assert (Hstop : forall e0 w0,
             CCExperiment.sshServer e0 = None ->
             CCExperiment.stop_attached_server e0 w0 = (e0, w0)).
  { intros e0 w0 H0. unfold CCExperiment.stop_attached_server. now rewrite H0. }
  split; [|split].
  - unfold CCExperiment.startExperiment.
    destruct (match CCExperiment.red e with
              | Some _ => inl e
              | None => CCExperiment.createRED e
              end) as [e0|ex] eqn:Hred;
      [|split; [apply servers_untouched_refl | exact Hnone]].
    assert (H0 : CCExperiment.sshServer e0 = None).
    { destruct (job_description_shape e e0 Hred) as [->|[r ->]]; exact Hnone. }
    rewrite H0.
    destruct (new_URL (CCExperiment.ccAgencyUrl e0)) as [url|];
      [|split; [apply servers_untouched_refl | exact H0]].
    unfold CCExperiment.send.
    match goal with
    | |- context [request ?tr ?r] => destruct (request tr r)
    end.
    + destruct (JSON_parse text) as [json|];
        [|split; [apply servers_untouched_request | exact H0]].
      destruct (getProp json "experimentId") as [id|];
        [|split; [apply servers_untouched_request | exact H0]].
      destruct (truthy id);
        [|split; [apply servers_untouched_request | exact H0]].
      match goal with
      | |- context [CCExperiment.startTimeoutTimer ?a ?b] =>
          destruct (servers_untouched_startTimeoutTimer a b) as [Hw He];
          destruct (CCExperiment.startTimeoutTimer a b) as [e2 w2]
      end.
      cbn [fst snd] in *. split; [|now rewrite He].
      eapply servers_untouched_trans; [apply servers_untouched_request | exact Hw].
    + rewrite Hstop by exact H0. cbn [fst snd].
      split; [apply servers_untouched_request | exact H0].
    + split; [apply servers_untouched_refl | exact H0].
  - unfold CCExperiment.fetchCurrentStatus.
    destruct (servers_untouched_resolve_batchId e w) as [Hw He].
    destruct (CCExperiment.resolve_batchId e w) as [[e1|] w1]; cbn [fst snd] in *;
      [|split; [exact Hw | exact Hnone]].
    rewrite Hnone in He.
    destruct (new_URL (CCExperiment.ccAgencyUrl e1)) as [url|];
      [|split; [exact Hw | exact He]].
    unfold CCExperiment.send.
    match goal with
    | |- context [request ?tr ?r] =>
        pose proof (servers_untouched_request r w1) as Hreq;
        destruct (request tr r)
    end; [|split; [eapply servers_untouched_trans; eassumption | exact He]
          |split; [exact Hw | exact He]].
    destruct (JSON_parse text) as [json|];
      [|split; [eapply servers_untouched_trans; eassumption | exact He]].
    destruct (getProp json "state") as [state|] eqn:Hstate.
    + pose proof (on_status_cases json state e1 (log (EvRequest
         (CCExperiment.build_request e1 url
            ("batches/" ++ toString (CCExperiment.batchId e1)) "GET" None)) w1)
         Hstate) as Hcases.
      destruct (CCExperiment.on_status json e1 _) as [[o e2] w2].
      cbn [fst snd]. destruct o; try contradiction.
      * destruct Hcases as (_ & info & Hpair). cbv zeta in Hpair.
        rewrite Hstop in Hpair by exact He.
        assert (Hpair' : e2 = CCExperiment.set_debugInfo info
                                (CCExperiment.set_currentStatus state e1) /\
                         servers_untouched (log (EvRequest
                           (CCExperiment.build_request e1 url
                              ("batches/" ++ toString (CCExperiment.batchId e1))
                              "GET" None)) w1) w2).
        { destruct (terminal state); injection Hpair as -> ->;
            (split; [reflexivity|]);
            [apply servers_untouched_clearTimeoutTimer | apply servers_untouched_refl]. }
        destruct Hpair' as [-> Hw2]. split; [|exact He].
        eapply servers_untouched_trans; [exact Hw|].
        eapply servers_untouched_trans; [exact Hreq | exact Hw2].
      * destruct Hcases as [-> ->]. split; [|exact He].
        eapply servers_untouched_trans; eassumption.
    + unfold CCExperiment.on_status. rewrite Hstate.
      split; [eapply servers_untouched_trans; eassumption | exact He].
  - unfold CCExperiment.cancelExperiment.
    destruct (servers_untouched_resolve_batchId e w) as [Hw He].
    destruct (CCExperiment.resolve_batchId e w) as [[e1|] w1]; cbn [fst snd] in *;
      [|split; [exact Hw | exact Hnone]].
    rewrite Hnone in He.
    pose proof (servers_untouched_clearTimeoutTimer e1 w1) as Hclear.
    pose proof (servers_untouched_trans _ _ _ Hw Hclear) as Hw'.
    destruct (new_URL (CCExperiment.ccAgencyUrl e1)) as [url|];
      [|split; [exact Hw' | exact He]].
    unfold CCExperiment.send.
    match goal with
    | |- context [request ?tr ?r] =>
        pose proof (servers_untouched_request r (CCExperiment.clearTimeoutTimer e1 w1))
          as Hreq;
        destruct (request tr r)
    end; [|split; [eapply servers_untouched_trans; eassumption | exact He]
          |split; [exact Hw' | exact He]].
    destruct (JSON_parse text) as [json|];
      [|split; [eapply servers_untouched_trans; eassumption | exact He]].
    destruct (getProp json "state") as [state|];
      [|split; [eapply servers_untouched_trans; eassumption | exact He]].
    rewrite Hstop by exact He. cbn [fst snd].
    split; [eapply servers_untouched_trans; eassumption | exact He].
Qed.

Lemma no_server_no_teardown_witness :
  let P := Scenario.platform 0 Scenario.offline (Response 200 Scenario.succeeded)
             Scenario.offline in
  let e := CCExperiment.getExistingExperiment Scenario.agency_url "agency_user"
             "agency_password" (VStr "exp1") in
  let polled := CCExperiment.fetchCurrentStatus e (Scenario.world [5001]) in
  fst (fst polled) = Resolved (VStr "succeeded") /\
  execs (trace (snd polled)) = [] /\
  availablePorts (snd polled) = [5001].
Proof.
  intros P e polled.
  destruct (@no_server_no_teardown P e (Scenario.world [5001]) eq_refl)
    as (_ & [(Hexecs & _ & Hports) _] & _).
  split; [reflexivity|]. split; [exact Hexecs | exact Hports].
Defined.

(** ** Connectors and GPUs in the job description *)

(** X22.  What [setAuth] leaves of the credentials in the description of a
    connector: an SSH or HTTP connector carries the user name, the
    credential as the password exactly when the type is "password" and as
    the private key exactly when it is "privatekey" (in any letter case),
    and a passphrase only with a private key; with any other type the
    credential is dropped without an error.  An FTP connector is described
    as if [setAuth] had never been called, and the base connector cannot be
    described at all. *)
Theorem credentials_in_connector_description {P : Platform}
    (type username : string) (credential passphrase : value) (c : CCConnector) :
  let description := getRED (setAuth type username credential passphrase c) in
  let is_password := (toLowerCase type =? "password")%string in
  let is_privatekey := (toLowerCase type =? "privatekey")%string in
  match c with
  | Connector _ => exists ex, description = inr ex
  | CCFTPConnector url _ => description = getRED (CCFTPConnector url None)
  | _ =>
      exists r,
        description = inl r /\
        at_path r ["access"; "auth"; "username"]%string = Some (VStr username) /\
        at_path r ["access"; "auth"; "password"]%string
        = (if is_password then Some credential else None) /\
        at_path r ["access"; "auth"; "privateKey"]%string
        = (if (negb is_password && is_privatekey)%bool then Some credential else None) /\
        at_path r ["access"; "auth"; "passphrase"]%string
        = (if (negb is_password && is_privatekey && truthy passphrase)%bool
           then Some passphrase else None)
  end.
Proof.
  intros description is_password is_privatekey.
  subst description is_password is_privatekey. unfold setAuth.
  destruct c as [a|host path port isDirectory isMountable a|url method ssl a|url a];
    cbn [with_auth getRED].
  - eauto.
  - destruct (toLowerCase type =? "password")%string;
      [|destruct (toLowerCase type =? "privatekey")%string;
        [destruct (truthy passphrase)|]];
      destruct isDirectory, isMountable; eexists; repeat split; reflexivity.
  - destruct (toLowerCase type =? "password")%string;
      [|destruct (toLowerCase type =? "privatekey")%string;
        [destruct (truthy passphrase)|]];
      eexists; repeat split; reflexivity.
  - reflexivity.
Qed.

(** X23.  On an experiment without GPUs, [addGPU] with a positive amount
    puts that many devices with the given memory into the container part of
    the job description; with an amount of zero or less it adds nothing, and
    the description has no "gpus" member. *)
Theorem addGPU_in_description (vramMin : value) (amount : Z) (e : CCExperiment.t) :
  CCExperiment.gpus e = [] ->
  let container := CCExperiment.getREDContainer
                     (CCExperiment.addGPU vramMin amount e) in
  at_path container ["settings"; "gpus"]%string
  = if amount >? 0
    then Some (VObj [("vendor", VStr "nvidia");
                     ("devices",
                      VArr (repeat (VObj [("vramMin", vramMin)]) (Z.to_nat amount)))])
    else None.
Proof.
  intros Hgpus container. subst container.
  unfold CCExperiment.getREDContainer, CCExperiment.addGPU.
  cbn [CCExperiment.gpus CCExperiment.set_gpus CCExperiment.image CCExperiment.ram].
  rewrite Hgpus. cbn [app].
  destruct (amount >? 0) eqn:Hamount.
  - destruct (Z.to_nat amount) as [|n] eqn:Hn; [lia|].
    cbn [repeat]. reflexivity.
  - replace (Z.to_nat amount) with 0%nat by lia. reflexivity.
Qed.

Lemma addGPU_in_description_witness :
  let e := CCExperiment.addGPU (VNum 4096) 2
             (Scenario.experiment Scenario.started_server) in
  at_path (CCExperiment.getREDContainer e) ["settings"; "gpus"]%string
  = Some (VObj [("vendor", VStr "nvidia");
                ("devices", VArr [VObj [("vramMin", VNum 4096)];
                                  VObj [("vramMin", VNum 4096)]])]).
Proof.
  intros e.
  exact (addGPU_in_description (VNum 4096) 2
           (Scenario.experiment Scenario.started_server) eq_refl).
Defined.

(** ** The output streams of a polled experiment *)

Lemma fetchCurrentStatus_identity {P : Platform} (e e1 : CCExperiment.t)
    (w w1 : World) :
  CCExperiment.resolve_batchId e w = (Some e1, w1) ->
  let e' := snd (fst (CCExperiment.fetchCurrentStatus e w)) in
  CCExperiment.batchId e' = CCExperiment.batchId e1 /\
  CCExperiment.ccAgencyUrl e' = CCExperiment.ccAgencyUrl e1 /\
  CCExperiment.ccAgencyUsername e' = CCExperiment.ccAgencyUsername e1 /\
  CCExperiment.ccAgencyPassword e' = CCExperiment.ccAgencyPassword e1.
Proof.
  intros Hres e'. subst e'. unfold CCExperiment.fetchCurrentStatus.
  rewrite Hres.
  destruct (new_URL (CCExperiment.ccAgencyUrl e1)) as [url|]; [|now cbn].
  unfold CCExperiment.send.
  match goal with
  | |- context [request ?tr ?r] => destruct (request tr r)
  end; [|now cbn|now cbn].
  destruct (JSON_parse text) as [json|]; [|now cbn].
  destruct (getProp json "state") as [state|] eqn:Hstate.
  - match goal with
    | |- context [CCExperiment.on_status json e1 ?w2] =>
        pose proof (on_status_cases json state e1 w2 Hstate) as Hcases;
        destruct (CCExperiment.on_status json e1 w2) as [[o e2] w3]
    end.
    cbn [fst snd]. destruct o; try contradiction.
    + destruct Hcases as (_ & info & Hpair). cbv zeta in Hpair.
      destruct (terminal state).
      * match type of Hpair with
        | _ = CCExperiment.stop_attached_server ?a ?b =>
            destruct (stop_attached_server_frame a b) as [[x He2] _]
        end.
        rewrite <- Hpair in He2. cbn [fst] in He2. subst e2. now cbn.
      * injection Hpair as -> _. now cbn.
    + destruct Hcases as [-> _]. now cbn.
  - unfold CCExperiment.on_status. rewrite Hstate. now cbn.
Qed.

(** X24.  [getStd] asks for the stream of the batch the experiment knows.
    After a poll that had to look the batch up and found [id], whatever the
    poll itself came to, [batchId] is [id] and [getStd] makes one call of
    [request], for a GET of [batches/<id>/<stream>] with the credentials of
    the experiment.  When the call returns, that one request is sent, and
    [getStd] resolves with the answer (nothing for a status of 400 or more)
    or is rejected with the transport error.  When the call throws, as it
    does for a path with a character [request] refuses (a space in the
    identifier or the stream, say), nothing is sent and [getStd] is rejected
    with what was thrown. *)
Theorem getStd_after_poll {P : Platform} (e : CCExperiment.t) (w w0 : World)
    (id : value) (url : URL) (stream : string) :
  truthy (CCExperiment.batchId e) = false ->
  fst (CCExperiment.getBatchId e w) = Resolved id ->
  new_URL (CCExperiment.ccAgencyUrl e) = Some url ->
  let e' := snd (fst (CCExperiment.fetchCurrentStatus e w)) in
  let r := CCExperiment.build_request e url
             ("batches/" ++ toString id ++ "/" ++ stream)%string "GET" None in
  CCExperiment.batchId e' = id /\
  match request (trace w0) r with
  | Response statusCode text =>
      CCExperiment.getStd stream e' w0
      = (Resolved (if statusCode >=? 400 then EmptyString else text),
         extend [EvRequest r] w0)
  | RequestError m =>
      CCExperiment.getStd stream e' w0
      = (Rejected (CCExperiment.request_failed m), extend [EvRequest r] w0)
  | RequestThrew thrown =>
      CCExperiment.getStd stream e' w0 = (Rejected thrown, w0)
  end /\
  (unescaped (path (options r)) = true ->
   CCExperiment.getStd stream e' w0
   = (Rejected (TypeError "Request path contains unescaped characters"), w0)).
Proof.
  intros Hbatch Hid Hurl e' r.
  assert (Hres : CCExperiment.resolve_batchId e w
                 = (Some (CCExperiment.set_batchId id e),
                    snd (CCExperiment.getBatchId e w))).
  { unfold CCExperiment.resolve_batchId. rewrite Hbatch.
    destruct (CCExperiment.getBatchId e w) as [o w1]. cbn [fst snd] in *.
    now subst o. }
  destruct (fetchCurrentStatus_identity e _ w _ Hres) as (Hb & Hu & Hn & Hp).
  fold e' in Hb, Hu, Hn, Hp.
  cbn [CCExperiment.batchId CCExperiment.ccAgencyUrl CCExperiment.ccAgencyUsername
       CCExperiment.ccAgencyPassword CCExperiment.set_batchId] in Hb, Hu, Hn, Hp.
  split; [exact Hb|].
  assert (Hsame : CCExperiment.build_request e' url
                    ("batches/" ++ toString (CCExperiment.batchId e') ++ "/" ++ stream)%string
                    "GET" None = r).
  { unfold r, CCExperiment.build_request, CCExperiment.getWebRequestOptions.
    now rewrite Hb, Hn, Hp. }
  assert (Hstd : CCExperiment.getStd stream e' w0
                 = match CCExperiment.send r w0 with
                   | (Response statusCode buffer, w1) =>
                       (Resolved (if statusCode >=? 400 then EmptyString else buffer), w1)
                   | (RequestError m, w1) => (Rejected (CCExperiment.request_failed m), w1)
                   | (RequestThrew thrown, w1) => (Rejected thrown, w1)
                   end).
  { unfold CCExperiment.getStd. rewrite Hu, Hurl. cbv zeta. now rewrite Hsame. }
  rewrite Hstd. unfold CCExperiment.send. split.
  - destruct (request (trace w0) r); reflexivity.
  - intros Hpath. unfold request. now rewrite Hpath.
Qed.

Lemma getStd_after_poll_witness :
  let P := Scenario.platform 0 Scenario.offline (Response 200 Scenario.processing)
             (Response 200 "epoch 1") in
  let e' := snd (fst (CCExperiment.fetchCurrentStatus Timed.experiment Timed.world)) in
  CCExperiment.batchId e' = VStr "batch1" /\
  map (fun r => path (options r))
    (requests (trace (snd (CCExperiment.getStdout e' (Scenario.world [])))))
  = ["/batches/batch1/stdout"]%string /\
  fst (CCExperiment.getStdout e' (Scenario.world [])) = Resolved "epoch 1"%string /\
  CCExperiment.getStd "std out" e' (Scenario.world [])
  = (Rejected (TypeError "Request path contains unescaped characters"),
     Scenario.world []).
Proof.
  intros P e'.
  destruct (@getStd_after_poll P Timed.experiment Timed.world (Scenario.world [])
              (VStr "batch1") _ "stdout" eq_refl eq_refl eq_refl)
    as (Hid & Hsent & _).
  destruct (@getStd_after_poll P Timed.experiment Timed.world (Scenario.world [])
              (VStr "batch1") _ "std out" eq_refl eq_refl eq_refl)
    as (_ & _ & Hthrown).
  fold e' in Hid, Hsent, Hthrown.
  match type of Hsent with
  | match ?q with _ => _ end =>
      change q with (Response 200 "epoch 1"%string) in Hsent
  end.
  cbv beta iota in Hsent.
  split; [exact Hid|].
  unfold CCExperiment.getStdout. rewrite Hsent.
  split; [reflexivity|]. split; [reflexivity|].
  apply Hthrown. reflexivity.
Defined.
